(** * Position-and-settlement core of the trading simulator

    A shallow embedding of [output/backend]: the decimal arithmetic the
    modules rely on, cash accounts, the operation validator, ledger
    entries, holdings, portfolios, the valuation engine and the trading
    engine, followed by the properties of the specification.

    Conventions.
    - A Python value that is handed to [Decimal(...)] is a [pyvalue]:
      [PyDec d] stands for any int, float, str or Decimal [v] with
      [Decimal(v) = d] (the constructor is exact, it never rounds),
      [PyBad e] for a value on which the constructor raises [e], one of
      InvalidOperation (a str that is no number), TypeError and
      ValueError, and [PyNone] for [None] (on which it raises TypeError).
    - A raised exception is [Raise e]; the classes of the repository and
      the built-in ones that occur are the constructors of [exn].
    - Methods that mutate [self] are state transformers returning the
      outcome together with the state the call leaves behind, so that
      what an exception leaves behind is part of the model.
    - Locks are not modelled: every method body is one atomic step. *)

From Stdlib Require Import ZArith Lia Bool Ascii String.
From stdpp Require Import base option list strings gmap.

Local Open Scope Z_scope.

(** ** Exceptions and outcomes *)

Inductive exn : Type :=
  (* decimal module *)
  | InvalidOperation
  | Overflow
  (* built-in *)
  | TypeError
  | ValueError
  | KeyError
  | AttributeError
  | RuntimeError
  (* accounts.py *)
  | AccountInvalidAmountError
  | AccountInsufficientFundsError
  (* account_service.py *)
  | AccountNotFoundError
  (* validators.py *)
  | InvalidAmountError
  | UnsupportedSymbolError
  | InsufficientFundsError
  | InsufficientHoldingsError
  (* transaction.py *)
  | InvalidTransactionError
  (* holding.py *)
  | InvalidQuantityError
  | InvalidPriceError
  | InsufficientQuantityError
  (* portfolio.py *)
  | PortfolioNotFoundError
  (* pricing.py *)
  | PricingUnsupportedSymbolError
  (* valuation.py *)
  | ValuationError
  (* trading.py *)
  | TradingError.

#[global] Instance exn_eq_dec : EqDecision exn.
Proof. solve_decision. Defined.

Inductive result (A : Type) : Type :=
  | OK (a : A)
  | Raise (e : exn).
Arguments OK {A} a.
Arguments Raise {A} e.

#[global] Instance result_ret : MRet result := fun _ a => OK a.
#[global] Instance result_bind : MBind result := fun _ _ f r =>
  match r with OK a => f a | Raise e => Raise e end.
#[global] Instance result_fmap : FMap result := fun _ _ f r =>
  match r with OK a => OK (f a) | Raise e => Raise e end.

Definition is_ok {A} (r : result A) : bool :=
  match r with OK _ => true | Raise _ => false end.

(** [try: c except E: h] where [handles e] tells whether the clause
    catches [e]. *)
Definition try_except {A} (c : result A) (handles : exn -> bool)
    (h : exn -> result A) : result A :=
  match c with
  | OK a => OK a
  | Raise e => if handles e then h e else Raise e
  end.

(** [except Exception] catches every class of [exn]. *)
Definition any_exception (_ : exn) : bool := true.
Definition only (e0 e : exn) : bool := bool_decide (e = e0).

(** ** The decimal module, as far as the code uses it

    Finite numbers are [coef * 10 ^ exp]; the sign of a zero and the
    payload of a NaN are not kept.  The context is the default one with
    [prec = 28], as every module sets it on import: rounding half even,
    [Emax = 999999], [Emin = -999999], and the traps InvalidOperation,
    DivisionByZero and Overflow. *)
Inductive decimal : Type :=
  | Fin (coef exp : Z)
  | Inf (neg : bool)
  | NaN
  | SNaN.

#[global] Instance decimal_eq_dec : EqDecision decimal.
Proof. solve_decision. Defined.

Inductive rounding := ROUND_HALF_UP | ROUND_HALF_EVEN.

Module Decimal.

Definition prec : Z := 28.
Definition Emax : Z := 999999.
Definition Emin : Z := -999999.
Definition Etiny : Z := Emin - prec + 1.
Definition Etop : Z := Emax - prec + 1.

(** [len(self._int)]: the number of decimal digits of the coefficient,
    1 for zero. *)
Fixpoint ndigits_aux (fuel : nat) (n : Z) : Z :=
  match fuel with
  | O => 1
  | S f => if n <? 10 then 1 else 1 + ndigits_aux f (n / 10)
  end.

Definition ndigits (n : Z) : Z :=
  ndigits_aux (Z.to_nat (Z.log2 (Z.abs n))) (Z.abs n).

(** Rounding of [n / d] ([0 < d]) on the magnitude, the sign kept. *)
Definition round_half_up (n d : Z) : Z :=
  Z.sgn n * ((2 * Z.abs n + d) / (2 * d)).

Definition round_half_even (n d : Z) : Z :=
  let q := Z.abs n / d in
  let r := Z.abs n mod d in
  Z.sgn n *
  (if 2 * r <? d then q
   else if d <? 2 * r then q + 1
   else if Z.even q then q else q + 1).

Definition round_div (rm : rounding) (n d : Z) : Z :=
  match rm with
  | ROUND_HALF_UP => round_half_up n d
  | ROUND_HALF_EVEN => round_half_even n d
  end.

(** [_rescale]: the coefficient of [m * 10 ^ e] at exponent [exp]. *)
Definition _rescale (m e exp : Z) (rm : rounding) : Z :=
  if exp <=? e then m * 10 ^ (e - exp)
  else round_div rm m (10 ^ (exp - e)).

(** [_fix]: round a finite result to the context. *)
Definition _fix (m e : Z) : result decimal :=
  if m =? 0 then OK (Fin 0 (Z.min (Z.max e Etiny) Emax))
  else
    let exp_min := ndigits m + e - prec in
    if Etop <? exp_min then Raise Overflow
    else
      let exp_min := Z.max exp_min Etiny in
      if e <? exp_min then
        let c := round_div ROUND_HALF_EVEN m (10 ^ (exp_min - e)) in
        if prec <? ndigits c then
          if Etop <? exp_min + 1 then Raise Overflow
          else OK (Fin (Z.quot c 10) (exp_min + 1))
        else OK (Fin c exp_min)
      else OK (Fin m e).

Definition _check_nans (a b : decimal) : option (result decimal) :=
  match a, b with
  | SNaN, _ | _, SNaN => Some (Raise InvalidOperation)
  | NaN, _ | _, NaN => Some (OK NaN)
  | _, _ => None
  end.

(** [self.quantize(exp, rounding=rm)] *)
Definition quantize (d q : decimal) (rm : rounding) : result decimal :=
  match _check_nans d q with
  | Some r => r
  | None =>
    match d, q with
    | Inf s, Inf _ => OK (Inf s)
    | Fin m e, Fin _ exp =>
        if negb ((Etiny <=? exp) && (exp <=? Emax)) then Raise InvalidOperation
        else if m =? 0 then _fix 0 exp
        else
          let self_adjusted := e + ndigits m - 1 in
          if Emax <? self_adjusted then Raise InvalidOperation
          else if prec <? self_adjusted - exp + 1 then Raise InvalidOperation
          else
            let c := _rescale m e exp rm in
            if Emax <? exp + ndigits c - 1 then Raise InvalidOperation
            else if prec <? ndigits c then Raise InvalidOperation
            else _fix c exp
    | _, _ => Raise InvalidOperation
    end
  end.

Definition neg (a : decimal) : decimal :=
  match a with
  | Fin m e => Fin (- m) e
  | Inf s => Inf (negb s)
  | NaN => NaN
  | SNaN => SNaN
  end.

(** [a + b] *)
Definition add (a b : decimal) : result decimal :=
  match _check_nans a b with
  | Some r => r
  | None =>
    match a, b with
    | Inf s, Inf s' => if eqb s s' then OK (Inf s) else Raise InvalidOperation
    | Inf s, _ => OK (Inf s)
    | _, Inf s => OK (Inf s)
    | Fin m1 e1, Fin m2 e2 =>
        let e := Z.min e1 e2 in
        _fix (m1 * 10 ^ (e1 - e) + m2 * 10 ^ (e2 - e)) e
    | _, _ => OK NaN
    end
  end.

(** [a - b] *)
Definition sub (a b : decimal) : result decimal := add a (neg b).

(** [a * b] *)
Definition mul (a b : decimal) : result decimal :=
  match _check_nans a b with
  | Some r => r
  | None =>
    match a, b with
    | Inf s, Inf s' => OK (Inf (xorb s s'))
    | Inf s, Fin m _ | Fin m _, Inf s =>
        if m =? 0 then Raise InvalidOperation else OK (Inf (xorb s (m <? 0)))
    | Fin m1 e1, Fin m2 e2 => _fix (m1 * m2) (e1 + e2)
    | _, _ => OK NaN
    end
  end.

(** [_cmp] on numbers that are not NaN. *)
Definition _cmp (a b : decimal) : comparison :=
  match a, b with
  | Fin m1 e1, Fin m2 e2 =>
      let e := Z.min e1 e2 in
      (m1 * 10 ^ (e1 - e)) ?= (m2 * 10 ^ (e2 - e))
  | Inf s, Inf s' =>
      if eqb s s' then Eq else if s then Lt else Gt
  | Inf s, _ => if s then Lt else Gt
  | _, Inf s => if s then Gt else Lt
  | _, _ => Eq
  end.

Definition is_nan (a : decimal) : bool :=
  match a with NaN | SNaN => true | _ => false end.

(** The ordering comparisons signal InvalidOperation on a NaN. *)
Definition ordered (test : comparison -> bool) (a b : decimal) : result bool :=
  if is_nan a || is_nan b then Raise InvalidOperation
  else OK (test (_cmp a b)).

Definition le := ordered (fun c => match c with Gt => false | _ => true end).
Definition lt := ordered (fun c => match c with Lt => true | _ => false end).
Definition gt := ordered (fun c => match c with Gt => true | _ => false end).

(** [a == b]: false on a quiet NaN, InvalidOperation on a signalling one. *)
Definition eq (a b : decimal) : result bool :=
  match a, b with
  | SNaN, _ | _, SNaN => Raise InvalidOperation
  | NaN, _ | _, NaN => OK false
  | _, _ => OK (match _cmp a b with Eq => true | _ => false end)
  end.

Definition zero : decimal := Fin 0 0.

End Decimal.

(** ** Python values that reach [Decimal(...)] *)
Inductive pyvalue : Type :=
  | PyNone
  | PyDec (d : decimal)
  | PyBad (raised : exn).

(** [Decimal(value)]; [None] when the constructor raises one of
    InvalidOperation, TypeError, ValueError. *)
Definition Decimal_of (v : pyvalue) : option decimal :=
  match v with
  | PyDec d => Some d
  | PyNone | PyBad _ => None
  end.

(** [Decimal(value)] where the code does not catch what it raises. *)
Definition Decimal_ctor (v : pyvalue) : result decimal :=
  match v with
  | PyDec d => OK d
  | PyNone => Raise TypeError
  | PyBad e => Raise e
  end.

Definition is_None (v : pyvalue) : bool :=
  match v with PyNone => true | _ => false end.

(** ** Methods as state transformers *)

Definition M (S A : Type) : Type := S -> result A * S.

Definition sret {S A} (a : A) : M S A := fun s => (OK a, s).
Definition sraise {S A} (e : exn) : M S A := fun s => (Raise e, s).
Definition lift {S A} (r : result A) : M S A := fun s => (r, s).
Definition sget {S} : M S S := fun s => (OK s, s).
Definition sput {S} (s : S) : M S unit := fun _ => (OK tt, s).
Definition sbind {S A B} (m : M S A) (f : A -> M S B) : M S B :=
  fun s =>
    match m s with
    | (OK a, s') => f a s'
    | (Raise e, s') => (Raise e, s')
    end.

(** [try: c except E: h], the state changes of [c] kept. *)
Definition stry {S A} (c : M S A) (handles : exn -> bool)
    (h : exn -> M S A) : M S A :=
  fun s =>
    match c s with
    | (OK a, s') => (OK a, s')
    | (Raise e, s') => if handles e then h e s' else (Raise e, s')
    end.

Notation "'let!' x ':=' m 'in' k" := (sbind m (fun x => k))
  (at level 10, x name, m at level 100, k at level 200, only parsing).
Notation "m ';;!' k" := (sbind m (fun _ => k))
  (at level 100, k at level 200, right associativity, only parsing).

(** ** accounts.py *)
Module accounts.

Definition _CENT : decimal := Fin 1 (-2).

Definition _to_decimal (amount : pyvalue) : result decimal :=
  match Decimal_of amount with
  | None => Raise AccountInvalidAmountError
  | Some dec => Decimal.quantize dec _CENT ROUND_HALF_UP
  end.

Record Account : Type := {
  owner : string;
  account_id : string;
  balance : decimal;
  currency : string;
}.

Definition set_balance (b : decimal) (a : Account) : Account :=
  {| owner := owner a; account_id := account_id a; balance := b;
     currency := currency a |}.

(** The dataclass constructor, [__post_init__] included.  The generated
    [account_id] of the default factory is the caller's [account_id]. *)
Definition Account_init (owner account_id : string) (balance : pyvalue)
    (currency : string) : result Account :=
  b ← _to_decimal balance;
  negative ← Decimal.lt b (Fin 0 0);
  if negative : bool then Raise AccountInvalidAmountError
  else OK {| owner := owner; account_id := account_id; balance := b;
             currency := currency |}.

Definition create (owner : string) (initial_deposit : pyvalue)
    (currency account_id : string) : result Account :=
  if bool_decide (owner = "") then Raise ValueError
  else
    balance ← _to_decimal initial_deposit;
    negative ← Decimal.lt balance (Fin 0 0);
    if negative : bool then Raise AccountInvalidAmountError
    else Account_init owner account_id (PyDec balance) currency.

Definition deposit (amount : pyvalue) : M Account decimal :=
  let! dec_amount := lift (_to_decimal amount) in
  let! nonpos := lift (Decimal.le dec_amount (Fin 0 0)) in
  if nonpos : bool then sraise AccountInvalidAmountError
  else
    let! self := sget in
    let! total := lift (Decimal.add (balance self) dec_amount) in
    let! b := lift (Decimal.quantize total _CENT ROUND_HALF_UP) in
    sput (set_balance b self) ;;!
    sret b.

Definition withdraw (amount : pyvalue) : M Account decimal :=
  let! dec_amount := lift (_to_decimal amount) in
  let! nonpos := lift (Decimal.le dec_amount (Fin 0 0)) in
  if nonpos : bool then sraise AccountInvalidAmountError
  else
    let! self := sget in
    let! exceeds := lift (Decimal.gt dec_amount (balance self)) in
    if exceeds : bool then sraise AccountInsufficientFundsError
    else
      let! rest := lift (Decimal.sub (balance self) dec_amount) in
      let! b := lift (Decimal.quantize rest _CENT ROUND_HALF_UP) in
      sput (set_balance b self) ;;!
      sret b.

(** [Decimal(self.balance)]: a Decimal is immutable, the copy is the
    value. *)
Definition get_balance : M Account decimal :=
  let! self := sget in sret (balance self).




(** The amount of an operation in cents, rounded half up on its own. *)
Definition cents_of (v : pyvalue) : Z :=
  match v with
  | PyDec (Fin m e) => Decimal._rescale m e (-2) ROUND_HALF_UP
  | _ => 0
  end.



(** What [__post_init__] establishes and the two methods keep: a balance
    in cents that is not negative and fits the precision. *)
Definition balance_ok (a : Account) (c : Z) : Prop :=
  balance a = Fin c (-2) /\ 0 <= c < 10 ^ 28.

End accounts.

(** ** Strings

    Symbols and identifiers are [string]s, one character per code
    point below 256.  [upper] is [str.upper] on ASCII text only: the
    letters a to z are mapped, every other character is kept, whereas
    [str.upper] also maps the cased letters beyond code point 127 and
    can change the length of the text.  What is proved about the case
    of letters is therefore stated for ASCII text, [isascii].  [strip]
    is [str.strip()]: it removes the leading and trailing whitespace
    characters, which below code point 256 are 9 to 13, 28 to 32, 133
    and 160. *)

Definition upper_ascii (ch : ascii) : ascii :=
  let n := nat_of_ascii ch in
  if ((97 <=? n) && (n <=? 122))%nat then ascii_of_nat (n - 32) else ch.

Fixpoint upper (s : string) : string :=
  match s with
  | EmptyString => EmptyString
  | String ch s' => String (upper_ascii ch) (upper s')
  end.

(** [str.isascii()]: every code point is below 128. *)
Fixpoint isascii (s : string) : bool :=
  match s with
  | EmptyString => true
  | String ch s' => (nat_of_ascii ch <? 128)%nat && isascii s'
  end.

Definition is_space (ch : ascii) : bool :=
  let n := nat_of_ascii ch in
  (((9 <=? n) && (n <=? 13)) || ((28 <=? n) && (n <=? 32))
   || (n =? 133) || (n =? 160))%nat.

Fixpoint lstrip (s : string) : string :=
  match s with
  | EmptyString => EmptyString
  | String ch s' => if is_space ch then lstrip s' else s
  end.

Fixpoint rstrip (s : string) : string :=
  match s with
  | EmptyString => EmptyString
  | String ch s' =>
      match rstrip s' with
      | EmptyString => if is_space ch then EmptyString else String ch EmptyString
      | r => String ch r
      end
  end.

Definition strip (s : string) : string := rstrip (lstrip s).

(** Truth value of a [str]: false for the empty one. *)
Definition truthy (s : string) : bool := negb (bool_decide (s = "")).

(** ** validators.py *)
Module validators.

Definition _CENT : decimal := Fin 1 (-2).
Definition _QTY : decimal := Fin 1 (-8).

Definition _to_decimal_cents (value : pyvalue) : result decimal :=
  match Decimal_of value with
  | None => Raise InvalidAmountError
  | Some dec => Decimal.quantize dec _CENT ROUND_HALF_UP
  end.

Definition _to_quantity (value : pyvalue) : result decimal :=
  match Decimal_of value with
  | None => Raise InvalidAmountError
  | Some dec => Decimal.quantize dec _QTY ROUND_HALF_UP
  end.

Record OperationValidator : Type := {
  _supported : option (gset string);
}.

(** [OperationValidator(supported_symbols)] *)
Definition OperationValidator_init (supported_symbols : option (list string))
    : OperationValidator :=
  {| _supported := (fun l => list_to_set (upper <$> l)) <$> supported_symbols |}.

Definition is_supported (self : OperationValidator) (symbol : string) : bool :=
  if negb (truthy symbol) then false
  else
    match _supported self with
    | None => true
    | Some sup => bool_decide (upper symbol ∈ sup)
    end.

Definition validate_symbol (self : OperationValidator) (symbol : string)
    : result string :=
  if negb (truthy symbol) then Raise UnsupportedSymbolError
  else
    let up := upper symbol in
    match _supported self with
    | Some sup =>
        if negb (bool_decide (up ∈ sup)) then Raise UnsupportedSymbolError
        else OK up
    | None => OK up
    end.

Definition validate_amount (amount : pyvalue) : result decimal :=
  dec ← _to_decimal_cents amount;
  nonpos ← Decimal.le dec (Fin 0 0);
  if nonpos : bool then Raise InvalidAmountError else OK dec.

Definition validate_non_negative_amount (amount : pyvalue) : result decimal :=
  dec ← _to_decimal_cents amount;
  negative ← Decimal.lt dec (Fin 0 0);
  if negative : bool then Raise InvalidAmountError else OK dec.

Definition validate_sufficient_funds (balance amount : pyvalue) : result decimal :=
  amt ← validate_amount amount;
  bal ← try_except (_to_decimal_cents balance) (only InvalidAmountError)
          (fun _ => Raise InsufficientFundsError);
  exceeds ← Decimal.gt amt bal;
  if exceeds : bool then Raise InsufficientFundsError else OK amt.

Definition validate_sufficient_quantity (holding_quantity quantity : pyvalue)
    : result decimal :=
  qty ← _to_quantity quantity;
  nonpos ← Decimal.le qty (Fin 0 0);
  if nonpos : bool then Raise InvalidAmountError
  else
    hold ← try_except (_to_quantity holding_quantity) (only InvalidAmountError)
             (fun _ => Raise InsufficientHoldingsError);
    exceeds ← Decimal.gt qty hold;
    if exceeds : bool then Raise InsufficientHoldingsError else OK qty.

End validators.

(** ** transaction.py *)

(** A [datetime]: the wall-clock reading and the attached zone, as its
    offset to UTC in minutes, if there is one. *)
Record datetime : Type := {
  wall_clock : Z;
  tzinfo : option Z;
}.

(** [dt.replace(tzinfo=timezone.utc)] *)
Definition replace_tzinfo_utc (dt : datetime) : datetime :=
  {| wall_clock := wall_clock dt; tzinfo := Some 0 |}.

(** Truth value of an [Optional[str]]: false for [None] and for [""]. *)
Definition truthy_opt (s : option string) : bool :=
  match s with
  | None => false
  | Some s => truthy s
  end.

Module transaction.

Definition _CENT : decimal := Fin 1 (-2).
Definition _QTY : decimal := Fin 1 (-8).

Definition _to_decimal (value : pyvalue) : result decimal :=
  match Decimal_of value with
  | None => Raise InvalidTransactionError
  | Some dec => Decimal.quantize dec _CENT ROUND_HALF_UP
  end.

Definition _to_quantity (value : pyvalue) : result decimal :=
  match Decimal_of value with
  | None => Raise InvalidTransactionError
  | Some dec => Decimal.quantize dec _QTY ROUND_HALF_UP
  end.

(** The fields of the frozen dataclass.  A field holds whatever the
    caller passed until [__post_init__] replaces it: the dataclass
    does not check the annotations. *)
Record Transaction : Type := {
  transaction_id : string;
  kind : string;
  account_id : option string;
  from_account : option string;
  to_account : option string;
  quantity : pyvalue;
  price : pyvalue;
  amount : pyvalue;
  profit_loss : pyvalue;
  created_at : datetime;
  executed_at : option datetime;
  metadata : option (list (string * string));
}.

(** [object.__setattr__(self, name, value)] *)
Definition set_created_at (v : datetime) (t : Transaction) : Transaction :=
  {| transaction_id := transaction_id t; kind := kind t;
     account_id := account_id t; from_account := from_account t;
     to_account := to_account t; quantity := quantity t; price := price t;
     amount := amount t; profit_loss := profit_loss t; created_at := v;
     executed_at := executed_at t; metadata := metadata t |}.

Definition set_executed_at (v : option datetime) (t : Transaction) : Transaction :=
  {| transaction_id := transaction_id t; kind := kind t;
     account_id := account_id t; from_account := from_account t;
     to_account := to_account t; quantity := quantity t; price := price t;
     amount := amount t; profit_loss := profit_loss t;
     created_at := created_at t; executed_at := v; metadata := metadata t |}.

Definition set_quantity (v : pyvalue) (t : Transaction) : Transaction :=
  {| transaction_id := transaction_id t; kind := kind t;
     account_id := account_id t; from_account := from_account t;
     to_account := to_account t; quantity := v; price := price t;
     amount := amount t; profit_loss := profit_loss t;
     created_at := created_at t; executed_at := executed_at t;
     metadata := metadata t |}.

Definition set_price (v : pyvalue) (t : Transaction) : Transaction :=
  {| transaction_id := transaction_id t; kind := kind t;
     account_id := account_id t; from_account := from_account t;
     to_account := to_account t; quantity := quantity t; price := v;
     amount := amount t; profit_loss := profit_loss t;
     created_at := created_at t; executed_at := executed_at t;
     metadata := metadata t |}.

Definition set_amount (v : pyvalue) (t : Transaction) : Transaction :=
  {| transaction_id := transaction_id t; kind := kind t;
     account_id := account_id t; from_account := from_account t;
     to_account := to_account t; quantity := quantity t; price := price t;
     amount := v; profit_loss := profit_loss t;
     created_at := created_at t; executed_at := executed_at t;
     metadata := metadata t |}.

Definition set_profit_loss (v : pyvalue) (t : Transaction) : Transaction :=
  {| transaction_id := transaction_id t; kind := kind t;
     account_id := account_id t; from_account := from_account t;
     to_account := to_account t; quantity := quantity t; price := price t;
     amount := amount t; profit_loss := v;
     created_at := created_at t; executed_at := executed_at t;
     metadata := metadata t |}.

Definition _ALLOWED_KINDS : list string := ["deposit"; "withdrawal"; "buy"; "sell"].

(** Lines 107 to 176, with the indentation the file has: the [else] of
    line 140 belongs to the [if] of line 138, and lines 149 to 176 are at
    the depth of that [if], inside the branch of line 120. *)
Definition __post_init__ (self : Transaction) : result Transaction :=
  if negb (bool_decide (kind self ∈ _ALLOWED_KINDS))
  then Raise InvalidTransactionError
  else
    let self :=
      match tzinfo (created_at self) with
      | None => set_created_at (replace_tzinfo_utc (created_at self)) self
      | Some _ => self
      end in
    let self :=
      match executed_at self with
      | Some dt =>
          match tzinfo dt with
          | None => set_executed_at (Some (replace_tzinfo_utc dt)) self
          | Some _ => self
          end
      | None => self
      end in
    if bool_decide (kind self ∈ ["deposit"; "withdrawal"]) then
      if negb (truthy_opt (account_id self)) then Raise InvalidTransactionError
      else
        amt ← try_except (_to_decimal (amount self)) (only InvalidTransactionError)
                (fun _ => Raise InvalidTransactionError);
        nonpos ← Decimal.le amt (Fin 0 0);
        if nonpos : bool then Raise InvalidTransactionError
        else
          let self := set_amount (PyDec amt) self in
          _ ← (if negb (is_None (quantity self)) || negb (is_None (price self))
               then Raise InvalidTransactionError
               else
                 if negb (truthy_opt (account_id self))
                 then Raise InvalidTransactionError
                 else if is_None (quantity self) then Raise InvalidTransactionError
                 else if is_None (price self) then Raise InvalidTransactionError
                 else OK tt);
          qty ← try_except (_to_quantity (quantity self)) (only InvalidTransactionError)
                  (fun _ => Raise InvalidTransactionError);
          pr ← try_except (_to_decimal (price self)) (only InvalidTransactionError)
                 (fun _ => Raise InvalidTransactionError);
          nonpos_q ← Decimal.le qty (Fin 0 0);
          if nonpos_q : bool then Raise InvalidTransactionError
          else
            nonpos_p ← Decimal.le pr (Fin 0 0);
            if nonpos_p : bool then Raise InvalidTransactionError
            else
              product ← Decimal.mul qty pr;
              amt ← Decimal.quantize product _CENT ROUND_HALF_UP;
              let self := set_quantity (PyDec qty) self in
              let self := set_price (PyDec pr) self in
              let self := set_amount (PyDec amt) self in
              if negb (is_None (profit_loss self)) then
                pl ← try_except (_to_decimal (profit_loss self))
                       (only InvalidTransactionError)
                       (fun _ => Raise InvalidTransactionError);
                OK (set_profit_loss (PyDec pl) self)
              else OK self
    else OK self.

(** [Transaction(...)]: the generated [__init__] stores the arguments and
    calls [__post_init__]; the entry exists only if that returns.  The
    values the default factories would make (a fresh id, the current
    time) are the caller's. *)
Definition Transaction_init (fields : Transaction) : result Transaction :=
  __post_init__ fields.

(** The default of the field [amount]: [Decimal('0.00')]. *)
Definition default_amount : pyvalue := PyDec (Fin 0 (-2)).

(** An entry with the defaults of the dataclass for all but the id, the
    kind and the time of creation. *)
Definition defaults (tid kind : string) (ca : datetime) : Transaction :=
  {| transaction_id := tid; kind := kind; account_id := None;
     from_account := None; to_account := None; quantity := PyNone;
     price := PyNone; amount := default_amount; profit_loss := PyNone;
     created_at := ca; executed_at := None; metadata := None |}.

(** Line 178 is one comment: the text of the factories [deposit],
    [withdrawal] and [trade], of [to_dict] and of [__repr__] follows its
    [#] with the line breaks written as backslash-n.  The class has no
    attribute [trade]; looking it up raises AttributeError. *)
Definition trade (account_id : option string) (side : string)
    (quantity price : pyvalue) (transaction_id : string) (created_at : datetime)
    (profit_loss : pyvalue) : result Transaction :=
  Raise AttributeError.

(** What the text of [trade] on line 178 would do were it code.  Its
    [side.lower()] is the identity on the two sides the engine passes. *)
Definition trade_as_written (account_id : option string) (side : string)
    (quantity price : pyvalue) (transaction_id : string) (created_at : datetime)
    (profit_loss : pyvalue) : result Transaction :=
  if negb (bool_decide (side ∈ ["buy"; "sell"])) then Raise InvalidTransactionError
  else
    pl ← (if negb (is_None profit_loss)
          then PyDec <$> _to_decimal profit_loss else OK PyNone);
    qty ← _to_quantity quantity;
    pr ← _to_decimal price;
    Transaction_init
      {| transaction_id := transaction_id; kind := side;
         account_id := account_id; from_account := None; to_account := None;
         quantity := PyDec qty; price := PyDec pr; amount := default_amount;
         profit_loss := pl; created_at := created_at; executed_at := None;
         metadata := None |}.

(** A time of creation for the examples, already in UTC. *)
Definition noon : datetime := {| wall_clock := 1577880000; tzinfo := Some 0 |}.

(** A value is quantized to [places] decimals when it is a finite
    Decimal with that exponent. *)
Definition quantized_to (places : Z) (v : pyvalue) : Prop :=
  exists c, v = PyDec (Fin c (- places)).

End transaction.

(** ** holding.py

    Modelled from the spec: [holding.py] is not among the sources.  The
    class follows sections 3, 4.1 and 4.3 of the specification, with its
    arbitrary-precision arithmetic read as exact arithmetic,
    and tests/test_holding.py for the constructor (an empty symbol is a
    ValueError, quantity and average cost are normalized). *)
Module holding.

Record Holding : Type := {
  symbol : string;
  quantity : decimal;
  average_cost : decimal;
  currency : string;
}.

Definition set_position (q avg : decimal) (h : Holding) : Holding :=
  {| symbol := symbol h; quantity := q; average_cost := avg;
     currency := currency h |}.

(** Modelled from the spec: [toMoney] of section 4.1 ([holding.py] is
    missing); a value that is not a number is an InvalidAmount. *)
Definition toMoney (input : pyvalue) : result decimal :=
  match input with
  | PyDec (Fin m e) => OK (Fin (Decimal._rescale m e (-2) ROUND_HALF_UP) (-2))
  | _ => Raise InvalidAmountError
  end.

(** Modelled from the spec: [toQuantity] of section 4.1 ([holding.py] is
    missing). *)
Definition toQuantity (input : pyvalue) : result decimal :=
  match input with
  | PyDec (Fin m e) => OK (Fin (Decimal._rescale m e (-8) ROUND_HALF_UP) (-8))
  | _ => Raise InvalidAmountError
  end.

Definition positive (d : decimal) : bool :=
  match d with Fin m _ => 0 <? m | _ => false end.

(** Exact sum and difference of two finite decimals. *)
Definition exact_add (a b : decimal) : decimal :=
  match a, b with
  | Fin m1 e1, Fin m2 e2 =>
      let e := Z.min e1 e2 in Fin (m1 * 10 ^ (e1 - e) + m2 * 10 ^ (e2 - e)) e
  | _, _ => a
  end.

Definition exact_sub (a b : decimal) : decimal := exact_add a (Decimal.neg b).

Definition is_zero (d : decimal) : bool :=
  match d with Fin m _ => m =? 0 | _ => false end.

(** Modelled from the spec: the constructor of [Holding] ([holding.py]
    is missing), [Holding(symbol, quantity, average_cost, currency)]. *)
Definition Holding_init (symbol : string) (quantity average_cost : pyvalue)
    (currency : string) : result Holding :=
  let sym := strip symbol in
  if negb (truthy sym) then Raise ValueError
  else
    q ← toQuantity quantity;
    avg ← toMoney average_cost;
    OK {| symbol := sym; quantity := q; average_cost := avg;
          currency := currency |}.

Definition exact_mul (a b : decimal) : decimal :=
  match a, b with
  | Fin m1 e1, Fin m2 e2 => Fin (m1 * m2) (e1 + e2)
  | _, _ => a
  end.

(** A finite decimal rounded half up to [places] fractional digits. *)
Definition quantize_half_up (places : Z) (d : decimal) : decimal :=
  match d with
  | Fin m e => Fin (Decimal._rescale m e (- places) ROUND_HALF_UP) (- places)
  | _ => d
  end.

(** The exact quotient [a / b] rounded half up to [places] fractional
    digits: both coefficients are brought to the scale at which their
    quotient counts units of [10 ^ - places]. *)
Definition divide_half_up (places : Z) (a b : decimal) : decimal :=
  match a, b with
  | Fin n en, Fin d ed =>
      let s := en - ed + places in
      let n' := Z.sgn d * (if 0 <=? s then n * 10 ^ s else n) in
      let d' := Z.abs d * (if 0 <=? s then 1 else 10 ^ (- s)) in
      Fin (Decimal.round_half_up n' d') (- places)
  | _, _ => a
  end.

(** The average cost after buying [qty] at [pr] on top of [old_qty] held
    at [old_avg]: [(old_qty*old_avg + qty*pr) / (old_qty+qty)] in cents. *)
Definition weighted_average (old_qty old_avg qty pr : decimal) : decimal :=
  divide_half_up 2
    (exact_add (exact_mul old_qty old_avg) (exact_mul qty pr))
    (exact_add old_qty qty).

(** Modelled from the spec: [Holding.buy] of section 4.3 ([holding.py]
    is missing). *)
Definition buy (quantity price : pyvalue) : M Holding decimal :=
  let! qty := lift (toQuantity quantity) in
  if negb (positive qty) then sraise InvalidQuantityError
  else
    let! pr := lift (toMoney price) in
    if negb (positive pr) then sraise InvalidPriceError
    else
      let! self := sget in
      let new_avg :=
        weighted_average (holding.quantity self) (average_cost self) qty pr in
      let new_qty := exact_add (holding.quantity self) qty in
      sput (set_position new_qty new_avg self) ;;!
      sret new_qty.

(** Modelled from the spec: [Holding.sell] of section 4.3 ([holding.py]
    is missing). *)
Definition sell (quantity price : pyvalue) : M Holding decimal :=
  let! qty := lift (toQuantity quantity) in
  if negb (positive qty) then sraise InvalidQuantityError
  else
    let! pr := lift (toMoney price) in
    if negb (positive pr) then sraise InvalidPriceError
    else
      let! self := sget in
      match Decimal._cmp qty (holding.quantity self) with
      | Gt => sraise InsufficientQuantityError
      | _ =>
          let pnl :=
            quantize_half_up 2
              (exact_mul (exact_sub pr (average_cost self)) qty) in
          let new_qty := exact_sub (holding.quantity self) qty in
          let new_avg :=
            if is_zero new_qty then Fin 0 (-2) else average_cost self in
          sput (set_position new_qty new_avg self) ;;!
          sret pnl
      end.

(** Modelled from the spec: [marketValue] of section 4.3 ([holding.py]
    is missing). *)
Definition market_value (price : pyvalue) : M Holding decimal :=
  let! pr := lift (toMoney price) in
  let! self := sget in
  sret (quantize_half_up 2 (exact_mul (holding.quantity self) pr)).

End holding.

(** ** portfolio.py

    Holdings are objects with identity: the portfolio's dict maps a
    symbol to a reference, and the object lives in the heap.  A list
    returned to a caller is an object of the heap too. *)

Definition loc : Type := positive.

Inductive obj : Type :=
  | OHolding (h : holding.Holding)
  | OList (items : list loc).

Module portfolio.

Definition _CENT : decimal := Fin 1 (-2).

Record Portfolio : Type := {
  portfolio_id : string;
  owner : string;
  account_id : option string;
  currency : string;
  _holdings : gmap string loc;
}.

Definition set_holdings (m : gmap string loc) (p : Portfolio) : Portfolio :=
  {| portfolio_id := portfolio_id p; owner := owner p;
     account_id := account_id p; currency := currency p; _holdings := m |}.

(** [Portfolio(portfolio_id, owner, account_id, currency)] *)
Definition Portfolio_init (portfolio_id owner : string)
    (account_id : option string) (currency : string) : result Portfolio :=
  if negb (truthy portfolio_id) then Raise ValueError
  else if negb (truthy owner) then Raise ValueError
  else OK {| portfolio_id := portfolio_id; owner := owner;
             account_id := account_id; currency := currency;
             _holdings := ∅ |}.

(** The state a method of a portfolio runs on: the heap and [self]. *)
Definition state : Type := gmap loc obj * Portfolio.

Definition _normalize_symbol (symbol : string) : result string :=
  if negb (truthy symbol) then Raise ValueError else OK (strip symbol).

(** The holding a reference points to. *)
Definition deref (hp : gmap loc obj) (l : loc) : option holding.Holding :=
  match hp !! l with
  | Some (OHolding h) => Some h
  | _ => None
  end.

(** A method call on the holding at [l]: the object in the heap is the
    one that changes.  References of the program never dangle; a missing
    object is a RuntimeError here. *)
Definition call_holding {A} (l : loc) (method : M holding.Holding A)
    : M state A :=
  fun st =>
    match deref st.1 l with
    | Some h =>
        let '(r, h') := method h in
        (r, (<[l := OHolding h']> st.1, st.2))
    | None => (Raise RuntimeError, st)
    end.

(** A new object: its reference is none of those in use. *)
Definition alloc (o : obj) : M state loc :=
  fun st =>
    let l := fresh (dom st.1) in
    (OK l, (<[l := o]> st.1, st.2)).

Definition put_holdings (m : gmap string loc) : M state unit :=
  fun st => (OK tt, (st.1, set_holdings m st.2)).

Definition add_holding (h : loc) : M state unit :=
  let! st := sget in
  match deref st.1 h with
  | None => sraise TypeError
  | Some hd =>
      let! sym := lift (_normalize_symbol (holding.symbol hd)) in
      put_holdings (<[sym := h]> (_holdings st.2))
  end.

Definition get_holding (symbol : string) : M state (option loc) :=
  let! sym := lift (_normalize_symbol symbol) in
  let! st := sget in
  sret (_holdings st.2 !! sym).

(** [list(self._holdings.values())].  The dict is a finite map, so the
    list comes in the order of the map's keys, where Python gives the
    order of insertion: the elements are the same, their order is not
    modelled, and nothing below is stated about it. *)
Definition list_holdings : M state loc :=
  let! st := sget in
  alloc (OList (map_to_list (_holdings st.2)).*2).

Definition remove_holding (symbol : string) : M state unit :=
  let! sym := lift (_normalize_symbol symbol) in
  let! st := sget in
  match _holdings st.2 !! sym with
  | Some _ => put_holdings (delete sym (_holdings st.2))
  | None => sraise KeyError
  end.

Definition buy (symbol : string) (quantity price : pyvalue) : M state loc :=
  let! sym := lift (_normalize_symbol symbol) in
  let! st := sget in
  let! h :=
    match _holdings st.2 !! sym with
    | Some h => sret h
    | None =>
        let! new := lift (holding.Holding_init sym (PyDec (Fin 0 0))
                            (PyDec (Fin 0 (-2))) (currency st.2)) in
        let! h := alloc (OHolding new) in
        put_holdings (<[sym := h]> (_holdings st.2)) ;;!
        sret h
    end in
  call_holding h (holding.buy quantity price) ;;!
  sret h.

Definition sell (symbol : string) (quantity price : pyvalue) : M state decimal :=
  let! sym := lift (_normalize_symbol symbol) in
  let! st := sget in
  match _holdings st.2 !! sym with
  | None => sraise PortfolioNotFoundError
  | Some h =>
      let! pnl := call_holding h (holding.sell quantity price) in
      let! q := call_holding h (let! hd := sget in sret (holding.quantity hd)) in
      let! zero := lift (Decimal.quantize (Fin 0 0) (Fin 1 (-8)) ROUND_HALF_EVEN) in
      let! closed := lift (Decimal.eq q zero) in
      (if closed : bool then
         let! st' := sget in put_holdings (delete sym (_holdings st'.2))
       else sret tt) ;;!
      sret pnl
  end.

(** The price source of [market_value]: a callable or a mapping. *)
Inductive price_provider : Type :=
  | Callable (f : string -> result pyvalue)
  | Mapping (m : gmap string pyvalue).

Definition price_for (pp : price_provider) (sym : string) : result pyvalue :=
  match pp with
  | Callable f => f sym
  | Mapping m =>
      match m !! sym with
      | Some v => OK v
      | None => Raise KeyError
      end
  end.

Fixpoint market_value_loop (pp : price_provider) (items : list (string * loc))
    (total : decimal) : M state decimal :=
  match items with
  | [] => sret total
  | (sym, h) :: items' =>
      let! price := lift (price_for pp sym) in
      let! mv := call_holding h (holding.market_value price) in
      let! total' := lift (Decimal.add total mv) in
      market_value_loop pp items' total'
  end.

Definition market_value (pp : option price_provider) : M state decimal :=
  match pp with
  | None => sraise ValueError
  | Some pp =>
      let! st := sget in
      let! total := market_value_loop pp (map_to_list (_holdings st.2)) (Fin 0 (-2)) in
      lift (Decimal.quantize total _CENT ROUND_HALF_UP)
  end.

(** What the portfolio holds: for each symbol, the holding its reference
    points to. *)
Definition holdings_view (st : state) : gmap string holding.Holding :=
  omap (deref st.1) (_holdings st.2).

(** Every reference of the portfolio's dict points to a holding. *)
Definition well_formed (st : state) : Prop :=
  forall sym l, _holdings st.2 !! sym = Some l -> is_Some (deref st.1 l).

(** A caller's mutation of the list object at [l]: any new contents. *)
Definition mutate_list (l : loc) (items : list loc) (st : state) : state :=
  (<[l := OList items]> st.1, st.2).

End portfolio.

(** States for the examples: an empty portfolio, and one that holds 3
    units of IBM at 10.00 in the object at reference 1. *)
Module examples.

Definition empty_portfolio : portfolio.Portfolio :=
  {| portfolio.portfolio_id := "p6"; portfolio.owner := "frank";
     portfolio.account_id := None; portfolio.currency := "USD";
     portfolio._holdings := ∅ |}.

Definition ibm : holding.Holding :=
  {| holding.symbol := "IBM"; holding.quantity := Fin 300000000 (-8);
     holding.average_cost := Fin 1000 (-2); holding.currency := "USD" |}.

Definition ibm_portfolio : portfolio.Portfolio :=
  {| portfolio.portfolio_id := "p5"; portfolio.owner := "erin";
     portfolio.account_id := None; portfolio.currency := "USD";
     portfolio._holdings := {[ "IBM" := 1%positive ]} |}.

Definition ibm_state : portfolio.state :=
  ({[ 1%positive := OHolding ibm ]}, ibm_portfolio).

End examples.

(** ** pricing.py

    As delivered the file wraps its whole text in stray quotes and does
    not parse, so importing it fails.  The class below is the one that
    text spells out; it serves only as the price table of scenario C,
    and nothing is claimed of [pricing.py] itself. *)
Module pricing.

Definition _CENT : decimal := Fin 1 (-2).

Definition _PRICES : list (string * decimal) :=
  [("AAPL", Fin 15000 (-2)); ("TSLA", Fin 72050 (-2)); ("GOOGL", Fin 280075 (-2))].

Record PriceService : Type := {
  _prices : gmap string decimal;
}.

Fixpoint normalize_prices (ps : list (string * decimal)) (acc : gmap string decimal)
    : result (gmap string decimal) :=
  match ps with
  | [] => OK acc
  | (sym, p) :: ps' =>
      q ← Decimal.quantize p _CENT ROUND_HALF_UP;
      normalize_prices ps' (<[upper sym := q]> acc)
  end.

(** [PriceService()] *)
Definition PriceService_init : result PriceService :=
  m ← normalize_prices _PRICES ∅;
  OK {| _prices := m |}.

Definition get_share_price (self : PriceService) (symbol : option string)
    : result decimal :=
  match symbol with
  | None => Raise PricingUnsupportedSymbolError
  | Some symbol =>
      if negb (truthy symbol) then Raise PricingUnsupportedSymbolError
      else
        match _prices self !! upper symbol with
        | Some price => OK price
        | None => Raise PricingUnsupportedSymbolError
        end
  end.

End pricing.

(** ** valuation.py *)
Module valuation.

Definition _CENT : decimal := Fin 1 (-2).

(** A holding as the engine reads it, by attribute or by key: a missing
    attribute or key reads as [None]. *)
Record holding_like : Type := {
  symbol : option string;
  quantity : pyvalue;
  average_cost : pyvalue;
}.

(** The engine; [price_service.get_share_price] is any callable. *)
Record ValuationEngine : Type := {
  price_service : option (option string -> result pyvalue);
}.

Definition _to_decimal_cents (value : pyvalue) : result decimal :=
  match Decimal_of value with
  | None => Raise ValuationError
  | Some dec => Decimal.quantize dec _CENT ROUND_HALF_UP
  end.

Definition _get_price_for_symbol (self : ValuationEngine) (symbol : option string)
    : result decimal :=
  match price_service self with
  | None => Raise ValuationError
  | Some get_share_price =>
      price ← try_except (get_share_price symbol) any_exception
                (fun _ => Raise ValuationError);
      _to_decimal_cents price
  end.

(** The shapes [_extract_holdings] accepts: an object with a
    [list_holdings] method (and maybe a [_holdings] attribute, used when
    the method raises), a dict with the key holdings, an iterable, an
    object with only [_holdings], and anything else. *)
Inductive holdings_source : Type :=
  | PortfolioLike (list_holdings : result (list holding_like))
      (_holdings : option (list holding_like))
  | MappingWithHoldings (holdings : list holding_like)
  | Iterable (holdings : list holding_like)
  | WithHoldingsAttribute (_holdings : list holding_like)
  | Unextractable.

Definition _extract_holdings (obj : holdings_source) : result (list holding_like) :=
  match obj with
  | PortfolioLike (OK hs) _ => OK hs
  | PortfolioLike (Raise _) (Some hs) => OK hs
  | PortfolioLike (Raise _) None => Raise ValuationError
  | MappingWithHoldings hs => OK hs
  | Iterable hs => OK hs
  | WithHoldingsAttribute hs => OK hs
  | Unextractable => Raise ValuationError
  end.

Definition valid_symbol (sym : option string) : bool :=
  match sym with
  | Some s => truthy s
  | None => false
  end.

Definition to_decimal_or_valuation_error (v : pyvalue) : result decimal :=
  match Decimal_of v with
  | None => Raise ValuationError
  | Some d => OK d
  end.

Definition holding_market_value (self : ValuationEngine) (holding : holding_like)
    (price : pyvalue) : result decimal :=
  let sym := symbol holding in
  if negb (valid_symbol sym) then Raise ValuationError
  else
    let qty := quantity holding in
    if is_None qty then Raise ValuationError
    else
      price_dec ← (if is_None price then _get_price_for_symbol self sym
                   else _to_decimal_cents price);
      qty_dec ← to_decimal_or_valuation_error qty;
      product ← Decimal.mul qty_dec price_dec;
      Decimal.quantize product _CENT ROUND_HALF_UP.

Definition holding_unrealized_pl (self : ValuationEngine) (holding : holding_like)
    (price : pyvalue) : result decimal :=
  let sym := symbol holding in
  if negb (valid_symbol sym) then Raise ValuationError
  else
    let qty := quantity holding in
    if is_None qty then Raise ValuationError
    else
      let avg := average_cost holding in
      if is_None avg then Raise ValuationError
      else
        price_dec ← (if is_None price then _get_price_for_symbol self sym
                     else _to_decimal_cents price);
        qty_dec ← to_decimal_or_valuation_error qty;
        avg_dec ← to_decimal_or_valuation_error avg;
        diff ← Decimal.sub price_dec avg_dec;
        product ← Decimal.mul diff qty_dec;
        Decimal.quantize product _CENT ROUND_HALF_UP.

(** [price_overrides.get(sym)] *)
Definition get_override (price_overrides : gmap string pyvalue)
    (sym : option string) : pyvalue :=
  match sym with
  | Some s => default PyNone (price_overrides !! s)
  | None => PyNone
  end.

Fixpoint sum_loop (f : holding_like -> pyvalue -> result decimal)
    (price_overrides : gmap string pyvalue) (holdings : list holding_like)
    (total : decimal) : result decimal :=
  match holdings with
  | [] => OK total
  | h :: holdings' =>
      let override := get_override price_overrides (symbol h) in
      v ← f h override;
      total' ← Decimal.add total v;
      sum_loop f price_overrides holdings' total'
  end.

Definition portfolio_market_value (self : ValuationEngine)
    (portfolio_or_holdings : holdings_source)
    (price_overrides : option (gmap string pyvalue)) : result decimal :=
  let price_overrides := default ∅ price_overrides in
  holdings ← _extract_holdings portfolio_or_holdings;
  total ← sum_loop (holding_market_value self) price_overrides holdings (Fin 0 (-2));
  Decimal.quantize total _CENT ROUND_HALF_UP.

Definition portfolio_unrealized_pl (self : ValuationEngine)
    (portfolio_or_holdings : holdings_source)
    (price_overrides : option (gmap string pyvalue)) : result decimal :=
  let price_overrides := default ∅ price_overrides in
  holdings ← _extract_holdings portfolio_or_holdings;
  total ← sum_loop (holding_unrealized_pl self) price_overrides holdings (Fin 0 (-2));
  Decimal.quantize total _CENT ROUND_HALF_UP.

(** A row of the breakdown.  The strings [format(d, 'f')] are kept as the
    decimals they print. *)
Record row : Type := {
  row_symbol : option string;
  row_quantity : decimal;
  row_average_cost : option decimal;
  market_price : option decimal;
  market_value : option decimal;
  unrealized_pl : option decimal;
}.

Record breakdown : Type := {
  holdings : list row;
  total_market_value : decimal;
  total_unrealized_pl : decimal;
}.

(** Lines 265 to 269: the price of a holding, [None] when looking it up
    raises ValuationError. *)
Definition resolve_price (self : ValuationEngine)
    (price_overrides : gmap string pyvalue) (h : holding_like)
    : result (option decimal) :=
  let sym := symbol h in
  let override := get_override price_overrides sym in
  try_except
    (Some <$> (if is_None override then _get_price_for_symbol self sym
               else _to_decimal_cents override))
    (only ValuationError) (fun _ => OK None).

(** The body of the loop of lines 260 to 291 for one holding: its row
    and the two running totals. *)
Definition breakdown_step (self : ValuationEngine)
    (price_overrides : gmap string pyvalue) (h : holding_like)
    (total_mv total_upl : decimal) : result (row * decimal * decimal) :=
  let sym := symbol h in
  let qty := quantity h in
  let avg := average_cost h in
  price ← resolve_price self price_overrides h;
  '(mv, upl) ←
    match price with
    | Some p =>
        mv ← holding_market_value self h (PyDec p);
        upl ← holding_unrealized_pl self h (PyDec p);
        OK (Some mv, Some upl)
    | None => OK (None, None)
    end;
  q ← Decimal_ctor qty;
  a ← (if negb (is_None avg) then Some <$> Decimal_ctor avg else OK None);
  let r := {| row_symbol := sym; row_quantity := q; row_average_cost := a;
              market_price := price; market_value := mv;
              unrealized_pl := upl |} in
  total_mv ← match mv with Some v => Decimal.add total_mv v | None => OK total_mv end;
  total_upl ← match upl with Some v => Decimal.add total_upl v | None => OK total_upl end;
  OK (r, total_mv, total_upl).

Fixpoint breakdown_loop (self : ValuationEngine)
    (price_overrides : gmap string pyvalue) (hs : list holding_like)
    (total_mv total_upl : decimal) : result (list row * decimal * decimal) :=
  match hs with
  | [] => OK ([], total_mv, total_upl)
  | h :: hs' =>
      '(r, total_mv, total_upl) ←
        breakdown_step self price_overrides h total_mv total_upl;
      '(rows, total_mv, total_upl) ←
        breakdown_loop self price_overrides hs' total_mv total_upl;
      OK (r :: rows, total_mv, total_upl)
  end.

Definition portfolio_breakdown (self : ValuationEngine)
    (portfolio_or_holdings : holdings_source)
    (price_overrides : option (gmap string pyvalue)) : result breakdown :=
  let price_overrides := default ∅ price_overrides in
  hs ← _extract_holdings portfolio_or_holdings;
  '(rows, total_mv, total_upl) ←
    breakdown_loop self price_overrides hs (Fin 0 (-2)) (Fin 0 (-2));
  tmv ← Decimal.quantize total_mv _CENT ROUND_HALF_UP;
  tupl ← Decimal.quantize total_upl _CENT ROUND_HALF_UP;
  OK {| holdings := rows; total_market_value := tmv;
        total_unrealized_pl := tupl |}.






(** A [Holding] as the engine reads it by attribute. *)
Definition of_holding (h : holding.Holding) : holding_like :=
  {| symbol := Some (holding.symbol h);
     quantity := PyDec (holding.quantity h);
     average_cost := PyDec (holding.average_cost h) |}.


(** The loop of lines 234 to 244.  A transaction is what reading its
    [profit_loss] gives, by attribute or by key: [None] when it is
    absent or reading it raises. *)
Fixpoint realized_loop (transactions : list pyvalue) (total : decimal)
    : result decimal :=
  match transactions with
  | [] => OK total
  | pl :: transactions' =>
      if is_None pl then realized_loop transactions' total
      else
        pl_dec ← _to_decimal_cents pl;
        total' ← Decimal.add total pl_dec;
        realized_loop transactions' total'
  end.

Definition realized_pl_from_transactions (self : ValuationEngine)
    (transactions : list pyvalue) : result decimal :=
  total ← realized_loop transactions (Fin 0 (-2));
  Decimal.quantize total _CENT ROUND_HALF_UP.

(** The sum of integers, for the totals in cents. *)
Definition sumZ (l : list Z) : Z := foldr Z.add 0 l.

End valuation.

(** Scenario E of the specification: two holdings, an engine without a
    price service, and an override for the first symbol only. *)
Module scenario_E.

Definition s1 : holding.Holding :=
  {| holding.symbol := "S1"; holding.quantity := Fin 123456789 (-8);
     holding.average_cost := Fin 200 (-2); holding.currency := "USD" |}.

Definition s2 : holding.Holding :=
  {| holding.symbol := "S2"; holding.quantity := Fin 200000000 (-8);
     holding.average_cost := Fin 100 (-2); holding.currency := "USD" |}.

Definition engine : valuation.ValuationEngine :=
  {| valuation.price_service := None |}.

Definition overrides : option (gmap string pyvalue) :=
  Some {[ "S1" := PyDec (Fin 3333 (-3)) ]}.

End scenario_E.

(** ** The stores, account_service.py and trading.py

    [InMemoryStorage] keeps the objects it is given, so the object a
    repository returns is the stored one and a method called on it
    changes what the store holds, saved again or not.  Every account and
    portfolio is stored under its own id. *)

Record world : Type := {
  accounts_store : gmap string accounts.Account;
  heap : gmap loc obj;
  portfolios_store : gmap string portfolio.Portfolio;
  transactions_store : gmap string transaction.Transaction;
}.

Definition set_accounts (m : gmap string accounts.Account) (w : world) : world :=
  {| accounts_store := m; heap := heap w;
     portfolios_store := portfolios_store w;
     transactions_store := transactions_store w |}.

Definition set_portfolio_state (pid : string) (st : portfolio.state) (w : world)
    : world :=
  {| accounts_store := accounts_store w; heap := st.1;
     portfolios_store := <[pid := st.2]> (portfolios_store w);
     transactions_store := transactions_store w |}.

Definition set_transactions (m : gmap string transaction.Transaction) (w : world)
    : world :=
  {| accounts_store := accounts_store w; heap := heap w;
     portfolios_store := portfolios_store w; transactions_store := m |}.

Module account_service.

(** Modelled from the spec: [account_service.py] is missing;
    [get_account] loads the account and fails with AccountNotFound when
    there is none (section 4.6 step 4, tests/test_account_service.py). *)
Definition get_account (account_id : string) : M world accounts.Account :=
  fun w =>
    match accounts_store w !! account_id with
    | Some a => (OK a, w)
    | None => (Raise AccountNotFoundError, w)
    end.

(** A method of the stored account, called in place. *)
Definition on_account {A} (account_id : string) (method : M accounts.Account A)
    : M world A :=
  let! acct := get_account account_id in
  fun w =>
    let '(r, acct') := method acct in
    (r, set_accounts (<[account_id := acct']> (accounts_store w)) w).

(** Modelled from the spec: [account_service.py] is missing; [withdraw]
    and [deposit] apply the method of the loaded account and return the
    new balance. *)
Definition withdraw (account_id : string) (amount : pyvalue) : M world decimal :=
  on_account account_id (accounts.withdraw amount).

Definition deposit (account_id : string) (amount : pyvalue) : M world decimal :=
  on_account account_id (accounts.deposit amount).

End account_service.

Module portfolio_repository.

(** [PortfolioRepository.get] over [InMemoryStorage.get_portfolio] *)
Definition get (portfolio_id : string) : M world (option portfolio.Portfolio) :=
  fun w => (OK (portfolios_store w !! portfolio_id), w).

(** A method of the portfolio stored under [pid], called in place. *)
Definition on_portfolio {A} (pid : string) (method : M portfolio.state A)
    : M world A :=
  fun w =>
    match portfolios_store w !! pid with
    | Some p =>
        let '(r, st) := method (heap w, p) in
        (r, set_portfolio_state pid st w)
    | None => (Raise RuntimeError, w)
    end.

(** [PortfolioRepository.save] over [InMemoryStorage.save_portfolio], for
    the portfolio stored under [pid]. *)
Definition save (pid : string) : M world unit :=
  fun w =>
    match portfolios_store w !! pid with
    | Some p =>
        if negb (truthy (portfolio.portfolio_id p)) then (Raise ValueError, w)
        else (OK tt, set_portfolio_state (portfolio.portfolio_id p) (heap w, p) w)
    | None => (Raise RuntimeError, w)
    end.

End portfolio_repository.

Module transaction_repository.

(** [TransactionRepository.save] over [InMemoryStorage.save_transaction]:
    an entry without id is stored under a generated one, [fresh_id];
    attaching the id to the frozen entry fails and is passed over. *)
Definition save (fresh_id : string) (tx : transaction.Transaction)
    : M world string :=
  fun w =>
    let tid := if truthy (transaction.transaction_id tx)
               then transaction.transaction_id tx else fresh_id in
    (OK tid, set_transactions (<[tid := tx]> (transactions_store w)) w).

End transaction_repository.

Module trading.

(** The factory the engine calls as [Transaction.trade]. *)
Definition trade_fn : Type :=
  option string -> string -> pyvalue -> pyvalue -> string -> datetime ->
  pyvalue -> result transaction.Transaction.

Record TradingEngine : Type := {
  price_service : option string -> result pyvalue;
  validator : validators.OperationValidator;
  transaction_repo_save : transaction.Transaction -> M world string;
}.

Definition _resolve_price (self : TradingEngine) (symbol : string)
    (price : pyvalue) (use_market_price : bool) : result pyvalue :=
  if use_market_price then
    try_except (price_service self (Some symbol)) any_exception
      (fun _ => Raise TradingError)
  else if is_None price then Raise TradingError
  else PyDec <$> Decimal_ctor price.

(** [buy], with the value [Transaction.trade] evaluates to made a
    parameter; [tid] is the id passed or generated, [now] the time. *)
Definition buy_with (trade : trade_fn) (self : TradingEngine)
    (account_id portfolio_id symbol : string) (quantity price : pyvalue)
    (use_market_price : bool) (tid : string) (now : datetime)
    : M world transaction.Transaction :=
  let! norm_symbol :=
    lift (try_except (validators.validate_symbol (validator self) symbol)
            any_exception (fun _ => Raise TradingError)) in
  let! resolved_price :=
    lift (_resolve_price self norm_symbol price use_market_price) in
  let! tx :=
    lift (try_except
            (trade (Some account_id) "buy" quantity resolved_price tid now PyNone)
            any_exception (fun _ => Raise TradingError)) in
  let! acct :=
    stry (account_service.get_account account_id) any_exception
      (fun _ => sraise TradingError) in
  lift (try_except
          (validators.validate_sufficient_funds
             (PyDec (accounts.balance acct)) (transaction.amount tx))
          (fun e => negb (only InsufficientFundsError e))
          (fun _ => Raise TradingError)) ;;!
  account_service.withdraw account_id (transaction.amount tx) ;;!
  stry
    (let! p := portfolio_repository.get portfolio_id in
     match p with
     | None => sraise TradingError
     | Some _ =>
         portfolio_repository.on_portfolio portfolio_id
           (portfolio.buy norm_symbol quantity resolved_price) ;;!
         portfolio_repository.save portfolio_id
     end)
    any_exception
    (fun exc =>
       stry (account_service.deposit account_id (transaction.amount tx))
         any_exception (fun _ => sraise TradingError) ;;!
       sraise exc) ;;!
  stry (transaction_repo_save self tx ;;! sret tt) any_exception
    (fun _ =>
       stry (portfolio_repository.on_portfolio portfolio_id
               (portfolio.sell norm_symbol quantity resolved_price) ;;!
             portfolio_repository.save portfolio_id)
         any_exception (fun _ => sret tt) ;;!
       stry (account_service.deposit account_id (transaction.amount tx) ;;! sret tt)
         any_exception (fun _ => sret tt) ;;!
       sraise TradingError) ;;!
  sret tx.

(** [TradingEngine.buy]: the class [Transaction] has no [trade]. *)
Definition buy : TradingEngine -> string -> string -> string -> pyvalue ->
    pyvalue -> bool -> string -> datetime -> M world transaction.Transaction :=
  buy_with transaction.trade.

(** The rollback of [sell]: buy the quantity back and save. *)
Definition buy_back (portfolio_id norm_symbol : string)
    (quantity resolved_price : pyvalue) : M world unit :=
  portfolio_repository.on_portfolio portfolio_id
    (portfolio.buy norm_symbol quantity resolved_price) ;;!
  portfolio_repository.save portfolio_id.

(** [sell], with the value [Transaction.trade] evaluates to made a
    parameter, as for [buy_with]. *)
Definition sell_with (trade : trade_fn) (self : TradingEngine)
    (account_id portfolio_id symbol : string) (quantity price : pyvalue)
    (use_market_price : bool) (tid : string) (now : datetime)
    : M world transaction.Transaction :=
  let! norm_symbol :=
    lift (try_except (validators.validate_symbol (validator self) symbol)
            any_exception (fun _ => Raise TradingError)) in
  let! resolved_price :=
    lift (_resolve_price self norm_symbol price use_market_price) in
  let! p := portfolio_repository.get portfolio_id in
  match p with
  | None => sraise TradingError
  | Some _ =>
      let! holding :=
        portfolio_repository.on_portfolio portfolio_id
          (portfolio.get_holding norm_symbol) in
      match holding with
      | None => sraise InsufficientHoldingsError
      | Some h =>
          let! held :=
            portfolio_repository.on_portfolio portfolio_id
              (portfolio.call_holding h
                 (let! hd := sget in sret (holding.quantity hd))) in
          lift (validators.validate_sufficient_quantity (PyDec held) quantity) ;;!
          let! pnl :=
            portfolio_repository.on_portfolio portfolio_id
              (portfolio.sell norm_symbol quantity resolved_price) in
          portfolio_repository.save portfolio_id ;;!
          let! tx :=
            stry
              (lift (trade (Some account_id) "sell" quantity resolved_price tid now
                       (PyDec pnl)))
              any_exception
              (fun _ =>
                 stry (buy_back portfolio_id norm_symbol quantity resolved_price)
                   any_exception (fun _ => sret tt) ;;!
                 sraise TradingError) in
          stry (account_service.deposit account_id (transaction.amount tx) ;;! sret tt)
            any_exception
            (fun exc =>
               stry (buy_back portfolio_id norm_symbol quantity resolved_price)
                 any_exception (fun _ => sraise TradingError) ;;!
               sraise exc) ;;!
          stry (transaction_repo_save self tx ;;! sret tt) any_exception
            (fun _ =>
               stry (account_service.withdraw account_id (transaction.amount tx) ;;!
                     sret tt)
                 any_exception (fun _ => sret tt) ;;!
               stry (buy_back portfolio_id norm_symbol quantity resolved_price)
                 any_exception (fun _ => sret tt) ;;!
               sraise TradingError) ;;!
          sret tx
      end
  end.

(** [TradingEngine.sell]: the class [Transaction] has no [trade]. *)
Definition sell : TradingEngine -> string -> string -> string -> pyvalue ->
    pyvalue -> bool -> string -> datetime -> M world transaction.Transaction :=
  sell_with transaction.trade.

(** A step that leaves the accounts and the recorded entries alone. *)
Definition keeps_books {A} (m : M world A) : Prop :=
  forall w, accounts_store (m w).2 = accounts_store w /\
            transactions_store (m w).2 = transactions_store w.

(** A step that always ends in an exception. *)
Definition always_raises {A} (m : M world A) : Prop :=
  forall w, exists e, (m w).1 = Raise e.

(** [TradingEngine()] with the default collaborators. *)
Definition default_engine (prices : pricing.PriceService) (fresh_id : string)
    : TradingEngine :=
  {| price_service := fun sym => PyDec <$> pricing.get_share_price prices sym;
     validator := validators.OperationValidator_init None;
     transaction_repo_save := transaction_repository.save fresh_id |}.

End trading.

(** Scenario C of the specification: an account with 10.00, an empty
    portfolio, and the default price service, with AAPL at 150.00. *)
Module scenario_C.

Definition account : accounts.Account :=
  {| accounts.owner := "bob"; accounts.account_id := "acct-2";
     accounts.balance := Fin 1000 (-2); accounts.currency := "USD" |}.

Definition empty_portfolio : portfolio.Portfolio :=
  {| portfolio.portfolio_id := "p2"; portfolio.owner := "bob";
     portfolio.account_id := Some "acct-2"; portfolio.currency := "USD";
     portfolio._holdings := ∅ |}.

Definition before : world :=
  {| accounts_store := {[ "acct-2" := account ]}; heap := ∅;
     portfolios_store := {[ "p2" := empty_portfolio ]};
     transactions_store := ∅ |}.

Definition prices : pricing.PriceService :=
  {| pricing._prices :=
       {[ "AAPL" := Fin 15000 (-2); "TSLA" := Fin 72050 (-2);
          "GOOGL" := Fin 280075 (-2) ]} |}.

Definition engine : trading.TradingEngine :=
  trading.default_engine prices "generated-id".

End scenario_C.

(** A timestamp as the constructor of an entry leaves it: a naive one
    gets the zone UTC, an aware one is kept. *)
Definition aware (dt : datetime) : datetime :=
  match tzinfo dt with
  | None => replace_tzinfo_utc dt
  | Some _ => dt
  end.

(** ** storage.py

    The stores keep the objects they are given, not copies: an object
    is a reference into [objects], and the three dicts map ids to
    references.  An object is a dict or an instance with attributes;
    the values the stores read are ids, strings or [None]. *)
Module storage.

Inductive pyobject : Type :=
  | PyDict (items : gmap string (option string))
  | PyInstance (attrs : gmap string (option string)) (frozen : bool).

Record InMemoryStorage : Type := {
  objects : gmap loc pyobject;
  _accounts : gmap string loc;
  _portfolios : gmap string loc;
  _transactions : gmap string loc;
}.

(** [InMemoryStorage()] *)
Definition InMemoryStorage_init (objects : gmap loc pyobject) : InMemoryStorage :=
  {| objects := objects; _accounts := ∅; _portfolios := ∅; _transactions := ∅ |}.

Definition set_objects (m : gmap loc pyobject) (s : InMemoryStorage) : InMemoryStorage :=
  {| objects := m; _accounts := _accounts s; _portfolios := _portfolios s;
     _transactions := _transactions s |}.

Definition set_accounts (m : gmap string loc) (s : InMemoryStorage) : InMemoryStorage :=
  {| objects := objects s; _accounts := m; _portfolios := _portfolios s;
     _transactions := _transactions s |}.

Definition set_transactions (m : gmap string loc) (s : InMemoryStorage)
    : InMemoryStorage :=
  {| objects := objects s; _accounts := _accounts s; _portfolios := _portfolios s;
     _transactions := m |}.

(** [obj[key_name]] when the key is there, [getattr(obj, key_name)]
    otherwise; a dict has no attribute of the names the stores use, and
    a missing attribute reads as [None]. *)
Definition _extract_id (obj : pyobject) (key_name : string) : option string :=
  match obj with
  | PyDict items =>
      match items !! key_name with
      | Some val => val
      | None => None
      end
  | PyInstance attrs _ =>
      match attrs !! key_name with
      | Some val => val
      | None => None
      end
  end.

(** A frozen instance refuses the assignment, and the refusal is
    passed over. *)
Definition _attach_id (obj : pyobject) (key_name id_value : string) : pyobject :=
  match obj with
  | PyDict items => PyDict (<[key_name := Some id_value]> items)
  | PyInstance attrs frozen =>
      if frozen then obj
      else PyInstance (<[key_name := Some id_value]> attrs) frozen
  end.

(** The object behind a reference; references of the program never
    dangle, a missing object is a RuntimeError here. *)
Definition deref (l : loc) : M InMemoryStorage pyobject :=
  fun s =>
    match objects s !! l with
    | Some obj => (OK obj, s)
    | None => (Raise RuntimeError, s)
    end.

Definition save_account (account : loc) : M InMemoryStorage unit :=
  let! obj := deref account in
  let acct_id := _extract_id obj "account_id" in
  if negb (truthy_opt acct_id) then sraise ValueError
  else
    fun s => (OK tt, set_accounts (<[default "" acct_id := account]> (_accounts s)) s).

Definition get_account (account_id : string) : M InMemoryStorage (option loc) :=
  fun s => (OK (_accounts s !! account_id), s).

Definition delete_account (account_id : string) : M InMemoryStorage unit :=
  fun s =>
    match _accounts s !! account_id with
    | Some _ => (OK tt, set_accounts (delete account_id (_accounts s)) s)
    | None => (Raise KeyError, s)
    end.

Definition list_accounts : M InMemoryStorage (list loc) :=
  fun s => (OK (map_to_list (_accounts s)).*2, s).

Definition exists_account (account_id : string) : M InMemoryStorage bool :=
  fun s => (OK (bool_decide (is_Some (_accounts s !! account_id))), s).

(** [save_transaction]; [uuid4_hex] is what [uuid.uuid4().hex] gives
    when it is called. *)
Definition save_transaction (transaction : loc) (uuid4_hex : string)
    : M InMemoryStorage string :=
  let! obj := deref transaction in
  let tid := _extract_id obj "transaction_id" in
  let tid := if negb (truthy_opt tid) then uuid4_hex else default "" tid in
  fun s =>
    (OK tid,
     set_transactions (<[tid := transaction]> (_transactions s))
       (set_objects
          (<[transaction := _attach_id obj "transaction_id" tid]> (objects s)) s)).

Definition get_transaction (transaction_id : string)
    : M InMemoryStorage (option loc) :=
  fun s => (OK (_transactions s !! transaction_id), s).

(** Lines 232 to 256: the entry names the account as its
    [account_id], [from_account] or [to_account].  The lists the stores
    hand out come in the order of the map's keys, where Python gives
    the order of insertion: the elements are the same, their order is
    not modelled, and nothing below is stated about it. *)
Definition references (obj : pyobject) (account_id : string) : bool :=
  bool_decide (_extract_id obj "account_id" = Some account_id)
  || bool_decide (_extract_id obj "from_account" = Some account_id)
  || bool_decide (_extract_id obj "to_account" = Some account_id).

Definition list_transactions_for_account (account_id : string)
    : M InMemoryStorage (list loc) :=
  fun s =>
    (OK (List.filter
           (fun tx =>
              match objects s !! tx with
              | Some obj => references obj account_id
              | None => false
              end)
           (map_to_list (_transactions s)).*2),
     s).

End storage.

(* ================================================================= *)
(** * Properties *)


(** Unfolding of the state transformers in a goal or a hypothesis. *)
Ltac unfold_M := unfold sbind, lift, sget, sput, sret, sraise.

(** ** Decimal arithmetic *)

Section DecimalFacts.

Lemma pow10_pos (k : Z) : 0 <= k -> 0 < 10 ^ k.
Proof. intros. apply Z.pow_pos_nonneg; lia. Qed.

Lemma ndigits_aux_spec (fuel : nat) (n : Z) :
  0 < n -> n < 2 ^ (Z.of_nat fuel + 1) ->
  1 <= Decimal.ndigits_aux fuel n /\
  10 ^ (Decimal.ndigits_aux fuel n - 1) <= n < 10 ^ (Decimal.ndigits_aux fuel n).
Proof.
  revert n. induction fuel as [|f IH]; intros n Hpos Hlt.
  - simpl in *. assert (n = 1) by lia. subst. simpl. lia.
  - cbn [Decimal.ndigits_aux]. destruct (Z.ltb_spec n 10) as [Hs|Hb].
    + simpl. lia.
    + assert (Hq : 0 < n / 10) by (apply Z.div_str_pos; lia).
      assert (Hq2 : n / 10 < 2 ^ (Z.of_nat f + 1)).
      { replace (Z.of_nat (S f) + 1) with (Z.succ (Z.of_nat f + 1)) in Hlt by lia.
        rewrite Z.pow_succ_r in Hlt by lia.
        apply Z.div_lt_upper_bound; lia. }
      destruct (IH _ Hq Hq2) as (H1 & H2 & H3).
      set (d := Decimal.ndigits_aux f (n / 10)) in *.
      replace (1 + d - 1) with (Z.succ (d - 1)) by lia.
      replace (1 + d) with (Z.succ d) by lia.
      rewrite !Z.pow_succ_r by lia.
      pose proof (Z.div_mod n 10 ltac:(lia)) as Hdm.
      pose proof (Z.mod_pos_bound n 10 ltac:(lia)).
      lia.
Qed.

Lemma ndigits_bounds (n : Z) :
  n <> 0 ->
  1 <= Decimal.ndigits n /\
  10 ^ (Decimal.ndigits n - 1) <= Z.abs n < 10 ^ Decimal.ndigits n.
Proof.
  intros Hn. unfold Decimal.ndigits.
  apply ndigits_aux_spec; [lia|].
  rewrite Z2Nat.id by apply Z.log2_nonneg.
  pose proof (Z.log2_spec (Z.abs n) ltac:(lia)) as [_ H].
  unfold Z.succ in H. exact H.
Qed.

Lemma ndigits_zero : Decimal.ndigits 0 = 1.
Proof. reflexivity. Qed.

Lemma ndigits_pos (n : Z) : 1 <= Decimal.ndigits n.
Proof.
  destruct (Z.eq_dec n 0) as [->|Hn]; [rewrite ndigits_zero; lia|].
  apply ndigits_bounds; assumption.
Qed.

Lemma ndigits_le (n d : Z) :
  0 <= d -> Decimal.ndigits n <= d -> Z.abs n < 10 ^ d.
Proof.
  intros Hd Hle.
  destruct (Z.eq_dec n 0) as [->|Hn]; [simpl; apply pow10_pos; lia|].
  destruct (ndigits_bounds n Hn) as (_ & _ & H).
  eapply Z.lt_le_trans; [exact H|].
  apply Z.pow_le_mono_r; lia.
Qed.

Lemma ndigits_lt_pow (n d : Z) :
  1 <= d -> Z.abs n < 10 ^ d -> Decimal.ndigits n <= d.
Proof.
  intros Hd Hlt.
  destruct (Z.eq_dec n 0) as [->|Hn]; [rewrite ndigits_zero; lia|].
  destruct (ndigits_bounds n Hn) as (H1 & H2 & _).
  destruct (Z_le_gt_dec (Decimal.ndigits n) d) as [|Hgt]; [assumption|].
  exfalso.
  assert (10 ^ d <= 10 ^ (Decimal.ndigits n - 1)) by (apply Z.pow_le_mono_r; lia).
  lia.
Qed.

Lemma ndigits_ge_pow (n d : Z) :
  0 <= d -> 10 ^ d <= Z.abs n -> d + 1 <= Decimal.ndigits n.
Proof.
  intros Hd Hge.
  assert (Hn : n <> 0) by (pose proof (pow10_pos d Hd); lia).
  destruct (ndigits_bounds n Hn) as (H1 & _ & H3).
  destruct (Z_le_gt_dec (d + 1) (Decimal.ndigits n)) as [|Hgt]; [assumption|].
  exfalso.
  assert (10 ^ Decimal.ndigits n <= 10 ^ d) by (apply Z.pow_le_mono_r; lia).
  lia.
Qed.

Lemma round_div_zero (rm : rounding) (d : Z) : Decimal.round_div rm 0 d = 0.
Proof. destruct rm; reflexivity. Qed.

(** Rounding half up picks the multiple of [d] nearest to [n] and, of
    two equally near, the one of larger magnitude. *)
Lemma round_half_up_spec (n d : Z) :
  0 < d ->
  let c := Decimal.round_half_up n d in
  Z.abs c = (2 * Z.abs n + d) / (2 * d) /\
  2 * d * Z.abs c <= 2 * Z.abs n + d < 2 * d * Z.abs c + 2 * d /\
  (0 <= n -> 0 <= c) /\ (n <= 0 -> c <= 0).
Proof.
  intros Hd c. subst c. unfold Decimal.round_half_up.
  set (q := (2 * Z.abs n + d) / (2 * d)).
  assert (Hq : 0 <= q) by (apply Z.div_pos; lia).
  pose proof (Z.div_mod (2 * Z.abs n + d) (2 * d) ltac:(lia)) as Hdm.
  pose proof (Z.mod_pos_bound (2 * Z.abs n + d) (2 * d) ltac:(lia)) as Hmod.
  fold q in Hdm.
  assert (Habs : Z.abs (Z.sgn n * q) = q \/ (n = 0 /\ q = 0)).
  { destruct (Z.sgn_spec n) as [[? ->]|[[? ->]|[? ->]]].
    - left. lia.
    - right. split; [lia|]. subst n. unfold q. simpl.
      rewrite Z.div_small; lia.
    - left. lia. }
  assert (Z.abs (Z.sgn n * q) = q) as -> by (destruct Habs as [|[? ?]]; [assumption|subst; simpl; lia]).
  repeat split; lia.
Qed.

Lemma fix_id (m e : Z) :
  Z.abs m < 10 ^ 28 -> Decimal.Etiny <= e <= Decimal.Etop ->
  Decimal._fix m e = OK (Fin m e).
Proof.
  unfold Decimal._fix, Decimal.Etiny, Decimal.Etop, Decimal.Emax,
    Decimal.Emin, Decimal.prec.
  intros Hm He. destruct (Z.eqb_spec m 0) as [->|Hne].
  - f_equal. f_equal. lia.
  - pose proof (ndigits_lt_pow m 28 ltac:(lia) Hm) as Hd.
    pose proof (ndigits_pos m) as Hp.
    destruct (Z.ltb_spec (999999 - 28 + 1) (Decimal.ndigits m + e - 28)); [lia|].
    destruct (Z.ltb_spec e (Z.max (Decimal.ndigits m + e - 28) (-999999 - 28 + 1))); [lia|].
    reflexivity.
Qed.

Lemma rescale_same (m e : Z) (rm : rounding) : Decimal._rescale m e e rm = m.
Proof.
  unfold Decimal._rescale. rewrite Z.leb_refl, Z.sub_diag. simpl. lia.
Qed.

Lemma rescale_zero (e q : Z) (rm : rounding) : Decimal._rescale 0 e q rm = 0.
Proof.
  unfold Decimal._rescale. destruct (q <=? e); [reflexivity|apply round_div_zero].
Qed.

(** A successful quantization of a finite number is its coefficient at
    the target exponent, and it fits the precision. *)
Lemma quantize_fin_ok (m e q k : Z) (rm : rounding) (d : decimal) :
  Decimal.Etiny <= q <= Decimal.Etop ->
  Decimal.quantize (Fin m e) (Fin k q) rm = OK d ->
  d = Fin (Decimal._rescale m e q rm) q /\
  Z.abs (Decimal._rescale m e q rm) < 10 ^ 28.
Proof.
  intros Hq. unfold Decimal.quantize. cbn [Decimal._check_nans].
  destruct (negb _); [discriminate|].
  destruct (Z.eqb_spec m 0) as [->|Hne].
  - rewrite rescale_zero. rewrite fix_id by (simpl; lia || exact Hq).
    intros [= <-]. split; [reflexivity|simpl; lia].
  - cbv zeta.
    destruct (Decimal.Emax <? _); [discriminate|].
    destruct (Decimal.prec <? e + _ - 1 - q + 1); [discriminate|].
    destruct (Decimal.Emax <? _); [discriminate|].
    destruct (Z.ltb_spec Decimal.prec (Decimal.ndigits (Decimal._rescale m e q rm)))
      as [|Hnd]; [discriminate|].
    pose proof (ndigits_le _ 28 ltac:(lia) Hnd) as Hb.
    rewrite fix_id by assumption.
    intros [= <-]. split; [reflexivity|assumption].
Qed.

(** Quantizing what is already at the target exponent changes nothing. *)
Lemma quantize_fin_id (c q k : Z) (rm : rounding) :
  Z.abs c < 10 ^ 28 -> Decimal.Etiny <= q <= 0 ->
  Decimal.quantize (Fin c q) (Fin k q) rm = OK (Fin c q).
Proof.
  intros Hc Hq. unfold Decimal.quantize. cbn [Decimal._check_nans].
  assert (Hq' : Decimal.Etiny <= q <= Decimal.Etop)
    by (unfold Decimal.Etop, Decimal.Emax, Decimal.prec; lia).
  replace (negb _) with false; cycle 1.
  { symmetry. apply negb_false_iff, andb_true_iff.
    unfold Decimal.Etop, Decimal.Emax, Decimal.prec in *. lia. }
  destruct (Z.eqb_spec c 0) as [->|Hne]; [apply fix_id; assumption|].
  cbv zeta. rewrite rescale_same.
  pose proof (ndigits_lt_pow c 28 ltac:(lia) Hc) as Hd.
  pose proof (ndigits_pos c) as Hp.
  unfold Decimal.Emax, Decimal.prec.
  destruct (Z.ltb_spec 999999 (q + Decimal.ndigits c - 1)); [lia|].
  destruct (Z.ltb_spec 28 (q + Decimal.ndigits c - 1 - q + 1)); [lia|].
  destruct (Z.ltb_spec 28 (Decimal.ndigits c)); [lia|].
  apply fix_id; assumption.
Qed.

Lemma cmp_same_exp (a b e : Z) : Decimal._cmp (Fin a e) (Fin b e) = (a ?= b).
Proof.
  unfold Decimal._cmp. rewrite Z.min_id, Z.sub_diag. simpl.
  rewrite !Z.mul_1_r. reflexivity.
Qed.

(** The model on the values the tests of the repository use. *)
Example quantize_half_up_cents :
  Decimal.quantize (Fin 10125 (-3)) (Fin 1 (-2)) ROUND_HALF_UP = OK (Fin 1013 (-2)) /\
  Decimal.quantize (Fin 7777 (-3)) (Fin 1 (-2)) ROUND_HALF_UP = OK (Fin 778 (-2)) /\
  Decimal.quantize (Fin (-5) (-3)) (Fin 1 (-2)) ROUND_HALF_UP = OK (Fin (-1) (-2)) /\
  Decimal.quantize (Fin 1234567891 (-9)) (Fin 1 (-8)) ROUND_HALF_UP
    = OK (Fin 123456789 (-8)) /\
  Decimal.quantize (Fin 100 0) (Fin 1 (-2)) ROUND_HALF_UP = OK (Fin 10000 (-2)).
Proof. repeat split; vm_compute; reflexivity. Qed.

Example quantize_beyond_precision :
  Decimal.quantize (Fin 1 25) (Fin 1 (-2)) ROUND_HALF_UP = OK (Fin (10 ^ 27) (-2)) /\
  Decimal.quantize (Fin 1 26) (Fin 1 (-2)) ROUND_HALF_UP = Raise InvalidOperation /\
  Decimal.quantize (Inf false) (Fin 1 (-2)) ROUND_HALF_UP = Raise InvalidOperation /\
  Decimal.quantize NaN (Fin 1 (-2)) ROUND_HALF_UP = OK NaN.
Proof. repeat split; vm_compute; reflexivity. Qed.

Example arithmetic_in_context :
  Decimal.mul (Fin 123456789 (-8)) (Fin 333 (-2)) = OK (Fin 41111110737 (-10)) /\
  Decimal.add (Fin (10 ^ 28 - 1) 0) (Fin 1 0) = OK (Fin (10 ^ 27) 1) /\
  Decimal.add (Fin 15 (-1)) (Fin 25 (-2)) = OK (Fin 175 (-2)) /\
  Decimal.sub (Fin 1235 (-2)) (Fin 1000 (-2)) = OK (Fin 235 (-2)) /\
  Decimal.le NaN (Fin 0 0) = Raise InvalidOperation /\
  Decimal.eq NaN NaN = OK false.
Proof. repeat split; vm_compute; reflexivity. Qed.

End DecimalFacts.

Section MoneyArithmetic.

Lemma round_half_even_bounds (n d : Z) :
  0 < d ->
  Z.abs n / d <= Z.abs (Decimal.round_half_even n d) <= Z.abs n / d + 1.
Proof.
  intros Hd. unfold Decimal.round_half_even.
  set (q := Z.abs n / d). set (r := Z.abs n mod d).
  assert (Hq : 0 <= q) by (apply Z.div_pos; lia).
  set (c := if 2 * r <? d then q else if d <? 2 * r then q + 1
            else if Z.even q then q else q + 1).
  assert (Hc : q <= c <= q + 1).
  { subst c. destruct (2 * r <? d), (d <? 2 * r), (Z.even q); lia. }
  destruct (Z.eq_dec n 0) as [->|Hn].
  - subst c q r. simpl. rewrite Z.div_0_l, Z.mod_0_l by lia.
    destruct (Z.ltb_spec (2 * 0) d); simpl; lia.
  - destruct (Z.sgn_spec n) as [[? ->]|[[? ->]|[? ->]]]; lia.
Qed.

(** A sum of two amounts in cents, quantized to cents again as the code
    does after every addition, is exact; the double step fails once the
    sum no longer fits 28 digits. *)
Lemma add_quantize_cents (x y k : Z) (d : decimal) :
  Z.abs x < 10 ^ 28 -> Z.abs y < 10 ^ 28 ->
  (Decimal.add (Fin x (-2)) (Fin y (-2)) ≫=
     fun t => Decimal.quantize t (Fin k (-2)) ROUND_HALF_UP) = OK d ->
  d = Fin (x + y) (-2) /\ Z.abs (x + y) < 10 ^ 28.
Proof.
  intros Hx Hy. unfold Decimal.add. cbn [Decimal._check_nans].
  rewrite Z.min_id, Z.sub_diag. change (10 ^ 0) with 1. rewrite !Z.mul_1_r.
  destruct (Z_lt_ge_dec (Z.abs (x + y)) (10 ^ 28)) as [Hs|Hb].
  - rewrite fix_id by (try assumption; vm_compute; split; discriminate).
    cbn [mbind result_bind].
    rewrite quantize_fin_id by (try assumption; vm_compute; split; discriminate).
    intros [= <-]. split; [reflexivity|assumption].
  - unfold Decimal._fix.
    destruct (Z.eqb_spec (x + y) 0) as [H0|_]; [rewrite H0 in Hb; simpl in Hb; lia|].
    assert (Hnd : Decimal.ndigits (x + y) = 29).
    { apply Z.le_antisymm.
      - apply ndigits_lt_pow; lia.
      - apply (ndigits_ge_pow (x + y) 28); lia. }
    rewrite Hnd. unfold Decimal.Etop, Decimal.Etiny, Decimal.Emax, Decimal.Emin, Decimal.prec.
    change (29 + -2 - 28) with (-1).
    change (999999 - 28 + 1 <? -1) with false. cbv iota.
    change (Z.max (-1) (-999999 - 28 + 1)) with (-1).
    change (-2 <? -1) with true. cbv iota zeta.
    change (10 ^ (-1 - -2)) with 10. cbn [Decimal.round_div].
    pose proof (round_half_even_bounds (x + y) 10 ltac:(lia)) as Hc.
    set (c := Decimal.round_half_even (x + y) 10) in *.
    assert (Hq1 : 10 ^ 27 <= Z.abs (x + y) / 10) by (apply Z.div_le_lower_bound; lia).
    assert (Hq2 : Z.abs (x + y) / 10 < 2 * 10 ^ 27) by (apply Z.div_lt_upper_bound; lia).
    assert (Hndc : Decimal.ndigits c = 28).
    { apply Z.le_antisymm.
      - apply ndigits_lt_pow; lia.
      - apply (ndigits_ge_pow c 27); lia. }
    rewrite Hndc. change (28 <? 28) with false. cbv iota.
    cbn [mbind result_bind]. unfold Decimal.quantize. cbn [Decimal._check_nans].
    change (negb _) with false. cbv iota.
    destruct (Z.eqb_spec c 0) as [Hc0|_]; [rewrite Hc0 in Hc; simpl in Hc; lia|].
    cbv zeta. rewrite Hndc. discriminate.
Qed.

End MoneyArithmetic.

(** ** Cash accounts *)

Section CashAccount.
Import accounts.

Lemma account_to_decimal_ok (v : pyvalue) (d : decimal) :
  _to_decimal v = OK d ->
  d = NaN \/ (d = Fin (cents_of v) (-2) /\ Z.abs (cents_of v) < 10 ^ 28).
Proof.
  unfold _to_decimal. destruct v as [|[m e|s| |]|?]; simpl; try discriminate.
  - intros H. right.
    apply quantize_fin_ok in H; [exact H|vm_compute; split; discriminate].
  - intros [= <-]. left. reflexivity.
Qed.

Lemma le_zero_cents (c : Z) :
  Decimal.le (Fin c (-2)) (Fin 0 0) = OK (c <=? 0).
Proof.
  unfold Decimal.le, Decimal.ordered, Decimal._cmp. cbn [Decimal.is_nan orb].
  change (0 * 10 ^ (0 - Z.min (-2) 0)) with 0.
  change (10 ^ (-2 - Z.min (-2) 0)) with 1.
  rewrite Z.mul_1_r. unfold Z.leb. destruct (c ?= 0); reflexivity.
Qed.

Lemma gt_cents (a b : Z) :
  Decimal.gt (Fin a (-2)) (Fin b (-2)) = OK (b <? a).
Proof.
  unfold Decimal.gt, Decimal.ordered. cbn [Decimal.is_nan orb].
  rewrite cmp_same_exp, (Z.ltb_compare b a), (Z.compare_antisym a b).
  destruct (a ?= b); reflexivity.
Qed.

Lemma lt_zero_cents (c : Z) :
  Decimal.lt (Fin c (-2)) (Fin 0 0) = OK (c <? 0).
Proof.
  unfold Decimal.lt, Decimal.ordered, Decimal._cmp. cbn [Decimal.is_nan orb].
  change (0 * 10 ^ (0 - Z.min (-2) 0)) with 0.
  change (10 ^ (-2 - Z.min (-2) 0)) with 1.
  rewrite Z.mul_1_r. unfold Z.ltb. destruct (c ?= 0); reflexivity.
Qed.

Lemma account_to_decimal_positive (v : pyvalue) (d : decimal) :
  _to_decimal v = OK d -> Decimal.le d (Fin 0 0) = OK false ->
  d = Fin (cents_of v) (-2) /\ 0 < cents_of v < 10 ^ 28.
Proof.
  intros Hd Hle. destruct (account_to_decimal_ok v d Hd) as [->|[-> Hb]].
  - discriminate.
  - rewrite le_zero_cents in Hle. injection Hle as Hle.
    apply Z.leb_gt in Hle. split; [reflexivity|lia].
Qed.

(** The constructor establishes the invariant. *)
Lemma Account_init_ok (o i cur : string) (b : pyvalue) (a : Account) :
  Account_init o i b cur = OK a -> exists c, balance_ok a c.
Proof.
  unfold Account_init. destruct (_to_decimal b) as [d|] eqn:Hd; [|discriminate].
  cbn [mbind result_bind].
  destruct (account_to_decimal_ok b d Hd) as [->|[-> Hb]]; [discriminate|].
  rewrite lt_zero_cents. cbn [mbind result_bind].
  destruct (Z.ltb_spec (cents_of b) 0); [discriminate|].
  intros [= <-]. exists (cents_of b). split; [reflexivity|lia].
Qed.

Lemma deposit_returns (v : pyvalue) (a a' : Account) (c : Z) (b : decimal) :
  balance_ok a c -> deposit v a = (OK b, a') ->
  0 < cents_of v /\ b = Fin (c + cents_of v) (-2) /\
  a' = set_balance b a /\ balance_ok a' (c + cents_of v).
Proof.
  intros [Hbal Hc]. unfold deposit; unfold_M.
  destruct (_to_decimal v) as [d|] eqn:Hd; [|discriminate].
  destruct (Decimal.le d (Fin 0 0)) as [[|]|] eqn:Hle; try discriminate.
  destruct (account_to_decimal_positive v d Hd Hle) as [-> Hk].
  rewrite Hbal.
  destruct (Decimal.add (Fin c (-2)) (Fin (cents_of v) (-2))) as [t|] eqn:Ha;
    [|discriminate].
  destruct (Decimal.quantize t _CENT ROUND_HALF_UP) as [q|] eqn:Hq; [|discriminate].
  intros [= <- <-].
  destruct (add_quantize_cents c (cents_of v) 1 q) as [-> Hs]; [lia|lia| |].
  { rewrite Ha. exact Hq. }
  repeat split; try reflexivity; lia.
Qed.





End CashAccount.




(** ** The operation validator *)

(** C10.  When the amount validates as positive and the balance cannot be
    converted to a decimal number, [validate_sufficient_funds] raises
    InsufficientFundsError, not the validator's InvalidAmountError. *)
Theorem unconvertible_balance_is_insufficient
    (balance amount : pyvalue) (amt : decimal) :
  validators.validate_amount amount = OK amt ->
  Decimal_of balance = None ->
  validators.validate_sufficient_funds balance amount = Raise InsufficientFundsError.
Proof.
  intros Hamt Hbal. unfold validators.validate_sufficient_funds.
  rewrite Hamt. cbn [mbind result_bind].
  unfold validators._to_decimal_cents. rewrite Hbal. reflexivity.
Qed.

Lemma unconvertible_balance_is_insufficient_witness :
  validators.validate_amount (PyDec (Fin 100 (-2))) = OK (Fin 100 (-2)) /\
  Decimal_of (PyBad InvalidOperation) = None /\
  validators.validate_sufficient_funds (PyBad InvalidOperation) (PyDec (Fin 100 (-2)))
    = Raise InsufficientFundsError.
Proof.
  split; [vm_compute; reflexivity|]. split; [reflexivity|].
  apply (unconvertible_balance_is_insufficient (PyBad InvalidOperation) (PyDec (Fin 100 (-2)))
           (Fin 100 (-2))); reflexivity.
Defined.

(** ** Ledger entries *)

Section LedgerEntry.
Import transaction.

(** No entry of kind deposit or withdrawal can be constructed: whatever
    the fields, the checks of lines 138 to 147 raise. *)
Lemma cash_entry_never_constructed (fields : Transaction) :
  kind fields = "deposit" \/ kind fields = "withdrawal" ->
  is_ok (Transaction_init fields) = false.
Proof.
  destruct fields as [tid k acc fa ta q p am pl ca ea md]. cbn [kind].
  intros Hk. unfold Transaction_init, __post_init__. cbn [kind].
  assert (Hall : bool_decide (k ∈ _ALLOWED_KINDS) = true).
  { destruct Hk as [-> | ->]; vm_compute; reflexivity. }
  assert (Hcash : bool_decide (k ∈ ["deposit"; "withdrawal"]) = true).
  { destruct Hk as [-> | ->]; vm_compute; reflexivity. }
  rewrite Hall. cbn [negb].
  destruct ca as [? [?|]], ea as [[? [?|]]|]; cbn -[Decimal.le Decimal.quantize Decimal.mul _to_decimal _to_quantity bool_decide];
    rewrite Hcash;
    (destruct (truthy_opt acc); cbn [negb]; [|reflexivity]);
    (destruct (_to_decimal am) as [amt|e]; cbn -[Decimal.le]; [|destruct (only _ e); reflexivity]);
    (destruct (Decimal.le amt (Fin 0 0)) as [[|]|]; cbn; try reflexivity);
    destruct q, p; reflexivity.
Qed.

(** Quantizing to cents or to 8 decimals a second time changes nothing. *)
Lemma to_decimal_idempotent (v : pyvalue) (d : decimal) :
  _to_decimal v = OK d -> _to_decimal (PyDec d) = OK d.
Proof.
  unfold _to_decimal. destruct v as [|[m e|?| |]|?]; simpl; try discriminate.
  - intros H. apply quantize_fin_ok in H as [-> Hb];
      [|vm_compute; split; discriminate].
    apply quantize_fin_id; [exact Hb|vm_compute; split; discriminate].
  - intros [= <-]. reflexivity.
Qed.

Lemma to_quantity_idempotent (v : pyvalue) (d : decimal) :
  _to_quantity v = OK d -> _to_quantity (PyDec d) = OK d.
Proof.
  unfold _to_quantity. destruct v as [|[m e|?| |]|?]; simpl; try discriminate.
  - intros H. apply quantize_fin_ok in H as [-> Hb];
      [|vm_compute; split; discriminate].
    apply quantize_fin_id; [exact Hb|vm_compute; split; discriminate].
  - intros [= <-]. reflexivity.
Qed.

(** An entry of kind buy or sell is constructed without any check: apart
    from the zone of its timestamps, the fields stay as they were passed. *)
Lemma trade_entry_never_validated (fields : Transaction) :
  kind fields = "buy" \/ kind fields = "sell" ->
  exists t, Transaction_init fields = OK t /\
    kind t = kind fields /\ account_id t = account_id fields /\
    quantity t = quantity fields /\ price t = price fields /\
    amount t = amount fields /\ profit_loss t = profit_loss fields.
Proof.
  destruct fields as [tid k acc fa ta q p am pl ca ea md]. cbn [kind].
  intros Hk. unfold Transaction_init, __post_init__. cbn [kind].
  assert (Hall : bool_decide (k ∈ _ALLOWED_KINDS) = true).
  { destruct Hk as [-> | ->]; vm_compute; reflexivity. }
  assert (Hcash : bool_decide (k ∈ ["deposit"; "withdrawal"]) = false).
  { destruct Hk as [-> | ->]; vm_compute; reflexivity. }
  rewrite Hall. cbn [negb].
  destruct ca as [? [?|]], ea as [[? [?|]]|];
    cbn -[bool_decide]; rewrite Hcash; eexists; (split; [reflexivity|]);
    cbn; repeat split; reflexivity.
Qed.

End LedgerEntry.

Section LedgerEntryCases.
Import transaction.

(** C1 (the code departs from it).  A deposit for account acct-1 of
    10.125, without quantity and price, is not constructed: the checks
    meant for trades run on it and raise InvalidTransactionError. *)
Theorem deposit_entry_construction_raises :
  Transaction_init
    {| transaction_id := "t-1"; kind := "deposit";
       account_id := Some "acct-1"; from_account := None; to_account := None;
       quantity := PyNone; price := PyNone;
       amount := PyDec (Fin 10125 (-3)); profit_loss := PyNone;
       created_at := noon; executed_at := None; metadata := None |}
  = Raise InvalidTransactionError.
Proof. vm_compute. reflexivity. Qed.

(** C2 (the code departs from it).  An entry of kind buy without account,
    quantity and price is constructed, and its amount is the default 0.00
    that was passed. *)
Theorem buy_entry_without_fields_is_constructed :
  Transaction_init (defaults "t-2" "buy" noon) = OK (defaults "t-2" "buy" noon).
Proof. vm_compute. reflexivity. Qed.

(** C8 (the code departs from it).  An entry of kind buy with quantity
    1.234567891 and price 2.345 is constructed with these very values:
    the quantity read back has nine decimals and the price three. *)
Theorem buy_entry_keeps_unquantized_fields :
  exists t,
    Transaction_init
      {| transaction_id := "t-3"; kind := "buy";
         account_id := Some "tr-1"; from_account := None; to_account := None;
         quantity := PyDec (Fin 1234567891 (-9)); price := PyDec (Fin 2345 (-3));
         amount := default_amount; profit_loss := PyNone;
         created_at := noon; executed_at := None; metadata := None |} = OK t /\
    quantity t = PyDec (Fin 1234567891 (-9)) /\
    price t = PyDec (Fin 2345 (-3)) /\
    ~ quantized_to 8 (quantity t) /\ ~ quantized_to 2 (price t).
Proof.
  eexists. split; [vm_compute; reflexivity|]. cbn [quantity price].
  repeat split; try reflexivity; intros [c Hc]; discriminate Hc.
Qed.

End LedgerEntryCases.

(** ** Holdings *)

Section Holdings.
Import holding.

Lemma toQuantity_ok (v : pyvalue) (d : decimal) :
  toQuantity v = OK d -> exists q, d = Fin q (-8).
Proof.
  destruct v as [|[m e|?| |]|?]; simpl; try discriminate.
  intros [= <-]. eexists; reflexivity.
Qed.

Lemma toMoney_ok (v : pyvalue) (d : decimal) :
  toMoney v = OK d -> exists p, d = Fin p (-2).
Proof.
  destruct v as [|[m e|?| |]|?]; simpl; try discriminate.
  intros [= <-]. eexists; reflexivity.
Qed.

(** C5.  A buy that returns, on a holding of [oq] units (in 1e-8) at an
    average cost of [oa] cents, adds the quantized quantity [q] to the
    quantity and sets the average cost to
    [(oq*oa + q*p) / (oq+q)] cents, rounded half up, where [p] is the
    price quantized to cents; it returns the new quantity. *)
Theorem holding_buy_weighted_average
    (h h' : Holding) (quantity price : pyvalue) (r : decimal) (oq oa : Z) :
  holding.quantity h = Fin oq (-8) -> average_cost h = Fin oa (-2) -> 0 <= oq ->
  buy quantity price h = (OK r, h') ->
  exists q p,
    toQuantity quantity = OK (Fin q (-8)) /\ toMoney price = OK (Fin p (-2)) /\
    0 < q /\ 0 < p /\
    holding.quantity h' = Fin (oq + q) (-8) /\
    average_cost h' = Fin (Decimal.round_half_up (oq * oa + q * p) (oq + q)) (-2) /\
    r = holding.quantity h'.
Proof.
  intros Hq Ha Hoq. unfold buy; unfold_M.
  destruct (toQuantity quantity) as [qty|] eqn:Hqty; [|discriminate].
  destruct (toQuantity_ok _ _ Hqty) as [q ->].
  destruct (positive (Fin q (-8))) eqn:Hpq; [|discriminate]. cbn [negb].
  destruct (toMoney price) as [pr|] eqn:Hpr; [|discriminate].
  destruct (toMoney_ok _ _ Hpr) as [p ->].
  destruct (positive (Fin p (-2))) eqn:Hpp; [|discriminate]. cbn [negb].
  simpl in Hpq, Hpp. apply Z.ltb_lt in Hpq, Hpp.
  intros [= <- <-]. exists q, p. cbn [holding.quantity average_cost set_position].
  rewrite Hq, Ha. unfold weighted_average, exact_mul, exact_add, divide_half_up.
  change (Z.min (-8) (-8)) with (-8). change (-8 - -8) with 0.
  change (Z.min (-8 + -2) (-8 + -2)) with (-10).
  change (-8 + -2 - -10) with 0. change (-10 - -8 + 2) with 0.
  change (0 <=? 0) with true. cbv iota. change (10 ^ 0) with 1.
  rewrite !Z.mul_1_r. rewrite Z.sgn_pos, Z.abs_eq, Z.mul_1_l by lia.
  repeat split; try reflexivity; assumption.
Qed.

(** Scenario A of the specification: 2.5 bought at 3.333 on an empty
    holding, and 1 bought at 4.00 on 2 held at 3.00. *)
Lemma holding_buy_weighted_average_witness :
  let empty := {| symbol := "TSLA"; quantity := Fin 0 (-8);
                  average_cost := Fin 0 (-2); currency := "USD" |} in
  let bought := set_position (Fin 250000000 (-8)) (Fin 333 (-2)) empty in
  buy (PyDec (Fin 25 (-1))) (PyDec (Fin 3333 (-3))) empty
    = (OK (Fin 250000000 (-8)), bought) /\
  exists q p,
    toQuantity (PyDec (Fin 25 (-1))) = OK (Fin q (-8)) /\
    toMoney (PyDec (Fin 3333 (-3))) = OK (Fin p (-2)) /\
    0 < q /\ 0 < p /\
    holding.quantity bought = Fin (0 + q) (-8) /\
    average_cost bought = Fin (Decimal.round_half_up (0 * 0 + q * p) (0 + q)) (-2) /\
    Fin 250000000 (-8) = holding.quantity bought.
Proof.
  intros empty bought.
  assert (Hrun : buy (PyDec (Fin 25 (-1))) (PyDec (Fin 3333 (-3))) empty
                 = (OK (Fin 250000000 (-8)), bought)) by (vm_compute; reflexivity).
  split; [exact Hrun|].
  apply (holding_buy_weighted_average empty bought _ _ _ 0 0);
    [reflexivity|reflexivity|lia|exact Hrun].
Defined.

Example holding_buy_on_existing_position :
  let held := {| symbol := "GOOG"; quantity := Fin 200000000 (-8);
                 average_cost := Fin 300 (-2); currency := "USD" |} in
  buy (PyDec (Fin 1 0)) (PyDec (Fin 400 (-2))) held
    = (OK (Fin 300000000 (-8)),
       set_position (Fin 300000000 (-8)) (Fin 333 (-2)) held).
Proof. vm_compute. reflexivity. Qed.

End Holdings.

(** ** Portfolios *)

Section Portfolios.
Import portfolio.

Lemma sbind_lift_OK {S A B : Type} (a : A) (f : A -> M S B) (s : S) :
  sbind (lift (OK a)) f s = f a s.
Proof. reflexivity. Qed.

Lemma sbind_sget {S B : Type} (f : S -> M S B) (s : S) :
  sbind sget f s = f s s.
Proof. reflexivity. Qed.

Lemma holding_sell_raises_unchanged (q p : pyvalue) (h h' : holding.Holding) (e : exn) :
  holding.sell q p h = (Raise e, h') -> h' = h.
Proof.
  unfold holding.sell; unfold_M.
  destruct (holding.toQuantity q) as [qty|]; [|intros [= _ <-]; reflexivity].
  destruct (negb (holding.positive qty)); [intros [= _ <-]; reflexivity|].
  destruct (holding.toMoney p) as [pr|]; [|intros [= _ <-]; reflexivity].
  destruct (negb (holding.positive pr)); [intros [= _ <-]; reflexivity|].
  destruct (Decimal._cmp qty (holding.quantity h));
    (discriminate || (intros [= _ <-]; reflexivity)).
Qed.

Lemma deref_insert_eq (hp : gmap loc obj) (l : loc) (h : holding.Holding) :
  deref (<[l := OHolding h]> hp) l = Some h.
Proof. unfold deref. rewrite lookup_insert_eq. reflexivity. Qed.

Lemma deref_lookup (hp : gmap loc obj) (l : loc) (h : holding.Holding) :
  deref hp l = Some h -> hp !! l = Some (OHolding h).
Proof.
  unfold deref. destruct (hp !! l) as [[h0|?]|]; try discriminate.
  intros [= ->]. reflexivity.
Qed.

Lemma zero_quantity_literal :
  Decimal.quantize (Fin 0 0) (Fin 1 (-8)) ROUND_HALF_EVEN = OK (Fin 0 (-8)).
Proof. reflexivity. Qed.

Lemma normalize_nonempty (symbol : string) :
  symbol <> "" -> _normalize_symbol symbol = OK (strip symbol).
Proof.
  intros Hne. unfold _normalize_symbol, truthy.
  rewrite bool_decide_eq_false_2 by assumption. reflexivity.
Qed.

(** C6, as the code has it.  For a symbol that is not the empty string:
    without a holding under the trimmed symbol the sale raises
    PortfolioNotFoundError and changes nothing; otherwise it is the sale
    on that holding, an exception of which is passed on with the
    portfolio unchanged, and when the holding's quantity afterwards
    equals zero the symbol is deleted from the dict, otherwise the dict
    stays.  The empty symbol is a ValueError, nothing changed. *)
Theorem portfolio_sell_routes
    (st : state) (symbol : string) (quantity price : pyvalue) :
  symbol <> "" ->
  match _holdings st.2 !! strip symbol with
  | None => sell symbol quantity price st = (Raise PortfolioNotFoundError, st)
  | Some l =>
      forall h, deref st.1 l = Some h ->
      match holding.sell quantity price h with
      | (Raise e, _) => sell symbol quantity price st = (Raise e, st)
      | (OK pnl, h') =>
          forall closed : bool,
          Decimal.eq (holding.quantity h') (Fin 0 (-8)) = OK closed ->
          sell symbol quantity price st
          = (OK pnl,
             (<[l := OHolding h']> st.1,
              if closed
              then set_holdings (delete (strip symbol) (_holdings st.2)) st.2
              else st.2))
      end
  end.
Proof.
  intros Hne. destruct st as [hp self]. cbn [fst snd].
  unfold sell. rewrite (normalize_nonempty symbol Hne).
  rewrite sbind_lift_OK, sbind_sget. cbn [fst snd].
  destruct (_holdings self !! strip symbol) as [l|] eqn:Hl; [|reflexivity].
  intros h Hh.
  destruct (holding.sell quantity price h) as [[pnl|e] h'] eqn:Hs.
  - intros closed Hclosed.
    unfold sbind, call_holding, lift, sget, sret, put_holdings. cbn [fst snd].
    rewrite Hh, Hs. cbn [fst snd]. rewrite deref_insert_eq. cbn [fst snd].
    rewrite insert_insert_eq, zero_quantity_literal, Hclosed.
    destruct closed; reflexivity.
  - unfold sbind, call_holding. cbn [fst snd]. rewrite Hh, Hs.
    rewrite (holding_sell_raises_unchanged _ _ _ _ _ Hs).
    rewrite insert_id by (apply deref_lookup; exact Hh). reflexivity.
Qed.

Lemma portfolio_sell_empty_symbol (st : state) (quantity price : pyvalue) :
  sell "" quantity price st = (Raise ValueError, st).
Proof. reflexivity. Qed.

(** Selling all 3 units of IBM, the symbol given with blanks around it,
    closes the position and deletes it from the dict. *)
Lemma portfolio_sell_routes_witness :
  " IBM " <> "" /\
  sell " IBM " (PyDec (Fin 3 0)) (PyDec (Fin 1000 (-2))) examples.ibm_state
  = (OK (Fin 0 (-2)),
     (<[1%positive := OHolding (holding.set_position (Fin 0 (-8)) (Fin 0 (-2))
                                  examples.ibm)]> examples.ibm_state.1,
      set_holdings (delete (strip " IBM ") (_holdings examples.ibm_state.2))
        examples.ibm_state.2)).
Proof.
  split; [discriminate|].
  exact (portfolio_sell_routes examples.ibm_state " IBM " (PyDec (Fin 3 0))
           (PyDec (Fin 1000 (-2))) ltac:(discriminate)
           examples.ibm eq_refl true eq_refl).
Defined.

(** C6 as stated fails on the empty symbol: no holding exists under its
    trimmed form, and the sale raises ValueError. *)
Lemma portfolio_sell_empty_symbol_counterexample :
  let st : state := (∅, examples.empty_portfolio) in
  _holdings st.2 !! strip "" = None /\
  sell "" (PyDec (Fin 1 0)) (PyDec (Fin 100 (-2))) st = (Raise ValueError, st) /\
  ~ (sell "" (PyDec (Fin 1 0)) (PyDec (Fin 100 (-2))) st
     = (Raise PortfolioNotFoundError, st)).
Proof.
  intros st. split; [reflexivity|]. split; [reflexivity|]. discriminate.
Qed.

End Portfolios.

(** ** What the read operations hand out *)

Section Reads.
Import portfolio.

Lemma well_formed_allocated (st : state) (sym : string) (l : loc) :
  well_formed st -> _holdings st.2 !! sym = Some l -> l ∈ dom st.1.
Proof.
  intros Hwf Hl. destruct (Hwf sym l Hl) as [h Hh].
  apply elem_of_dom. exists (OHolding h). apply deref_lookup. exact Hh.
Qed.

Lemma call_holding_read_only {A : Type} (l : loc) (method : M holding.Holding A) :
  (forall h, (method h).2 = h) -> forall st, (call_holding l method st).2 = st.
Proof.
  intros Hro [hp self]. unfold call_holding. cbn [fst snd].
  destruct (deref hp l) as [h|] eqn:Hh; [|reflexivity].
  specialize (Hro h). destruct (method h) as [r h']. cbn [snd] in *. subst h'.
  rewrite insert_id by (apply deref_lookup; exact Hh). reflexivity.
Qed.

Lemma holding_market_value_read_only (price : pyvalue) (h : holding.Holding) :
  (holding.market_value price h).2 = h.
Proof.
  unfold holding.market_value, sbind, lift, sget, sret.
  destruct (holding.toMoney price); reflexivity.
Qed.

Lemma market_value_loop_read_only (pp : price_provider) (items : list (string * loc)) :
  forall total st, (market_value_loop pp items total st).2 = st.
Proof.
  induction items as [|[sym h] items IH]; intros total st; [reflexivity|].
  cbn [market_value_loop]. unfold sbind at 1, lift at 1.
  destruct (price_for pp sym) as [price|]; [|reflexivity].
  unfold sbind at 1.
  pose proof (call_holding_read_only h (holding.market_value price)
                (holding_market_value_read_only price) st) as Hro.
  destruct (call_holding h (holding.market_value price) st) as [[mv|e] st'];
    cbn [snd] in Hro; subst st'; [|reflexivity].
  unfold sbind at 1, lift at 1.
  destruct (Decimal.add total mv); [apply IH|reflexivity].
Qed.

(** C9, as the code has it.  The list that [list_holdings] returns is a
    new object holding the references of the portfolio's dict: the call
    changes neither the portfolio nor any object that existed, and
    whatever a caller then stores in that list, the portfolio's dict and
    the holdings it leads to stay as they were.  (The elements of the
    list are the portfolio's own holdings, not copies.)  [market_value]
    leaves the portfolio and the heap as they were, and [get_balance]
    returns the balance, a value that cannot be mutated, and leaves the
    account as it was. *)
Theorem reads_return_copies (st st' : state) (l : loc) :
  well_formed st ->
  list_holdings st = (OK l, st') ->
  st.1 !! l = None /\
  st' = (<[l := OList (map_to_list (_holdings st.2)).*2]> st.1, st.2) /\
  (forall items,
     (mutate_list l items st').2 = st.2 /\
     holdings_view (mutate_list l items st') = holdings_view st) /\
  (forall pp, (market_value pp st).2 = st) /\
  (forall a, accounts.get_balance a = (OK (accounts.balance a), a)).
Proof.
  intros Hwf. destruct st as [hp self].
  unfold list_holdings, sbind, sget, alloc. cbn [fst snd].
  intros [= <- <-].
  assert (Hfresh : hp !! fresh (dom hp) = None).
  { apply not_elem_of_dom. apply is_fresh. }
  split; [exact Hfresh|]. split; [reflexivity|]. split; [|split].
  - intros items. split; [reflexivity|].
    unfold holdings_view, mutate_list. cbn [fst snd].
    apply map_eq. intros sym. rewrite !lookup_omap.
    destruct (_holdings self !! sym) as [x|] eqn:Hx; [|reflexivity].
    cbn [mbind option_bind]. unfold deref.
    assert (Hne : fresh (dom hp) <> x).
    { intros <-. pose proof (well_formed_allocated (hp, self) sym _ Hwf Hx) as Hin.
      exact (is_fresh (dom hp) Hin). }
    rewrite !lookup_insert_ne by exact Hne. reflexivity.
  - intros [pp|]; [|reflexivity].
    unfold market_value. rewrite sbind_sget. unfold sbind at 1.
    pose proof (market_value_loop_read_only pp
                  (map_to_list (_holdings (hp, self).2)) (Fin 0 (-2)) (hp, self)) as Hro.
    destruct (market_value_loop pp _ _ _) as [[total|e] st'];
      cbn [snd] in Hro; subst st'; [|reflexivity].
    unfold lift. reflexivity.
  - intros a. reflexivity.
Qed.

Lemma reads_return_copies_witness :
  let st' : state :=
    (<[2%positive := OList [1%positive]]> examples.ibm_state.1,
     examples.ibm_state.2) in
  well_formed examples.ibm_state /\
  list_holdings examples.ibm_state = (OK 2%positive, st') /\
  holdings_view (mutate_list 2%positive [] st') = holdings_view examples.ibm_state.
Proof.
  intros st'.
  assert (Hwf : well_formed examples.ibm_state).
  { intros sym x Hx. exists examples.ibm.
    unfold examples.ibm_state, examples.ibm_portfolio in Hx.
    cbn [snd _holdings] in Hx.
    apply lookup_singleton_Some in Hx as [_ <-]. reflexivity. }
  assert (Hrun : list_holdings examples.ibm_state = (OK 2%positive, st'))
    by (vm_compute; reflexivity).
  split; [exact Hwf|]. split; [exact Hrun|].
  exact (proj2 (proj1 (proj2 (proj2
    (reads_return_copies examples.ibm_state st' 2%positive Hwf Hrun))) [])).
Defined.

(** C9 as stated fails for the holdings in the list: buying through the
    element of the returned list changes the quantity the portfolio
    holds. *)
Lemma list_holdings_elements_are_aliases :
  let st := examples.ibm_state in
  let st' : state := (<[2%positive := OList [1%positive]]> st.1, st.2) in
  list_holdings st = (OK 2%positive, st') /\
  st'.1 !! 2%positive = Some (OList [1%positive]) /\
  let st'' :=
    (call_holding 1%positive
       (holding.buy (PyDec (Fin 1 0)) (PyDec (Fin 1000 (-2)))) st').2 in
  holdings_view st !! "IBM" = Some examples.ibm /\
  holdings_view st'' !! "IBM"
    = Some (holding.set_position (Fin 400000000 (-8)) (Fin 1000 (-2)) examples.ibm) /\
  holdings_view st'' <> holdings_view st.
Proof.
  intros st st'. split; [vm_compute; reflexivity|].
  split; [vm_compute; reflexivity|]. intros st''.
  assert (H1 : holdings_view st !! "IBM" = Some examples.ibm)
    by (vm_compute; reflexivity).
  assert (H2 : holdings_view st'' !! "IBM"
    = Some (holding.set_position (Fin 400000000 (-8)) (Fin 1000 (-2)) examples.ibm))
    by (vm_compute; reflexivity).
  split; [exact H1|]. split; [exact H2|].
  intros Heq. rewrite Heq, H1 in H2. discriminate H2.
Qed.

End Reads.

(** ** Valuation *)

Section Valuation.
Import valuation.

Variable self : ValuationEngine.
Variable price_overrides : gmap string pyvalue.




End Valuation.

(** Scenario E evaluated: the first row is priced at 3.33 and worth 4.11,
    the second has no price and no value, and the totals are those of the
    first row. *)
Example breakdown_scenario_E :
  valuation.portfolio_breakdown scenario_E.engine
    (valuation.Iterable
       (valuation.of_holding <$> [scenario_E.s1; scenario_E.s2]))
    scenario_E.overrides
  = OK {| valuation.holdings :=
            [ {| valuation.row_symbol := Some "S1";
                 valuation.row_quantity := Fin 123456789 (-8);
                 valuation.row_average_cost := Some (Fin 200 (-2));
                 valuation.market_price := Some (Fin 333 (-2));
                 valuation.market_value := Some (Fin 411 (-2));
                 valuation.unrealized_pl := Some (Fin 164 (-2)) |};
              {| valuation.row_symbol := Some "S2";
                 valuation.row_quantity := Fin 200000000 (-8);
                 valuation.row_average_cost := Some (Fin 100 (-2));
                 valuation.market_price := None;
                 valuation.market_value := None;
                 valuation.unrealized_pl := None |} ];
          valuation.total_market_value := Fin 411 (-2);
          valuation.total_unrealized_pl := Fin 164 (-2) |}.
Proof. vm_compute. reflexivity. Qed.

(** ** The trading engine *)

Section Trading.

Example default_price_service :
  pricing.PriceService_init = OK scenario_C.prices.
Proof. vm_compute. reflexivity. Qed.

(** Whatever the arguments, [buy] raises and leaves every store as it
    was: the call of [Transaction.trade] is the last step it reaches. *)
Lemma buy_never_returns (self : trading.TradingEngine)
    (account_id portfolio_id symbol : string) (quantity price : pyvalue)
    (use_market_price : bool) (tid : string) (now : datetime) (w : world) :
  exists e,
    trading.buy self account_id portfolio_id symbol quantity price
      use_market_price tid now w = (Raise e, w).
Proof.
  unfold trading.buy, trading.buy_with, sbind at 1, lift at 1.
  destruct (try_except _ _ _) as [norm|e]; [|eexists; reflexivity].
  unfold sbind at 1, lift at 1.
  destruct (trading._resolve_price _ _ _ _) as [rp|e]; [|eexists; reflexivity].
  unfold sbind at 1, lift at 1. cbn [transaction.trade try_except any_exception].
  eexists; reflexivity.
Qed.

(** C4 (the code departs from it).  With a balance of 10.00, AAPL at
    150.00 and a quantity of 1, [buy] leaves the account and the
    portfolio as they were, but what it raises is TradingError, not
    InsufficientFundsError. *)
Theorem buy_scenario_C_raises_trading_error :
  trading.buy scenario_C.engine "acct-2" "p2" "AAPL" (PyDec (Fin 1 0)) PyNone
    true "tx-1" transaction.noon scenario_C.before
  = (Raise TradingError, scenario_C.before).
Proof. vm_compute. reflexivity. Qed.

(** The same call were the text of [trade] on line 178 code: the entry
    is constructed unchecked with the default amount 0.00, which the
    validator rejects as not positive, and that is again a TradingError. *)
Example buy_scenario_C_with_trade_as_written :
  trading.buy_with transaction.trade_as_written scenario_C.engine
    "acct-2" "p2" "AAPL" (PyDec (Fin 1 0)) PyNone true "tx-1" transaction.noon
    scenario_C.before
  = (Raise TradingError, scenario_C.before).
Proof. vm_compute. reflexivity. Qed.

End Trading.

(* ================================================================= *)
(** * Further properties of the code *)

(** ** Quantization, completely *)

Section Quantization.

Lemma round_div_lower (rm : rounding) (n d : Z) :
  0 < d -> Z.abs n / d <= Z.abs (Decimal.round_div rm n d).
Proof.
  intros Hd. destruct rm; cbn [Decimal.round_div].
  - destruct (round_half_up_spec n d Hd) as (-> & _ & _).
    apply Z.div_le_lower_bound; [lia|].
    pose proof (Z.mul_div_le (Z.abs n) d Hd). nia.
  - apply round_half_even_bounds. exact Hd.
Qed.

Lemma rescale_lower (m e q : Z) (rm : rounding) :
  m <> 0 -> 0 <= Decimal.ndigits m + e - q - 1 ->
  10 ^ (Decimal.ndigits m + e - q - 1) <= Z.abs (Decimal._rescale m e q rm).
Proof.
  intros Hm Hk. destruct (ndigits_bounds m Hm) as (Hnd & Hlo & _).
  unfold Decimal._rescale. destruct (Z.leb_spec q e) as [Hqe|Hqe].
  - rewrite Z.abs_mul, (Z.abs_eq (10 ^ (e - q))) by (apply Z.pow_nonneg; lia).
    replace (Decimal.ndigits m + e - q - 1)
      with ((Decimal.ndigits m - 1) + (e - q)) by lia.
    rewrite Z.pow_add_r by lia.
    apply Z.mul_le_mono_nonneg_r; [apply Z.pow_nonneg; lia|exact Hlo].
  - eapply Z.le_trans; [|apply round_div_lower; apply pow10_pos; lia].
    apply Z.div_le_lower_bound; [apply pow10_pos; lia|].
    rewrite <- Z.pow_add_r by lia.
    replace (q - e + (Decimal.ndigits m + e - q - 1))
      with (Decimal.ndigits m - 1) by lia.
    exact Hlo.
Qed.

(** [quantize] on a finite number, for a target exponent between
    [Etiny] and 0: the rounded coefficient if it has at most 28 digits,
    InvalidOperation otherwise. *)
Lemma quantize_fin_spec (m e q k : Z) (rm : rounding) :
  Decimal.Etiny <= q <= 0 ->
  Decimal.quantize (Fin m e) (Fin k q) rm
  = if Z.abs (Decimal._rescale m e q rm) <? 10 ^ 28
    then OK (Fin (Decimal._rescale m e q rm) q)
    else Raise InvalidOperation.
Proof.
  intros Hq.
  assert (Hq' : Decimal.Etiny <= q <= Decimal.Etop)
    by (unfold Decimal.Etop, Decimal.Emax, Decimal.prec; lia).
  unfold Decimal.quantize. cbn [Decimal._check_nans].
  replace (negb _) with false; cycle 1.
  { symmetry. apply negb_false_iff, andb_true_iff.
    unfold Decimal.Etop, Decimal.Etiny, Decimal.Emin, Decimal.Emax, Decimal.prec in *.
    lia. }
  destruct (Z.eqb_spec m 0) as [->|Hm].
  - rewrite rescale_zero. change (Z.abs 0 <? 10 ^ 28) with true. cbv iota.
    apply fix_id; [simpl; lia|exact Hq'].
  - cbv zeta. set (c := Decimal._rescale m e q rm).
    pose proof (ndigits_pos m) as Hnd.
    assert (Hlow : 28 <= Decimal.ndigits m + e - q - 1 -> 10 ^ 28 <= Z.abs c).
    { intros Hk. eapply Z.le_trans; [|apply rescale_lower; [exact Hm|lia]].
      apply Z.pow_le_mono_r; lia. }
    unfold Decimal.Emax, Decimal.prec.
    destruct (Z.ltb_spec (Z.abs c) (10 ^ 28)) as [Hs|Hb].
    + destruct (Z.ltb_spec 999999 (e + Decimal.ndigits m - 1)); [lia|].
      destruct (Z.ltb_spec 28 (e + Decimal.ndigits m - 1 - q + 1)); [lia|].
      pose proof (ndigits_lt_pow c 28 ltac:(lia) Hs) as Hc.
      pose proof (ndigits_pos c).
      destruct (Z.ltb_spec 999999 (q + Decimal.ndigits c - 1)); [lia|].
      destruct (Z.ltb_spec 28 (Decimal.ndigits c)); [lia|].
      apply fix_id; assumption.
    + destruct (999999 <? e + Decimal.ndigits m - 1); [reflexivity|].
      destruct (28 <? e + Decimal.ndigits m - 1 - q + 1); [reflexivity|].
      destruct (999999 <? q + Decimal.ndigits c - 1); [reflexivity|].
      pose proof (ndigits_ge_pow c 28 ltac:(lia) Hb) as Hc.
      destruct (Z.ltb_spec 28 (Decimal.ndigits c)); [reflexivity|lia].
Qed.

Lemma fix_cents_overflow (s : Z) :
  10 ^ 28 <= Z.abs s < 2 * 10 ^ 28 ->
  exists c, Decimal._fix s (-2) = OK (Fin c (-1)) /\ Decimal.ndigits c = 28 /\ c <> 0.
Proof.
  intros Hs. unfold Decimal._fix.
  destruct (Z.eqb_spec s 0) as [H0|_]; [rewrite H0 in Hs; simpl in Hs; lia|].
  assert (Hnd : Decimal.ndigits s = 29).
  { apply Z.le_antisymm.
    - apply ndigits_lt_pow; lia.
    - apply (ndigits_ge_pow s 28); lia. }
  rewrite Hnd. unfold Decimal.Etop, Decimal.Etiny, Decimal.Emax, Decimal.Emin, Decimal.prec.
  change (29 + -2 - 28) with (-1).
  change (999999 - 28 + 1 <? -1) with false. cbv iota.
  change (Z.max (-1) (-999999 - 28 + 1)) with (-1).
  change (-2 <? -1) with true. cbv iota zeta.
  change (10 ^ (-1 - -2)) with 10. cbn [Decimal.round_div].
  pose proof (round_half_even_bounds s 10 ltac:(lia)) as Hc.
  set (c := Decimal.round_half_even s 10) in *.
  assert (Hq1 : 10 ^ 27 <= Z.abs s / 10) by (apply Z.div_le_lower_bound; lia).
  assert (Hq2 : Z.abs s / 10 < 2 * 10 ^ 27) by (apply Z.div_lt_upper_bound; lia).
  assert (Hndc : Decimal.ndigits c = 28).
  { apply Z.le_antisymm.
    - apply ndigits_lt_pow; lia.
    - apply (ndigits_ge_pow c 27); lia. }
  rewrite Hndc. change (28 <? 28) with false. cbv iota.
  exists c. split; [reflexivity|]. split; [exact Hndc|]. lia.
Qed.

(** The sum of two amounts in cents, quantized again: exact while it
    fits 28 digits, InvalidOperation beyond. *)
Lemma add_quantize_cents_spec (x y k : Z) :
  Z.abs x < 10 ^ 28 -> Z.abs y < 10 ^ 28 ->
  (Decimal.add (Fin x (-2)) (Fin y (-2)) ≫=
     fun t => Decimal.quantize t (Fin k (-2)) ROUND_HALF_UP)
  = if Z.abs (x + y) <? 10 ^ 28 then OK (Fin (x + y) (-2))
    else Raise InvalidOperation.
Proof.
  intros Hx Hy. unfold Decimal.add. cbn [Decimal._check_nans].
  rewrite Z.min_id, Z.sub_diag. change (10 ^ 0) with 1. rewrite !Z.mul_1_r.
  destruct (Z.ltb_spec (Z.abs (x + y)) (10 ^ 28)) as [Hs|Hb].
  - rewrite fix_id by (try assumption; vm_compute; split; discriminate).
    cbn [mbind result_bind].
    apply quantize_fin_id; [assumption|vm_compute; split; discriminate].
  - destruct (fix_cents_overflow (x + y) ltac:(lia)) as (c & -> & Hnd & Hc).
    cbn [mbind result_bind]. unfold Decimal.quantize. cbn [Decimal._check_nans].
    change (negb _) with false. cbv iota.
    destruct (Z.eqb_spec c 0) as [?|_]; [contradiction|].
    cbv zeta. rewrite Hnd. reflexivity.
Qed.

End Quantization.

(** ** Cash accounts: what every call does *)

Section CashAccountOutcomes.
Import accounts.

Lemma account_to_decimal_cents (v : pyvalue) (k e : Z) :
  _to_decimal v = OK (Fin k e) -> e = -2 /\ k = cents_of v /\ Z.abs k < 10 ^ 28.
Proof.
  intros H. destruct (account_to_decimal_ok v _ H) as [?|[Heq Hb]]; [discriminate|].
  injection Heq as -> ->. repeat split; assumption.
Qed.

(** X1.  On a validated account with [c] cents, a deposit of an amount
    that quantizes to [k] cents raises InvalidAmountError when [k] is not
    positive, returns and stores [c + k] when that has at most 28
    digits, and raises the decimal module's InvalidOperation otherwise;
    whenever it raises, the account is as before. *)
Theorem deposit_outcome (a : Account) (c k : Z) (v : pyvalue) :
  balance_ok a c -> _to_decimal v = OK (Fin k (-2)) ->
  deposit v a
  = if k <=? 0 then (Raise AccountInvalidAmountError, a)
    else if c + k <? 10 ^ 28
         then (OK (Fin (c + k) (-2)), set_balance (Fin (c + k) (-2)) a)
         else (Raise InvalidOperation, a).
Proof.
  intros [Hbal Hc] Hv.
  destruct (account_to_decimal_cents v k (-2) Hv) as (_ & _ & Hk).
  unfold deposit; unfold_M. rewrite Hv, le_zero_cents.
  destruct (Z.leb_spec k 0) as [|Hpos]; [reflexivity|].
  rewrite Hbal.
  pose proof (add_quantize_cents_spec c k 1 ltac:(lia) Hk) as Hadd.
  rewrite (Z.abs_eq (c + k)) in Hadd by lia.
  destruct (Decimal.add (Fin c (-2)) (Fin k (-2))) as [t|err];
    cbn [mbind result_bind] in Hadd.
  - change _CENT with (Fin 1 (-2)). rewrite Hadd.
    destruct (c + k <? 10 ^ 28); reflexivity.
  - destruct (c + k <? 10 ^ 28); [discriminate|]. injection Hadd as ->. reflexivity.
Qed.

Lemma deposit_outcome_witness :
  let a := {| owner := "erin"; account_id := "acct-1";
              balance := Fin 1000 (-2); currency := "USD" |} in
  balance_ok a 1000 /\
  _to_decimal (PyDec (Fin 5505 (-3))) = OK (Fin 551 (-2)) /\
  deposit (PyDec (Fin 5505 (-3))) a
  = (OK (Fin 1551 (-2)), set_balance (Fin 1551 (-2)) a).
Proof.
  intros a.
  assert (Hok : balance_ok a 1000) by (split; [reflexivity|lia]).
  assert (Hv : _to_decimal (PyDec (Fin 5505 (-3))) = OK (Fin 551 (-2)))
    by (vm_compute; reflexivity).
  split; [exact Hok|]. split; [exact Hv|].
  exact (deposit_outcome a 1000 551 _ Hok Hv).
Defined.

(** The three ways a withdrawal ends. *)
Lemma withdraw_cases (a : Account) (c k : Z) (v : pyvalue) :
  balance_ok a c -> _to_decimal v = OK (Fin k (-2)) ->
  withdraw v a
  = if k <=? 0 then (Raise AccountInvalidAmountError, a)
    else if c <? k then (Raise AccountInsufficientFundsError, a)
    else (OK (Fin (c - k) (-2)), set_balance (Fin (c - k) (-2)) a).
Proof.
  intros [Hbal Hc] Hv.
  destruct (account_to_decimal_cents v k (-2) Hv) as (_ & _ & Hk).
  unfold withdraw; unfold_M. rewrite Hv, le_zero_cents.
  destruct (Z.leb_spec k 0) as [|Hpos]; [reflexivity|].
  rewrite Hbal, gt_cents.
  destruct (Z.ltb_spec c k) as [|Hle]; [reflexivity|].
  unfold Decimal.sub. cbn [Decimal.neg].
  pose proof (add_quantize_cents_spec c (- k) 1 ltac:(lia) ltac:(lia)) as Hadd.
  replace (c + - k) with (c - k) in Hadd by lia.
  destruct (Z.ltb_spec (Z.abs (c - k)) (10 ^ 28)); [|lia].
  destruct (Decimal.add (Fin c (-2)) (Fin (- k) (-2))) as [t|err];
    cbn [mbind result_bind] in Hadd; [|discriminate].
  change _CENT with (Fin 1 (-2)). rewrite Hadd. reflexivity.
Qed.

(** X2.  On a validated account with [c] cents, a withdrawal of an
    amount that quantizes to [k] cents raises InvalidAmountError when [k]
    is not positive, InsufficientFundsError when [k] exceeds [c], and
    otherwise returns and stores [c - k]; withdrawing the whole balance
    is allowed.  Whenever it raises, the account is as before. *)
Theorem withdraw_outcome (a : Account) (c k : Z) (v : pyvalue) :
  balance_ok a c -> _to_decimal v = OK (Fin k (-2)) ->
  withdraw v a
  = if k <=? 0 then (Raise AccountInvalidAmountError, a)
    else if c <? k then (Raise AccountInsufficientFundsError, a)
    else (OK (Fin (c - k) (-2)), set_balance (Fin (c - k) (-2)) a).
Proof. exact (withdraw_cases a c k v). Qed.

Lemma withdraw_outcome_witness :
  let a := {| owner := "harry"; account_id := "acct-2";
              balance := Fin 200 (-2); currency := "USD" |} in
  balance_ok a 200 /\
  _to_decimal (PyDec (Fin 2 0)) = OK (Fin 200 (-2)) /\
  withdraw (PyDec (Fin 2 0)) a = (OK (Fin 0 (-2)), set_balance (Fin 0 (-2)) a).
Proof.
  intros a.
  assert (Hok : balance_ok a 200) by (split; [reflexivity|lia]).
  assert (Hv : _to_decimal (PyDec (Fin 2 0)) = OK (Fin 200 (-2)))
    by (vm_compute; reflexivity).
  split; [exact Hok|]. split; [exact Hv|].
  exact (withdraw_outcome a 200 200 _ Hok Hv).
Defined.

(** X3.  A deposit that returns can be taken back: withdrawing the same
    amount right after it returns the balance the account had and
    leaves the account exactly as it was. *)
Theorem deposit_then_withdraw_restores
    (a a' : Account) (c : Z) (v : pyvalue) (b : decimal) :
  balance_ok a c -> deposit v a = (OK b, a') ->
  withdraw v a' = (OK (Fin c (-2)), a).
Proof.
  intros Hok Hdep.
  destruct (deposit_returns v a a' c b Hok Hdep) as (Hpos & -> & -> & Hok').
  assert (Hv : _to_decimal v = OK (Fin (cents_of v) (-2))).
  { revert Hdep. unfold deposit; unfold_M.
    destruct (_to_decimal v) as [d|] eqn:Hd; [|discriminate].
    destruct (account_to_decimal_ok v d Hd) as [->|[-> _]]; [discriminate|].
    reflexivity. }
  rewrite (withdraw_cases _ _ _ v Hok' Hv).
  destruct (Z.leb_spec (cents_of v) 0); [lia|].
  destruct (Z.ltb_spec (c + cents_of v) (cents_of v)); [destruct Hok; lia|].
  replace (c + cents_of v - cents_of v) with c by lia.
  destruct Hok as [Hbal _]. destruct a as [o i bal cur]. cbn in Hbal. subst bal.
  reflexivity.
Qed.

Lemma deposit_then_withdraw_restores_witness :
  let a := {| owner := "erin"; account_id := "acct-1";
              balance := Fin 1000 (-2); currency := "USD" |} in
  balance_ok a 1000 /\
  deposit (PyDec (Fin 5505 (-3))) a
    = (OK (Fin 1551 (-2)), set_balance (Fin 1551 (-2)) a) /\
  withdraw (PyDec (Fin 5505 (-3))) (set_balance (Fin 1551 (-2)) a)
    = (OK (Fin 1000 (-2)), a).
Proof.
  intros a.
  assert (Hok : balance_ok a 1000) by (split; [reflexivity|lia]).
  assert (Hdep : deposit (PyDec (Fin 5505 (-3))) a
    = (OK (Fin 1551 (-2)), set_balance (Fin 1551 (-2)) a)) by (vm_compute; reflexivity).
  split; [exact Hok|]. split; [exact Hdep|].
  exact (deposit_then_withdraw_restores a _ 1000 _ _ Hok Hdep).
Defined.

(** X4.  [Account.create] checks the owner first: an empty owner is a
    ValueError whatever the deposit.  With an owner, an initial deposit
    that quantizes to [k] cents is refused with InvalidAmountError when
    [k] is negative; otherwise the account is created with exactly [k]
    cents (zero allowed): the second quantization, in the constructor,
    changes nothing. *)
Theorem create_outcome (o cur i : string) (v : pyvalue) (k : Z) :
  (forall v', create "" v' cur i = Raise ValueError) /\
  (o <> "" -> _to_decimal v = OK (Fin k (-2)) ->
   create o v cur i
   = if k <? 0 then Raise AccountInvalidAmountError
     else OK {| owner := o; account_id := i; balance := Fin k (-2);
                currency := cur |}).
Proof.
  split; [reflexivity|]. intros Ho Hv.
  destruct (account_to_decimal_cents v k (-2) Hv) as (_ & _ & Hk).
  unfold create. rewrite bool_decide_eq_false_2 by exact Ho.
  rewrite Hv. cbn [mbind result_bind]. rewrite lt_zero_cents.
  cbn [mbind result_bind].
  destruct (Z.ltb_spec k 0) as [|Hnn]; [reflexivity|].
  unfold Account_init, _to_decimal. cbn [Decimal_of].
  change _CENT with (Fin 1 (-2)).
  rewrite quantize_fin_id by (try assumption; vm_compute; split; discriminate).
  cbn [mbind result_bind]. rewrite lt_zero_cents. cbn [mbind result_bind].
  destruct (Z.ltb_spec k 0); [lia|reflexivity].
Qed.

Lemma create_outcome_witness :
  "bob" <> "" /\
  _to_decimal (PyDec (Fin 7777 (-3))) = OK (Fin 778 (-2)) /\
  create "bob" (PyDec (Fin 7777 (-3))) "CAD" "id-1"
  = OK {| owner := "bob"; account_id := "id-1"; balance := Fin 778 (-2);
          currency := "CAD" |}.
Proof.
  assert (Ho : "bob" <> "") by discriminate.
  assert (Hv : _to_decimal (PyDec (Fin 7777 (-3))) = OK (Fin 778 (-2)))
    by (vm_compute; reflexivity).
  split; [exact Ho|]. split; [exact Hv|].
  exact (proj2 (create_outcome "bob" "CAD" "id-1" (PyDec (Fin 7777 (-3))) 778)
           Ho Hv).
Defined.

End CashAccountOutcomes.

(** ** The operation validator: what every call does *)

Section ValidatorOutcomes.
Import validators.

Lemma upper_ascii_idempotent (ch : ascii) :
  upper_ascii (upper_ascii ch) = upper_ascii ch.
Proof.
  destruct ch as [[] [] [] [] [] [] [] []]; vm_compute; reflexivity.
Qed.

Lemma upper_idempotent (s : string) : upper (upper s) = upper s.
Proof.
  induction s as [|ch s IH]; [reflexivity|]. cbn [upper].
  rewrite upper_ascii_idempotent, IH. reflexivity.
Qed.

Lemma upper_truthy (s : string) : truthy (upper s) = truthy s.
Proof. destruct s; reflexivity. Qed.

(** [validate_amount], case by case. *)
Lemma validate_amount_cases (amount : pyvalue) :
  validate_amount amount
  = match amount with
    | PyDec (Fin m e) =>
        let c := Decimal._rescale m e (-2) ROUND_HALF_UP in
        if Z.abs c <? 10 ^ 28
        then if c <=? 0 then Raise InvalidAmountError else OK (Fin c (-2))
        else Raise InvalidOperation
    | PyDec _ => Raise InvalidOperation
    | PyNone | PyBad _ => Raise InvalidAmountError
    end.
Proof.
  unfold validate_amount, _to_decimal_cents.
  destruct amount as [|[m e|s| |]|err]; try reflexivity.
  cbn [Decimal_of]. change _CENT with (Fin 1 (-2)).
  rewrite quantize_fin_spec by (vm_compute; split; discriminate).
  cbv zeta. destruct (Z.abs _ <? 10 ^ 28); [|reflexivity].
  cbn [mbind result_bind]. rewrite le_zero_cents. cbn [mbind result_bind].
  reflexivity.
Qed.

(** X5.  [validate_amount] on every input: a finite number is rounded
    half up to cents and returned if the result is positive and has at
    most 28 digits, refused with InvalidAmountError if it is zero or
    negative; a value that is not convertible is an InvalidAmountError;
    but a NaN, an infinity or a number beyond the precision escapes as
    the decimal module's InvalidOperation. *)
Theorem validate_amount_outcome (amount : pyvalue) :
  validate_amount amount
  = match amount with
    | PyDec (Fin m e) =>
        let c := Decimal._rescale m e (-2) ROUND_HALF_UP in
        if Z.abs c <? 10 ^ 28
        then if c <=? 0 then Raise InvalidAmountError else OK (Fin c (-2))
        else Raise InvalidOperation
    | PyDec _ => Raise InvalidOperation
    | PyNone | PyBad _ => Raise InvalidAmountError
    end.
Proof. exact (validate_amount_cases amount). Qed.

(** X6.  The funds check predicts the withdrawal: when
    [validate_sufficient_funds] accepts an amount against the balance of
    a validated account, [withdraw] of that amount returns, with the
    balance reduced by the validated amount; when it raises
    InsufficientFundsError, [withdraw] raises the account's
    InsufficientFundsError and changes nothing. *)
Theorem funds_check_predicts_withdraw
    (a : accounts.Account) (c : Z) (amount : pyvalue) :
  accounts.balance_ok a c ->
  match validate_sufficient_funds (PyDec (accounts.balance a)) amount with
  | OK amt =>
      exists k, amt = Fin k (-2) /\ 0 < k <= c /\
        accounts.withdraw amount a
        = (OK (Fin (c - k) (-2)), accounts.set_balance (Fin (c - k) (-2)) a)
  | Raise InsufficientFundsError =>
      accounts.withdraw amount a = (Raise AccountInsufficientFundsError, a)
  | Raise _ => True
  end.
Proof.
  intros Hok. pose proof Hok as [Hbal Hc].
  unfold validate_sufficient_funds. rewrite validate_amount_cases.
  destruct amount as [|[m e|s| |]|err]; cbn [mbind result_bind]; trivial.
  cbv zeta. set (k := Decimal._rescale m e (-2) ROUND_HALF_UP).
  destruct (Z.ltb_spec (Z.abs k) (10 ^ 28)) as [Hk|]; cbn [mbind result_bind]; trivial.
  destruct (Z.leb_spec k 0) as [|Hpos]; cbn [mbind result_bind]; trivial.
  assert (Hv : accounts._to_decimal (PyDec (Fin m e)) = OK (Fin k (-2))).
  { unfold accounts._to_decimal. cbn [Decimal_of].
    change accounts._CENT with (Fin 1 (-2)).
    rewrite quantize_fin_spec by (vm_compute; split; discriminate). fold k.
    destruct (Z.ltb_spec (Z.abs k) (10 ^ 28)); [reflexivity|lia]. }
  rewrite Hbal. unfold _to_decimal_cents. cbn [Decimal_of].
  change _CENT with (Fin 1 (-2)).
  rewrite quantize_fin_id by (try lia; vm_compute; split; discriminate).
  cbn [try_except mbind result_bind]. rewrite gt_cents. cbn [mbind result_bind].
  rewrite (withdraw_cases a c k _ Hok Hv).
  destruct (Z.leb_spec k 0); [lia|].
  destruct (Z.ltb_spec c k) as [|Hle]; [reflexivity|].
  exists k. repeat split; try reflexivity; lia.
Qed.

Lemma funds_check_predicts_withdraw_witness :
  let a := {| accounts.owner := "bob"; accounts.account_id := "acct-2";
              accounts.balance := Fin 1000 (-2); accounts.currency := "USD" |} in
  let amount := PyDec (Fin 15000 (-2)) in
  accounts.balance_ok a 1000 /\
  match validate_sufficient_funds (PyDec (accounts.balance a)) amount with
  | OK amt =>
      exists k, amt = Fin k (-2) /\ 0 < k <= 1000 /\
        accounts.withdraw amount a
        = (OK (Fin (1000 - k) (-2)), accounts.set_balance (Fin (1000 - k) (-2)) a)
  | Raise InsufficientFundsError =>
      accounts.withdraw amount a = (Raise AccountInsufficientFundsError, a)
  | Raise _ => True
  end.
Proof.
  intros a amount.
  assert (Hok : accounts.balance_ok a 1000) by (split; [reflexivity|lia]).
  split; [exact Hok|].
  exact (funds_check_predicts_withdraw a 1000 amount Hok).
Defined.

Lemma gt_same_exp (a b e : Z) :
  Decimal.gt (Fin a e) (Fin b e) = OK (b <? a).
Proof.
  unfold Decimal.gt, Decimal.ordered. cbn [Decimal.is_nan orb].
  rewrite cmp_same_exp, (Z.ltb_compare b a), (Z.compare_antisym a b).
  destruct (a ?= b); reflexivity.
Qed.

Lemma le_zero_same_exp (c e : Z) :
  e <= 0 -> Decimal.le (Fin c e) (Fin 0 0) = OK (c <=? 0).
Proof.
  intros He. unfold Decimal.le, Decimal.ordered, Decimal._cmp.
  cbn [Decimal.is_nan orb]. rewrite Z.min_l by lia. rewrite Z.sub_diag.
  change (10 ^ 0) with 1. rewrite Z.mul_1_r, Z.mul_0_l.
  unfold Z.leb. destruct (c ?= 0); reflexivity.
Qed.

(** X7.  [validate_sufficient_quantity] on every pair of inputs.  The
    requested quantity is judged first: not convertible or not positive
    (after rounding half up to 8 decimals) is an InvalidAmountError,
    whatever is held.  Then a held quantity that is not convertible
    counts as insufficient, and otherwise the request is returned,
    rounded, exactly when it does not exceed the rounded holding.
    NaN, infinities and numbers beyond the precision escape as the
    decimal module's InvalidOperation. *)
Theorem validate_sufficient_quantity_outcome (holding_quantity quantity : pyvalue) :
  validate_sufficient_quantity holding_quantity quantity
  = match quantity with
    | PyDec (Fin mq eq) =>
        let q := Decimal._rescale mq eq (-8) ROUND_HALF_UP in
        if Z.abs q <? 10 ^ 28 then
          if q <=? 0 then Raise InvalidAmountError
          else
            match holding_quantity with
            | PyDec (Fin mh eh) =>
                let h := Decimal._rescale mh eh (-8) ROUND_HALF_UP in
                if Z.abs h <? 10 ^ 28 then
                  if h <? q then Raise InsufficientHoldingsError
                  else OK (Fin q (-8))
                else Raise InvalidOperation
            | PyDec _ => Raise InvalidOperation
            | PyNone | PyBad _ => Raise InsufficientHoldingsError
            end
        else Raise InvalidOperation
    | PyDec _ => Raise InvalidOperation
    | PyNone | PyBad _ => Raise InvalidAmountError
    end.
Proof.
  unfold validate_sufficient_quantity, _to_quantity.
  destruct quantity as [|[mq eq|s| |]|err]; try reflexivity.
  cbn [Decimal_of]. change _QTY with (Fin 1 (-8)).
  rewrite quantize_fin_spec by (vm_compute; split; discriminate).
  cbv zeta. set (q := Decimal._rescale mq eq (-8) ROUND_HALF_UP).
  destruct (Z.abs q <? 10 ^ 28); [|reflexivity].
  cbn [mbind result_bind]. rewrite le_zero_same_exp by lia.
  cbn [mbind result_bind]. destruct (q <=? 0); [reflexivity|].
  destruct holding_quantity as [|[mh eh|s| |]|err]; try reflexivity.
  cbn [Decimal_of].
  rewrite quantize_fin_spec by (vm_compute; split; discriminate).
  set (h := Decimal._rescale mh eh (-8) ROUND_HALF_UP).
  destruct (Z.abs h <? 10 ^ 28); [|reflexivity].
  cbn [try_except mbind result_bind]. rewrite gt_same_exp.
  cbn [mbind result_bind]. reflexivity.
Qed.

Lemma upper_ascii_isascii (ch : ascii) :
  (nat_of_ascii ch <? 128)%nat = true ->
  (nat_of_ascii (upper_ascii ch) <? 128)%nat = true.
Proof.
  destruct ch as [[] [] [] [] [] [] [] []]; vm_compute; intros H;
    first [reflexivity | discriminate H].
Qed.

Lemma upper_isascii (s : string) : isascii s = true -> isascii (upper s) = true.
Proof.
  induction s as [|ch s IH]; [reflexivity|]. cbn [isascii upper].
  rewrite !andb_true_iff. intros [Hch Hs]. split.
  - apply upper_ascii_isascii. exact Hch.
  - apply IH. exact Hs.
Qed.

(** [validate_symbol] and [is_supported] take the same decisions. *)
Lemma validate_symbol_cases (self : OperationValidator) (symbol : string) :
  validate_symbol self symbol
  = if is_supported self symbol then OK (upper symbol)
    else Raise UnsupportedSymbolError.
Proof.
  unfold validate_symbol, is_supported.
  destruct (truthy symbol); cbn [negb]; [|reflexivity].
  destruct (_supported self) as [sup|]; [|reflexivity].
  destruct (bool_decide (upper symbol ∈ sup)); reflexivity.
Qed.

(** X8.  For a symbol of ASCII characters: it passes [validate_symbol]
    exactly when [is_supported] says so; what is returned is the symbol
    with its letters a to z in upper case, again ASCII, and a returned
    symbol passes again unchanged, so validating twice is validating
    once. *)
Theorem validate_symbol_agrees_with_is_supported
    (self : OperationValidator) (symbol : string) :
  isascii symbol = true ->
  validate_symbol self symbol
  = (if is_supported self symbol then OK (upper symbol)
     else Raise UnsupportedSymbolError) /\
  (forall u, validate_symbol self symbol = OK u ->
     isascii u = true /\ validate_symbol self u = OK u).
Proof.
  intros Hascii. split; [apply validate_symbol_cases|]. intros u Hu.
  rewrite validate_symbol_cases in Hu.
  destruct (is_supported self symbol) eqn:Hs; [|discriminate].
  injection Hu as <-. split; [apply upper_isascii; exact Hascii|].
  revert Hs. unfold validate_symbol, is_supported.
  rewrite upper_truthy, upper_idempotent.
  destruct (truthy symbol); cbn [negb]; [|discriminate].
  destruct (_supported self) as [sup|]; [|reflexivity].
  intros ->. reflexivity.
Qed.

Lemma validate_symbol_agrees_with_is_supported_witness :
  validate_symbol (OperationValidator_init (Some ["AAPL"; "tsla"])) "Tsla" = OK "TSLA" /\
  validate_symbol (OperationValidator_init (Some ["AAPL"; "tsla"])) "TSLA" = OK "TSLA".
Proof.
  pose proof (validate_symbol_agrees_with_is_supported
                (OperationValidator_init (Some ["AAPL"; "tsla"])) "Tsla" eq_refl)
    as [Hfirst Hagain].
  assert (Hv : validate_symbol (OperationValidator_init (Some ["AAPL"; "tsla"])) "Tsla"
               = OK "TSLA") by (vm_compute; reflexivity).
  split; [exact Hv|]. exact (proj2 (Hagain "TSLA" Hv)).
Defined.

(** X9.  A validator built from a list of ASCII symbols supports an
    ASCII symbol exactly when the symbol is not empty and equals one of
    the list up to the case of its letters. *)
Theorem supported_symbols_ignore_case (symbols : list string) (symbol : string) :
  Forall (fun s => isascii s = true) symbols ->
  isascii symbol = true ->
  (is_supported (OperationValidator_init (Some symbols)) symbol = true <->
   symbol <> "" /\ exists s, s ∈ symbols /\ upper s = upper symbol).
Proof.
  intros _ _.
  unfold is_supported, OperationValidator_init. cbn [_supported fmap option_fmap option_map].
  unfold truthy. destruct (decide (symbol = "")) as [->|Hne].
  - split; [discriminate|]. intros [H _]. contradiction.
  - rewrite bool_decide_eq_false_2 by exact Hne. cbn [negb].
    rewrite bool_decide_eq_true, elem_of_list_to_set, list_elem_of_fmap.
    split.
    + intros (s & Hs & Hin). split; [exact Hne|]. exists s. split; [exact Hin|].
      symmetry. exact Hs.
    + intros (_ & s & Hin & Hs). exists s. split; [symmetry; exact Hs|exact Hin].
Qed.

Lemma supported_symbols_ignore_case_witness :
  is_supported (OperationValidator_init (Some ["AAPL"; "tsla"])) "Tsla" = true.
Proof.
  apply (supported_symbols_ignore_case ["AAPL"; "tsla"] "Tsla").
  - repeat (apply List.Forall_cons; [reflexivity|]). apply List.Forall_nil.
  - reflexivity.
  - split; [discriminate|]. exists "tsla". split; [|reflexivity].
    apply list_elem_of_In. right. left. reflexivity.
Defined.

End ValidatorOutcomes.

(** ** Ledger entries: what the constructor does *)

Section LedgerEntryOutcomes.
Import transaction.

Lemma kind_not_allowed (k : string) :
  k <> "deposit" -> k <> "withdrawal" -> k <> "buy" -> k <> "sell" ->
  bool_decide (k ∈ _ALLOWED_KINDS) = false.
Proof.
  intros H1 H2 H3 H4. apply bool_decide_eq_false_2.
  rewrite list_elem_of_In. simpl. intuition congruence.
Qed.

(** Only the kinds buy and sell get through the constructor. *)
Lemma constructed_iff_trade_kind (fields : Transaction) :
  is_ok (Transaction_init fields) = true <->
  kind fields = "buy" \/ kind fields = "sell".
Proof.
  split.
  - intros Hok.
    destruct (decide (kind fields = "buy")) as [|Hb]; [left; assumption|].
    destruct (decide (kind fields = "sell")) as [|Hs]; [right; assumption|].
    exfalso.
    destruct (decide (kind fields = "deposit")) as [Hd|Hd].
    { rewrite (cash_entry_never_constructed fields (or_introl Hd)) in Hok.
      discriminate. }
    destruct (decide (kind fields = "withdrawal")) as [Hw|Hw].
    { rewrite (cash_entry_never_constructed fields (or_intror Hw)) in Hok.
      discriminate. }
    revert Hok. unfold Transaction_init, __post_init__.
    rewrite (kind_not_allowed _ Hd Hw Hb Hs). discriminate.
  - intros Hk. destruct (trade_entry_never_validated fields Hk) as (t & -> & _).
    reflexivity.
Qed.

(** X10.  The constructor returns an entry exactly when the kind is buy
    or sell: every other kind, deposit and withdrawal included, raises,
    whatever the other fields are. *)
Theorem entry_constructed_iff_trade (fields : Transaction) :
  is_ok (Transaction_init fields) = true <->
  kind fields = "buy" \/ kind fields = "sell".
Proof. exact (constructed_iff_trade_kind fields). Qed.

(** X11.  An entry that is constructed is the arguments with the
    timestamps made zone-aware: a naive [created_at] or [executed_at]
    gets the zone UTC with its clock reading kept, an aware one is kept,
    and no other field changes.  In particular, constructing an entry
    again from the fields of a constructed entry returns it unchanged. *)
Theorem constructed_entry_shape (fields t : Transaction) :
  Transaction_init fields = OK t ->
  t = set_executed_at (aware <$> executed_at fields)
        (set_created_at (aware (created_at fields)) fields) /\
  tzinfo (created_at t) <> None /\
  (forall dt, executed_at t = Some dt -> tzinfo dt <> None) /\
  Transaction_init t = OK t.
Proof.
  intros Hinit.
  assert (Hk : kind fields = "buy" \/ kind fields = "sell").
  { apply constructed_iff_trade_kind. rewrite Hinit. reflexivity. }
  assert (Hcash : bool_decide (kind fields ∈ ["deposit"; "withdrawal"]) = false)
    by (destruct Hk as [-> | ->]; vm_compute; reflexivity).
  assert (Hall : bool_decide (kind fields ∈ _ALLOWED_KINDS) = true)
    by (destruct Hk as [-> | ->]; vm_compute; reflexivity).
  destruct fields as [tid k acc fa ta q p am pl ca ea md]. cbn [kind] in *.
  revert Hinit. unfold Transaction_init, __post_init__. cbn [kind].
  rewrite Hall. cbn [negb].
  destruct ca as [cw [cz|]], ea as [[ew [ez|]]|];
    cbn -[bool_decide]; rewrite Hcash; intros [= <-];
    (split; [reflexivity|]); (split; [discriminate|]);
    (split; [intros dt [= <-]; discriminate || (intros dt; discriminate)|]);
    unfold Transaction_init, __post_init__; cbn -[bool_decide];
    rewrite Hall; cbn -[bool_decide]; rewrite Hcash; reflexivity.
Qed.

Lemma constructed_entry_shape_witness :
  let fields :=
    {| transaction_id := "t-9"; kind := "sell"; account_id := Some "a";
       from_account := None; to_account := None; quantity := PyDec (Fin 1 0);
       price := PyDec (Fin 2 0); amount := default_amount; profit_loss := PyNone;
       created_at := {| wall_clock := 1577880000; tzinfo := None |};
       executed_at := None; metadata := None |} in
  Transaction_init fields = OK (set_created_at noon fields) /\
  tzinfo (created_at (set_created_at noon fields)) <> None.
Proof.
  intros fields.
  assert (H : Transaction_init fields = OK (set_created_at noon fields))
    by (vm_compute; reflexivity).
  split; [exact H|].
  exact (proj1 (proj2 (constructed_entry_shape fields _ H))).
Defined.

(** X12.  [_to_decimal] rounds to the nearest cent: a number with at
    most two decimals is returned as it is, in cents; one with more is
    returned within half a cent of its value; and what is returned is
    returned again unchanged. *)
Theorem to_decimal_nearest_cent (m e c x : Z) :
  _to_decimal (PyDec (Fin m e)) = OK (Fin c x) ->
  x = -2 /\
  (-2 <= e -> c = m * 10 ^ (e + 2)) /\
  (e < -2 -> 2 * Z.abs (c * 10 ^ (-2 - e) - m) <= 10 ^ (-2 - e)) /\
  _to_decimal (PyDec (Fin c x)) = OK (Fin c x).
Proof.
  intros H. pose proof (to_decimal_idempotent _ _ H) as Hidem.
  unfold _to_decimal in H. cbn [Decimal_of] in H.
  apply quantize_fin_ok in H as [Heq Hb]; [|vm_compute; split; discriminate].
  injection Heq as -> ->. split; [reflexivity|]. split; [|split; [|exact Hidem]].
  - intros He. unfold Decimal._rescale.
    destruct (Z.leb_spec (-2) e); [|lia].
    replace (e - -2) with (e + 2) by lia. reflexivity.
  - intros He. unfold Decimal._rescale.
    destruct (Z.leb_spec (-2) e); [lia|]. cbn [Decimal.round_div].
    assert (Hd : 0 < 10 ^ (-2 - e)) by (apply pow10_pos; lia).
    destruct (round_half_up_spec m (10 ^ (-2 - e)) Hd) as (_ & Hbnd & Hpos & Hneg).
    set (d := 10 ^ (-2 - e)) in *.
    set (r := Decimal.round_half_up m d) in *.
    destruct (Z_le_gt_dec 0 m) as [Hm|Hm].
    + specialize (Hpos Hm). rewrite (Z.abs_eq r), (Z.abs_eq m) in Hbnd by lia. lia.
    + specialize (Hneg ltac:(lia)).
      rewrite (Z.abs_neq r), (Z.abs_neq m) in Hbnd by lia. lia.
Qed.

Lemma to_decimal_nearest_cent_witness :
  _to_decimal (PyDec (Fin 10125 (-3))) = OK (Fin 1013 (-2)) /\
  2 * Z.abs (1013 * 10 ^ (-2 - -3) - 10125) <= 10 ^ (-2 - -3).
Proof.
  assert (H : _to_decimal (PyDec (Fin 10125 (-3))) = OK (Fin 1013 (-2)))
    by (vm_compute; reflexivity).
  split; [exact H|].
  exact (proj1 (proj2 (proj2 (to_decimal_nearest_cent 10125 (-3) 1013 (-2) H)))
           ltac:(lia)).
Defined.

End LedgerEntryOutcomes.

(** ** Portfolios: the dict of holdings *)

Section PortfolioDict.
Import portfolio.

Lemma call_holding_portfolio {A : Type} (l : loc) (method : M holding.Holding A)
    (st : state) :
  (call_holding l method st).2.2 = st.2.
Proof.
  unfold call_holding. destruct (deref st.1 l); [|reflexivity].
  destruct (method h). reflexivity.
Qed.

Lemma call_holding_keeps_object {A : Type} (l : loc) (method : M holding.Holding A)
    (st : state) :
  is_Some (deref st.1 l) -> is_Some (deref (call_holding l method st).2.1 l).
Proof.
  intros [h Hh]. unfold call_holding. rewrite Hh.
  destruct (method h) as [r h']. cbn [fst snd]. rewrite deref_insert_eq. eauto.
Qed.

(** X13.  [add_holding] files the holding under its trimmed symbol:
    afterwards [get_holding] returns that very reference for every
    spelling of the symbol that trims to the same text, and what it
    returns for any other symbol is what it returned before.  No object
    of the heap changes. *)
Theorem add_then_get_holding (st st' : state) (h : loc) :
  add_holding h st = (OK tt, st') ->
  exists hd,
    deref st.1 h = Some hd /\ st'.1 = st.1 /\
    forall symbol, symbol <> "" ->
      get_holding symbol st'
      = (OK (if decide (strip symbol = strip (holding.symbol hd)) then Some h
             else _holdings st.2 !! strip symbol), st').
Proof.
  destruct st as [hp self]. unfold add_holding. rewrite sbind_sget. cbn [fst snd].
  destruct (deref hp h) as [hd|] eqn:Hd; [|discriminate].
  unfold sbind, lift, put_holdings.
  destruct (_normalize_symbol (holding.symbol hd)) as [sym|] eqn:Hsym; [|discriminate].
  cbn [fst snd]. intros [= <-]. exists hd. split; [reflexivity|]. split; [reflexivity|].
  intros symbol Hne. unfold get_holding.
  rewrite (normalize_nonempty symbol Hne), sbind_lift_OK, sbind_sget.
  unfold sret. cbn [snd _holdings set_holdings]. f_equal. f_equal.
  assert (sym = strip (holding.symbol hd)) as ->.
  { revert Hsym. unfold _normalize_symbol.
    destruct (negb (truthy (holding.symbol hd))); [discriminate|].
    intros [= <-]. reflexivity. }
  destruct (decide (strip symbol = strip (holding.symbol hd))) as [->|Hother].
  - apply lookup_insert_eq.
  - apply lookup_insert_ne. congruence.
Qed.

Lemma add_then_get_holding_witness :
  let st : state := ({[ 1%positive := OHolding examples.ibm ]}, examples.empty_portfolio) in
  let st' : state :=
    (st.1, set_holdings {[ "IBM" := 1%positive ]} examples.empty_portfolio) in
  add_holding 1%positive st = (OK tt, st') /\
  get_holding "  IBM " st' = (OK (Some 1%positive), st').
Proof.
  intros st st'.
  assert (H : add_holding 1%positive st = (OK tt, st')) by (vm_compute; reflexivity).
  split; [exact H|].
  destruct (add_then_get_holding st st' 1%positive H) as (hd & Hd & _ & Hget).
  injection Hd as <-.
  exact (Hget "  IBM " ltac:(discriminate)).
Defined.

(** X14.  [remove_holding] on every symbol.  The empty symbol is a
    ValueError and changes nothing.  For any other symbol the call
    deletes exactly the trimmed symbol: it raises KeyError and changes
    nothing when no holding is filed under it; otherwise [get_holding]
    finds nothing under it afterwards, a second removal raises KeyError,
    and every other symbol is found as before. *)
Theorem remove_holding_outcome (st : state) (symbol : string) :
  if decide (symbol = "") then remove_holding symbol st = (Raise ValueError, st)
  else
    match _holdings st.2 !! strip symbol with
    | None => remove_holding symbol st = (Raise KeyError, st)
    | Some _ =>
        exists st',
          remove_holding symbol st = (OK tt, st') /\ st'.1 = st.1 /\
          get_holding symbol st' = (OK None, st') /\
          remove_holding symbol st' = (Raise KeyError, st') /\
          forall other, other <> "" -> strip other <> strip symbol ->
            (get_holding other st').1 = (get_holding other st).1
    end.
Proof.
  destruct (decide (symbol = "")) as [->|Hne]; [reflexivity|].
  destruct st as [hp self]. cbn [fst snd].
  unfold remove_holding. rewrite (normalize_nonempty symbol Hne), sbind_lift_OK, sbind_sget.
  cbn [snd]. destruct (_holdings self !! strip symbol) as [l|] eqn:Hl; [|reflexivity].
  eexists. split; [reflexivity|]. split; [reflexivity|].
  unfold get_holding, remove_holding.
  rewrite (normalize_nonempty symbol Hne), !sbind_lift_OK, !sbind_sget.
  cbn [snd _holdings set_holdings]. rewrite lookup_delete_eq.
  split; [reflexivity|]. split; [reflexivity|].
  intros other Ho Hstrip. rewrite (normalize_nonempty other Ho), !sbind_lift_OK, !sbind_sget.
  unfold sret. cbn [fst snd _holdings set_holdings].
  rewrite lookup_delete_ne by congruence. reflexivity.
Qed.

(** X15.  [Portfolio.buy] never drops or moves an entry of the dict, and
    it files a new holding before it asks the holding to buy: on the
    first reference to a symbol for which the constructor of [Holding]
    returns, the new holding is in the dict under the trimmed symbol
    when [buy] ends, also when the purchase itself was refused. *)
Theorem buy_files_holding_first
    (st st' : state) (symbol : string) (quantity price : pyvalue)
    (r : result loc) :
  symbol <> "" ->
  buy symbol quantity price st = (r, st') ->
  match _holdings st.2 !! strip symbol with
  | Some h => _holdings st'.2 = _holdings st.2
  | None =>
      forall new,
        holding.Holding_init (strip symbol) (PyDec (Fin 0 0)) (PyDec (Fin 0 (-2)))
          (currency st.2) = OK new ->
        st.1 !! fresh (dom st.1) = None /\
        _holdings st'.2 = <[strip symbol := fresh (dom st.1)]> (_holdings st.2) /\
        is_Some (deref st'.1 (fresh (dom st.1)))
  end.
Proof.
  intros Hne. destruct st as [hp self]. cbn [fst snd].
  unfold buy. rewrite (normalize_nonempty symbol Hne), sbind_lift_OK, sbind_sget.
  cbn [fst snd]. destruct (_holdings self !! strip symbol) as [h|] eqn:Hl.
  - unfold sbind, sret.
    pose proof (call_holding_portfolio h (holding.buy quantity price) (hp, self)) as Hp.
    destruct (call_holding h (holding.buy quantity price) (hp, self)) as [[x|e] st1];
      cbn [fst snd] in Hp; intros [= _ <-]; rewrite Hp; reflexivity.
  - intros Hrun new Hnew. revert Hrun. rewrite Hnew.
    unfold sbind, lift, alloc, put_holdings, sret. cbn [fst snd].
    set (l := fresh (dom hp)).
    set (st1 := (<[l := OHolding new]> hp,
                 set_holdings (<[strip symbol := l]> (_holdings self)) self)).
    pose proof (call_holding_portfolio l (holding.buy quantity price) st1) as Hp.
    pose proof (call_holding_keeps_object l (holding.buy quantity price) st1
                  ltac:(cbn [st1 fst]; rewrite deref_insert_eq; eauto)) as Hobj.
    destruct (call_holding l (holding.buy quantity price) st1) as [[x|e] st2];
      cbn [fst snd] in Hp, Hobj; intros [= _ <-];
      (split; [apply not_elem_of_dom, is_fresh|]); rewrite Hp;
      (split; [reflexivity|exact Hobj]).
Qed.

Lemma buy_files_holding_first_witness :
  let st : state := (∅, examples.empty_portfolio) in
  let out := buy " AAPL" (PyDec (Fin 0 0)) (PyDec (Fin 1000 (-2))) st in
  out.1 = Raise InvalidQuantityError /\
  _holdings out.2.2 = <[strip " AAPL" := fresh (dom st.1)]> (_holdings st.2).
Proof.
  intros st out. split; [vm_compute; reflexivity|].
  pose proof (buy_files_holding_first st out.2 " AAPL" (PyDec (Fin 0 0))
                (PyDec (Fin 1000 (-2))) out.1 ltac:(discriminate)
                (surjective_pairing out)) as H.
  change (_holdings st.2 !! strip " AAPL") with (@None loc) in H.
  exact (proj1 (proj2 (H {| holding.symbol := "AAPL";
                            holding.quantity := Fin 0 (-8);
                            holding.average_cost := Fin 0 (-2);
                            holding.currency := "USD" |} eq_refl))).
Defined.

End PortfolioDict.

Section PortfolioFrames.
Import portfolio.

Lemma call_holding_frame {A : Type} (h l : loc) (method : M holding.Holding A)
    (st : state) :
  l <> h -> (call_holding h method st).2.1 !! l = st.1 !! l.
Proof.
  intros Hne. unfold call_holding. destruct (deref st.1 h); [|reflexivity].
  destruct (method h0). cbn [fst snd]. apply lookup_insert_ne. congruence.
Qed.

(** X16.  [Portfolio.sell] touches one symbol and one object: whatever
    the outcome, every other symbol of the dict keeps its entry and every
    object other than the holding filed under the trimmed symbol is as it
    was; and when the call raises, also the entry of the symbol itself is
    kept (a refused sale never closes a position). *)
Theorem sell_touches_one_symbol
    (st st' : state) (symbol : string) (quantity price : pyvalue)
    (r : result decimal) :
  symbol <> "" ->
  sell symbol quantity price st = (r, st') ->
  (forall k, k <> strip symbol -> _holdings st'.2 !! k = _holdings st.2 !! k) /\
  (forall e, r = Raise e -> _holdings st'.2 = _holdings st.2) /\
  (forall l, _holdings st.2 !! strip symbol <> Some l -> st'.1 !! l = st.1 !! l).
Proof.
  intros Hne. destruct st as [hp self]. cbn [fst snd].
  unfold sell. rewrite (normalize_nonempty symbol Hne), sbind_lift_OK, sbind_sget.
  cbn [fst snd]. destruct (_holdings self !! strip symbol) as [h|] eqn:Hl.
  2:{ intros [= <- <-]. cbn [fst snd]. repeat split; reflexivity. }
  rewrite zero_quantity_literal. unfold sbind, lift, sret, sget, put_holdings.
  pose proof (call_holding_portfolio h (holding.sell quantity price) (hp, self)) as Hp1.
  pose proof (fun l Hl => call_holding_frame h l (holding.sell quantity price)
                            (hp, self) Hl) as Hf1.
  destruct (call_holding h (holding.sell quantity price) (hp, self))
    as [[pnl|e1] st1]; cbn [fst snd] in Hp1, Hf1.
  2:{ intros [= <- <-]. rewrite Hp1. repeat split; try reflexivity.
      intros l Hl'. apply Hf1. congruence. }
  set (read := fun s : holding.Holding => (OK (holding.quantity s), s)).
  pose proof (call_holding_portfolio h read st1) as Hp2.
  pose proof (fun l Hl => call_holding_frame h l read st1 Hl) as Hf2.
  destruct (call_holding h read st1) as [[q|e2] st2]; cbn [fst snd] in Hp2, Hf2.
  2:{ intros [= <- <-]. rewrite Hp2, Hp1. repeat split; try reflexivity.
      intros l Hl'. rewrite Hf2, Hf1 by congruence. reflexivity. }
  assert (Hheap : forall l, Some h <> Some l -> st2.1 !! l = hp !! l).
  { intros l Hl'. rewrite Hf2, Hf1 by congruence. reflexivity. }
  destruct (Decimal.eq q (Fin 0 (-8))) as [[|]|e3]; intros [= <- <-];
    cbn [fst snd _holdings set_holdings]; rewrite Hp2, Hp1;
    (split; [|split; [|exact Hheap]]); try reflexivity; try discriminate.
  intros k Hk. apply lookup_delete_ne. congruence.
Qed.

Lemma sell_touches_one_symbol_witness :
  let out := sell "IBM" (PyDec (Fin 3 0)) (PyDec (Fin 1200 (-2))) examples.ibm_state in
  _holdings out.2.2 !! "IBM" = None /\
  (forall k, k <> strip "IBM" ->
     _holdings out.2.2 !! k = _holdings examples.ibm_state.2 !! k).
Proof.
  intros out. split; [vm_compute; reflexivity|].
  exact (proj1 (sell_touches_one_symbol examples.ibm_state out.2 "IBM"
                  (PyDec (Fin 3 0)) (PyDec (Fin 1200 (-2))) out.1
                  ltac:(discriminate) (surjective_pairing out))).
Defined.

Lemma market_value_loop_needs_price (pp : price_provider) (sym : string) (h : loc)
    (e0 : exn) (items : list (string * loc)) :
  (sym, h) ∈ items -> price_for pp sym = Raise e0 ->
  forall total st, exists e, (market_value_loop pp items total st).1 = Raise e.
Proof.
  intros Hin Hprice. induction items as [|[sym' h'] items IH]; intros total st.
  - apply elem_of_nil in Hin. contradiction.
  - cbn [market_value_loop]. unfold sbind at 1, lift at 1.
    apply elem_of_cons in Hin as [[= <- <-]|Hin].
    + rewrite Hprice. eauto.
    + destruct (price_for pp sym') as [price|e]; [|eauto].
      unfold sbind at 1.
      destruct (call_holding h' (holding.market_value price) st) as [[mv|e] st1];
        [|eauto].
      unfold sbind at 1, lift at 1.
      destruct (Decimal.add total mv) as [t|e]; [|eauto]. apply IH. exact Hin.
Qed.

(** X17.  [Portfolio.market_value] gives no partial total: when the
    price source fails for one symbol of the dict (a mapping without the
    key, a callable that raises), the call raises, whatever the other
    holdings and prices are, and the portfolio and the heap are as they
    were. *)
Theorem market_value_needs_every_price
    (st : state) (pp : price_provider) (sym : string) (h : loc) (e0 : exn) :
  _holdings st.2 !! sym = Some h ->
  price_for pp sym = Raise e0 ->
  exists e, market_value (Some pp) st = (Raise e, st).
Proof.
  intros Hl Hprice.
  pose proof (market_value_loop_read_only pp (map_to_list (_holdings st.2))
                (Fin 0 (-2)) st) as Hro.
  destruct (market_value_loop_needs_price pp sym h e0 (map_to_list (_holdings st.2))
              ltac:(apply elem_of_map_to_list; exact Hl) Hprice (Fin 0 (-2)) st)
    as [e He].
  exists e. unfold market_value. rewrite sbind_sget. unfold sbind.
  destruct (market_value_loop pp (map_to_list (_holdings st.2)) (Fin 0 (-2)) st)
    as [r st1]. cbn [fst snd] in He, Hro. subst r st1. reflexivity.
Qed.

Lemma market_value_needs_every_price_witness :
  exists e, market_value (Some (Mapping ∅)) examples.ibm_state
            = (Raise e, examples.ibm_state).
Proof.
  exact (market_value_needs_every_price examples.ibm_state (Mapping ∅) "IBM"
           1%positive KeyError eq_refl eq_refl).
Defined.

End PortfolioFrames.

(** ** Valuation: prices, totals and realized profit *)

Section ValuationOutcomes.
Import valuation.

Lemma cents_idempotent (v : pyvalue) (p : decimal) :
  _to_decimal_cents v = OK p -> _to_decimal_cents (PyDec p) = OK p.
Proof.
  unfold _to_decimal_cents. destruct v as [|[m e|?| |]|?]; simpl; try discriminate.
  - intros H. apply quantize_fin_ok in H as [-> Hb];
      [|vm_compute; split; discriminate].
    apply quantize_fin_id; [exact Hb|vm_compute; split; discriminate].
  - intros [= <-]. reflexivity.
Qed.

Lemma get_price_cents (self : ValuationEngine) (sym : option string) (p : decimal) :
  _get_price_for_symbol self sym = OK p -> _to_decimal_cents (PyDec p) = OK p.
Proof.
  unfold _get_price_for_symbol. destruct (price_service self) as [f|]; [|discriminate].
  destruct (try_except (f sym) any_exception _) as [price|]; [|discriminate].
  cbn [mbind result_bind]. apply cents_idempotent.
Qed.

Lemma explicit_price_market_value (self1 self2 : ValuationEngine) (h : holding_like)
    (price : pyvalue) :
  is_None price = false ->
  holding_market_value self1 h price = holding_market_value self2 h price.
Proof. intros Hp. unfold holding_market_value. rewrite Hp. reflexivity. Qed.

Lemma explicit_price_unrealized_pl (self1 self2 : ValuationEngine) (h : holding_like)
    (price : pyvalue) :
  is_None price = false ->
  holding_unrealized_pl self1 h price = holding_unrealized_pl self2 h price.
Proof. intros Hp. unfold holding_unrealized_pl. rewrite Hp. reflexivity. Qed.

Lemma sum_loop_ext (f g : holding_like -> pyvalue -> result decimal)
    (ov : gmap string pyvalue) (hs : list holding_like) :
  Forall (fun h => f h (get_override ov (symbol h)) = g h (get_override ov (symbol h))) hs ->
  forall total, sum_loop f ov hs total = sum_loop g ov hs total.
Proof.
  induction 1 as [|h hs Hh _ IH]; intros total; [reflexivity|].
  cbn [sum_loop]. rewrite Hh.
  destruct (g h _) as [v|]; [|reflexivity]. cbn [mbind result_bind].
  destruct (Decimal.add total v); [apply IH|reflexivity].
Qed.

Lemma explicit_price_breakdown_loop (self1 self2 : ValuationEngine)
    (ov : gmap string pyvalue) (hs : list holding_like) :
  Forall (fun h => is_None (get_override ov (symbol h)) = false) hs ->
  forall mv upl,
    breakdown_loop self1 ov hs mv upl = breakdown_loop self2 ov hs mv upl.
Proof.
  induction 1 as [|h hs Hh _ IH]; intros mv upl; [reflexivity|].
  cbn [breakdown_loop].
  assert (Hstep : breakdown_step self1 ov h mv upl = breakdown_step self2 ov h mv upl).
  { unfold breakdown_step, resolve_price. rewrite Hh.
    destruct (try_except _ _ _) as [[p|]|]; [|reflexivity|reflexivity].
    cbn [mbind result_bind].
    rewrite (explicit_price_market_value self1 self2 h (PyDec p) eq_refl),
      (explicit_price_unrealized_pl self1 self2 h (PyDec p) eq_refl).
    reflexivity. }
  rewrite Hstep.
  destruct (breakdown_step self2 ov h mv upl) as [[[r m] u]|]; [|reflexivity].
  cbn [mbind result_bind]. rewrite IH. reflexivity.
Qed.

(** X18.  An explicit price wins over the price service: when the
    overrides hold a price for the symbol of every holding, the market
    value, the unrealized profit and the breakdown of the portfolio are
    the same whatever price service the engine has, also none. *)
Theorem explicit_prices_bypass_service
    (self1 self2 : ValuationEngine) (source : holdings_source)
    (price_overrides : gmap string pyvalue) (hs : list holding_like) :
  _extract_holdings source = OK hs ->
  Forall (fun h => is_None (get_override price_overrides (symbol h)) = false) hs ->
  portfolio_market_value self1 source (Some price_overrides)
  = portfolio_market_value self2 source (Some price_overrides) /\
  portfolio_unrealized_pl self1 source (Some price_overrides)
  = portfolio_unrealized_pl self2 source (Some price_overrides) /\
  portfolio_breakdown self1 source (Some price_overrides)
  = portfolio_breakdown self2 source (Some price_overrides).
Proof.
  intros Hsrc Hov.
  unfold portfolio_market_value, portfolio_unrealized_pl, portfolio_breakdown.
  rewrite Hsrc. cbn [mbind result_bind default]. repeat split.
  - rewrite (sum_loop_ext (holding_market_value self1) (holding_market_value self2));
      [reflexivity|].
    eapply Forall_impl; [exact Hov|]. intros h Hh.
    apply explicit_price_market_value. exact Hh.
  - rewrite (sum_loop_ext (holding_unrealized_pl self1) (holding_unrealized_pl self2));
      [reflexivity|].
    eapply Forall_impl; [exact Hov|]. intros h Hh.
    apply explicit_price_unrealized_pl. exact Hh.
  - rewrite (explicit_price_breakdown_loop self1 self2 price_overrides hs Hov).
    reflexivity.
Qed.

Lemma explicit_prices_bypass_service_witness :
  let hs := [of_holding scenario_E.s1] in
  let ov : gmap string pyvalue := {[ "S1" := PyDec (Fin 345 (-2)) ]} in
  portfolio_market_value {| price_service := None |} (Iterable hs) (Some ov)
  = portfolio_market_value
      {| price_service := Some (fun _ => OK (PyDec (Fin 1 0))) |} (Iterable hs) (Some ov).
Proof.
  intros hs ov.
  exact (proj1 (explicit_prices_bypass_service
                  {| price_service := None |}
                  {| price_service := Some (fun _ => OK (PyDec (Fin 1 0))) |}
                  (Iterable hs) ov hs eq_refl
                  ltac:(repeat constructor))).
Defined.

End ValuationOutcomes.

Section BreakdownTotals.
Import valuation.

Variable self : ValuationEngine.
Variable price_overrides : gmap string pyvalue.

Lemma resolve_price_priced (h : holding_like) (p : decimal) :
  resolve_price self price_overrides h = OK (Some p) ->
  (if is_None (get_override price_overrides (symbol h))
   then _get_price_for_symbol self (symbol h)
   else _to_decimal_cents (get_override price_overrides (symbol h))) = OK p /\
  _to_decimal_cents (PyDec p) = OK p.
Proof.
  unfold resolve_price. set (ov := get_override price_overrides (symbol h)).
  destruct (is_None ov) eqn:Hn.
  - destruct (_get_price_for_symbol self (symbol h)) as [p0|e] eqn:Hp; simpl.
    + intros [= <-]. split; [reflexivity|]. eapply get_price_cents. exact Hp.
    + unfold only. destruct (bool_decide _); discriminate.
  - destruct (_to_decimal_cents ov) as [p0|e] eqn:Hp; simpl.
    + intros [= <-]. split; [reflexivity|]. eapply cents_idempotent. exact Hp.
    + unfold only. destruct (bool_decide _); discriminate.
Qed.

Lemma breakdown_step_priced (h : holding_like) (mv upl mv' upl' : decimal) (r : row) :
  breakdown_step self price_overrides h mv upl = OK (r, mv', upl') ->
  market_price r <> None ->
  (holding_market_value self h (get_override price_overrides (symbol h))
     ≫= Decimal.add mv) = OK mv' /\
  (holding_unrealized_pl self h (get_override price_overrides (symbol h))
     ≫= Decimal.add upl) = OK upl'.
Proof.
  unfold breakdown_step.
  destruct (resolve_price self price_overrides h) as [[p|]|] eqn:Hres;
    cbn [mbind result_bind]; [| |discriminate].
  - destruct (resolve_price_priced h p Hres) as [Hprice Hidem].
    assert (Hmv : holding_market_value self h (PyDec p)
                  = holding_market_value self h (get_override price_overrides (symbol h))).
    { unfold holding_market_value. cbn [is_None]. rewrite Hidem, Hprice. reflexivity. }
    assert (Hupl : holding_unrealized_pl self h (PyDec p)
                   = holding_unrealized_pl self h (get_override price_overrides (symbol h))).
    { unfold holding_unrealized_pl. cbn [is_None]. rewrite Hidem, Hprice. reflexivity. }
    rewrite Hmv, Hupl. clear Hmv Hupl.
    destruct (holding_market_value self h _) as [m|]; cbn [mbind result_bind];
      [|discriminate].
    destruct (holding_unrealized_pl self h _) as [u|]; cbn [mbind result_bind];
      [|discriminate].
    destruct (Decimal_ctor (quantity h)); [|discriminate]. cbn [mbind result_bind].
    destruct (if negb _ then _ else _); [|discriminate]. cbn [mbind result_bind].
    destruct (Decimal.add mv m); [|discriminate]. cbn [mbind result_bind].
    destruct (Decimal.add upl u); [|discriminate]. cbn [mbind result_bind].
    intros [= _ <- <-] _. split; reflexivity.
  - destruct (Decimal_ctor (quantity h)); [|discriminate]. cbn [mbind result_bind].
    destruct (if negb _ then _ else _); [|discriminate]. cbn [mbind result_bind].
    intros [= <- _ _] Hne. contradiction Hne. reflexivity.
Qed.

Lemma breakdown_loop_priced (hs : list holding_like) :
  forall mv upl rows mv' upl',
  breakdown_loop self price_overrides hs mv upl = OK (rows, mv', upl') ->
  Forall (fun r => market_price r <> None) rows ->
  sum_loop (holding_market_value self) price_overrides hs mv = OK mv' /\
  sum_loop (holding_unrealized_pl self) price_overrides hs upl = OK upl'.
Proof.
  induction hs as [|h hs IH]; intros mv upl rows mv' upl'; cbn [breakdown_loop sum_loop].
  - intros [= _ <- <-] _. split; reflexivity.
  - destruct (breakdown_step self price_overrides h mv upl) as [[[r m] u]|] eqn:Hs;
      [|discriminate].
    cbn [mbind result_bind].
    destruct (breakdown_loop self price_overrides hs m u) as [[[rows1 m1] u1]|] eqn:Hl;
      [|discriminate].
    cbn [mbind result_bind]. intros [= <- <- <-] Hrows.
    apply Forall_cons in Hrows as [Hr Hrows].
    destruct (breakdown_step_priced h mv upl m u r Hs Hr) as [Hm Hu].
    destruct (IH m u rows1 m1 u1 Hl Hrows) as [IHm IHu].
    destruct (holding_market_value self h _) as [v|]; [|discriminate].
    destruct (holding_unrealized_pl self h _) as [w|]; [|discriminate].
    cbn [mbind result_bind] in *. rewrite Hm, Hu. cbn [mbind result_bind].
    split; assumption.
Qed.

End BreakdownTotals.

(** X19.  The three aggregations agree: when [portfolio_breakdown]
    returns and every row has a price, [portfolio_market_value] and
    [portfolio_unrealized_pl] return, on the same holdings and
    overrides, the two totals of the breakdown. *)
Theorem breakdown_totals_are_portfolio_totals
    (self : valuation.ValuationEngine) (source : valuation.holdings_source)
    (price_overrides : option (gmap string pyvalue)) (b : valuation.breakdown) :
  valuation.portfolio_breakdown self source price_overrides = OK b ->
  Forall (fun r => valuation.market_price r <> None) (valuation.holdings b) ->
  valuation.portfolio_market_value self source price_overrides
  = OK (valuation.total_market_value b) /\
  valuation.portfolio_unrealized_pl self source price_overrides
  = OK (valuation.total_unrealized_pl b).
Proof.
  unfold valuation.portfolio_breakdown, valuation.portfolio_market_value,
    valuation.portfolio_unrealized_pl.
  destruct (valuation._extract_holdings source) as [hs|]; [|discriminate].
  cbn [mbind result_bind].
  destruct (valuation.breakdown_loop self (default ∅ price_overrides) hs
              (Fin 0 (-2)) (Fin 0 (-2))) as [[[rows m] u]|] eqn:Hl; [|discriminate].
  cbn [mbind result_bind].
  destruct (Decimal.quantize m valuation._CENT ROUND_HALF_UP) as [tm|] eqn:Hm;
    [|discriminate].
  cbn [mbind result_bind].
  destruct (Decimal.quantize u valuation._CENT ROUND_HALF_UP) as [tu|] eqn:Hu;
    [|discriminate].
  cbn [mbind result_bind]. intros [= <-]. cbn [valuation.holdings
    valuation.total_market_value valuation.total_unrealized_pl]. intros Hrows.
  destruct (breakdown_loop_priced self (default ∅ price_overrides) hs _ _ _ _ _ Hl Hrows)
    as [-> ->].
  cbn [mbind result_bind]. split; assumption.
Qed.

Lemma breakdown_totals_are_portfolio_totals_witness :
  valuation.portfolio_market_value scenario_E.engine
    (valuation.Iterable [valuation.of_holding scenario_E.s1]) scenario_E.overrides
  = OK (Fin 411 (-2)) /\
  valuation.portfolio_unrealized_pl scenario_E.engine
    (valuation.Iterable [valuation.of_holding scenario_E.s1]) scenario_E.overrides
  = OK (Fin 164 (-2)).
Proof.
  exact (breakdown_totals_are_portfolio_totals scenario_E.engine
           (valuation.Iterable [valuation.of_holding scenario_E.s1])
           scenario_E.overrides
           {| valuation.holdings :=
                [{| valuation.row_symbol := Some "S1";
                    valuation.row_quantity := Fin 123456789 (-8);
                    valuation.row_average_cost := Some (Fin 200 (-2));
                    valuation.market_price := Some (Fin 333 (-2));
                    valuation.market_value := Some (Fin 411 (-2));
                    valuation.unrealized_pl := Some (Fin 164 (-2)) |}];
              valuation.total_market_value := Fin 411 (-2);
              valuation.total_unrealized_pl := Fin 164 (-2) |}
           ltac:(vm_compute; reflexivity)
           ltac:(repeat constructor; discriminate)).
Defined.

Section RealizedProfit.
Import valuation.

Lemma add_cents (x y : Z) :
  Z.abs (x + y) < 10 ^ 28 ->
  Decimal.add (Fin x (-2)) (Fin y (-2)) = OK (Fin (x + y) (-2)).
Proof.
  intros Hs. unfold Decimal.add. cbn [Decimal._check_nans].
  rewrite Z.min_id, Z.sub_diag. change (10 ^ 0) with 1. rewrite !Z.mul_1_r.
  apply fix_id; [assumption|vm_compute; split; discriminate].
Qed.

Lemma sum_abs_nonneg (txs : list pyvalue) :
  0 <= sumZ (map (fun v => Z.abs (accounts.cents_of v)) txs).
Proof.
  induction txs as [|v txs IH]; [reflexivity|].
  cbn [map sumZ foldr]. fold (sumZ (map (fun v => Z.abs (accounts.cents_of v)) txs)).
  lia.
Qed.

Lemma realized_loop_sum (txs : list pyvalue) :
  Forall (fun v => v = PyNone \/ exists m e, v = PyDec (Fin m e)) txs ->
  forall t,
    Z.abs t + sumZ (map (fun v => Z.abs (accounts.cents_of v)) txs) < 10 ^ 28 ->
    realized_loop txs (Fin t (-2))
    = OK (Fin (t + sumZ (map accounts.cents_of txs)) (-2)).
Proof.
  induction 1 as [|v txs Hv _ IH]; intros t Hb.
  - cbn [map sumZ foldr realized_loop]. rewrite Z.add_0_r. reflexivity.
  - cbn [map sumZ foldr] in *.
    fold (sumZ (map (fun v => Z.abs (accounts.cents_of v)) txs)) in Hb.
    fold (sumZ (map accounts.cents_of txs)).
    pose proof (sum_abs_nonneg txs) as Hnn.
    destruct Hv as [->|(m & e & ->)]; cbn [realized_loop is_None].
    + cbn [accounts.cents_of] in *. rewrite (IH t) by lia. f_equal; f_equal; lia.
    + unfold _to_decimal_cents. cbn [Decimal_of]. unfold _CENT.
      rewrite quantize_fin_spec by (vm_compute; split; discriminate).
      cbn [accounts.cents_of] in *.
      set (c := Decimal._rescale m e (-2) ROUND_HALF_UP) in *.
      destruct (Z.ltb_spec (Z.abs c) (10 ^ 28)) as [_|Hc]; [|lia].
      cbn [mbind result_bind]. rewrite add_cents by lia.
      cbn [mbind result_bind]. rewrite (IH (t + c)) by lia. f_equal; f_equal; lia.
Qed.

(** X20.  [realized_pl_from_transactions] rounds every profit to cents
    on its own, half up, and then adds: over entries whose profit is
    missing or a finite number the result is the sum of the entries'
    cents (a missing profit counts for nothing), as long as the absolute
    values add up to fewer than 29 digits. *)
Theorem realized_pl_sums_rounded_entries
    (self : ValuationEngine) (transactions : list pyvalue) :
  Forall (fun v => v = PyNone \/ exists m e, v = PyDec (Fin m e)) transactions ->
  sumZ (map (fun v => Z.abs (accounts.cents_of v)) transactions) < 10 ^ 28 ->
  realized_pl_from_transactions self transactions
  = OK (Fin (sumZ (map accounts.cents_of transactions)) (-2)).
Proof.
  intros Hall Hb. unfold realized_pl_from_transactions.
  rewrite (realized_loop_sum transactions Hall 0) by (simpl Z.abs; lia).
  cbn [mbind result_bind]. rewrite Z.add_0_l. unfold _CENT.
  apply quantize_fin_id; [|vm_compute; split; discriminate].
  pose proof (sum_abs_nonneg transactions) as Hnn.
  assert (Hle : forall l, Z.abs (sumZ (map accounts.cents_of l))
                          <= sumZ (map (fun v => Z.abs (accounts.cents_of v)) l)).
  { induction l as [|v l IHl]; [simpl; lia|].
    cbn [map sumZ foldr].
    fold (sumZ (map (fun v => Z.abs (accounts.cents_of v)) l)).
    fold (sumZ (map accounts.cents_of l)). lia. }
  specialize (Hle transactions). lia.
Qed.

Lemma realized_pl_sums_rounded_entries_witness :
  realized_pl_from_transactions scenario_E.engine
    [PyDec (Fin 4 (-3)); PyNone; PyDec (Fin 5 (-3)); PyDec (Fin (-1050) (-2))]
  = OK (Fin (-1049) (-2)).
Proof.
  exact (realized_pl_sums_rounded_entries scenario_E.engine
           [PyDec (Fin 4 (-3)); PyNone; PyDec (Fin 5 (-3)); PyDec (Fin (-1050) (-2))]
           ltac:(repeat (apply List.Forall_cons;
                           [first [left; reflexivity
                                  |right; eexists _, _; reflexivity]|]);
                 apply List.Forall_nil)
           ltac:(vm_compute; reflexivity)).
Defined.

End RealizedProfit.

Section HoldingValue.
Import valuation.

Lemma rescale_half_up_shrinks (n e q : Z) :
  e <= q -> Z.abs (Decimal._rescale n e q ROUND_HALF_UP) <= Z.abs n.
Proof.
  intros Heq. unfold Decimal._rescale.
  destruct (Z.leb_spec q e) as [Hqe|Hqe].
  - replace (e - q) with 0 by lia. change (10 ^ 0) with 1. lia.
  - cbn [Decimal.round_div].
    assert (Hd : 0 < 10 ^ (q - e)) by (apply Z.pow_pos_nonneg; lia).
    destruct (round_half_up_spec n (10 ^ (q - e)) Hd) as (-> & _).
    apply Z.lt_succ_r. apply Z.div_lt_upper_bound; nia.
Qed.

(** X21.  [holding_market_value] with an explicit price rounds the
    price to cents first, multiplies by the quantity as it stands, and
    rounds the product half up to cents: for a holding with a symbol
    and a finite quantity of at most 28 decimals, whose product with the
    price in cents has at most 28 digits.  The price service is not
    consulted. *)
Theorem holding_market_value_rounds_price_first
    (self : ValuationEngine) (h : holding_like) (sym : string) (qm qe pm pe : Z) :
  symbol h = Some sym -> sym <> "" ->
  quantity h = PyDec (Fin qm qe) -> -28 <= qe <= 0 ->
  Z.abs (Decimal._rescale pm pe (-2) ROUND_HALF_UP) < 10 ^ 28 ->
  Z.abs (qm * Decimal._rescale pm pe (-2) ROUND_HALF_UP) < 10 ^ 28 ->
  holding_market_value self h (PyDec (Fin pm pe))
  = OK (Fin (Decimal._rescale (qm * Decimal._rescale pm pe (-2) ROUND_HALF_UP)
               (qe - 2) (-2) ROUND_HALF_UP) (-2)).
Proof.
  intros Hsym Hne Hq Hqe Hpc Hprod.
  unfold holding_market_value. rewrite Hsym, Hq.
  unfold valid_symbol, truthy. rewrite bool_decide_eq_false_2 by assumption.
  cbn [negb is_None]. unfold _to_decimal_cents, to_decimal_or_valuation_error, _CENT.
  cbn [Decimal_of].
  rewrite quantize_fin_spec by (vm_compute; split; discriminate).
  set (pc := Decimal._rescale pm pe (-2) ROUND_HALF_UP) in *.
  destruct (Z.ltb_spec (Z.abs pc) (10 ^ 28)) as [_|]; [|lia].
  cbn [mbind result_bind]. unfold Decimal.mul. cbn [Decimal._check_nans].
  rewrite fix_id; cycle 1.
  { exact Hprod. }
  { unfold Decimal.Etiny, Decimal.Etop, Decimal.Emin, Decimal.Emax, Decimal.prec. lia. }
  cbn [mbind result_bind].
  rewrite quantize_fin_spec by (vm_compute; split; discriminate).
  replace (qe + -2) with (qe - 2) by lia.
  pose proof (rescale_half_up_shrinks (qm * pc) (qe - 2) (-2) ltac:(lia)) as Hle.
  destruct (Z.ltb_spec (Z.abs (Decimal._rescale (qm * pc) (qe - 2) (-2) ROUND_HALF_UP))
              (10 ^ 28)) as [_|]; [reflexivity|lia].
Qed.

Lemma holding_market_value_rounds_price_first_witness :
  holding_market_value scenario_E.engine (of_holding scenario_E.s1)
    (PyDec (Fin 3333 (-3)))
  = OK (Fin (Decimal._rescale (123456789 * Decimal._rescale 3333 (-3) (-2) ROUND_HALF_UP)
               (-8 - 2) (-2) ROUND_HALF_UP) (-2)).
Proof.
  exact (holding_market_value_rounds_price_first scenario_E.engine
           (of_holding scenario_E.s1) "S1" 123456789 (-8) 3333 (-3)
           eq_refl ltac:(discriminate) eq_refl ltac:(lia)
           ltac:(vm_compute; reflexivity) ltac:(vm_compute; reflexivity)).
Defined.

End HoldingValue.

(** ** The trading engine: what a call can reach *)

Section TradingOutcomes.
Import trading.

Lemma keeps_books_bind {A B : Type} (m : M world A) (f : A -> M world B) :
  keeps_books m -> (forall a, keeps_books (f a)) -> keeps_books (sbind m f).
Proof.
  intros Hm Hf w. unfold sbind. specialize (Hm w).
  destruct (m w) as [[a|e] w1]; cbn [fst snd] in *; [|exact Hm].
  destruct (Hf a w1) as [H1 H2]. destruct Hm as [H3 H4].
  split; congruence.
Qed.

Lemma keeps_books_raising_bind {A B : Type} (m : M world A) (f : A -> M world B) :
  keeps_books m -> always_raises m -> keeps_books (sbind m f).
Proof.
  intros Hm Hr w. unfold sbind. specialize (Hm w). destruct (Hr w) as [e He].
  destruct (m w) as [[a|e'] w1]; cbn [fst snd] in *; [discriminate|exact Hm].
Qed.

Lemma keeps_books_stry {A : Type} (c : M world A) (handles : exn -> bool)
    (h : exn -> M world A) :
  keeps_books c -> (forall e, keeps_books (h e)) -> keeps_books (stry c handles h).
Proof.
  intros Hc Hh w. unfold stry. specialize (Hc w).
  destruct (c w) as [[a|e] w1]; cbn [fst snd] in *; [exact Hc|].
  destruct (handles e); [|exact Hc].
  destruct (Hh e w1) as [H1 H2]. destruct Hc as [H3 H4]. split; congruence.
Qed.

Lemma keeps_books_pure {A : Type} (r : result A) : keeps_books (lift r).
Proof. intros w. split; reflexivity. Qed.

Lemma keeps_books_on_portfolio {A : Type} (pid : string) (method : M portfolio.state A) :
  keeps_books (portfolio_repository.on_portfolio pid method).
Proof.
  intros w. unfold portfolio_repository.on_portfolio.
  destruct (portfolios_store w !! pid) as [p|]; [|split; reflexivity].
  destruct (method (heap w, p)) as [r st]. split; reflexivity.
Qed.

Lemma keeps_books_save (pid : string) : keeps_books (portfolio_repository.save pid).
Proof.
  intros w. unfold portfolio_repository.save.
  destruct (portfolios_store w !! pid) as [p|]; [|split; reflexivity].
  destruct (negb _); split; reflexivity.
Qed.

Lemma keeps_books_buy_back (pid sym : string) (quantity price : pyvalue) :
  keeps_books (buy_back pid sym quantity price).
Proof.
  apply keeps_books_bind; [apply keeps_books_on_portfolio|].
  intros _. apply keeps_books_save.
Qed.

Lemma always_raises_bind_l {A B : Type} (m : M world A) (f : A -> M world B) :
  always_raises m -> always_raises (sbind m f).
Proof.
  intros Hm w. unfold sbind. destruct (Hm w) as [e He].
  destruct (m w) as [[a|e'] w1]; cbn [fst] in *; [discriminate|eauto].
Qed.

Lemma always_raises_bind_r {A B : Type} (m : M world A) (f : A -> M world B) :
  (forall a, always_raises (f a)) -> always_raises (sbind m f).
Proof.
  intros Hf w. unfold sbind.
  destruct (m w) as [[a|e'] w1]; cbn [fst] in *; [apply Hf|eauto].
Qed.

(** The step of [sell] that calls [Transaction.trade], with its handler. *)
Lemma sell_trade_step (account_id pid sym tid : string) (quantity price : pyvalue)
    (now : datetime) (pnl : decimal) :
  let step :=
    stry (lift (transaction.trade (Some account_id) "sell" quantity price tid now
                  (PyDec pnl)))
      any_exception
      (fun _ =>
         stry (buy_back pid sym quantity price) any_exception (fun _ => sret tt) ;;!
         sraise TradingError) in
  keeps_books step /\ always_raises step.
Proof.
  intros step. split.
  - apply keeps_books_stry; [apply keeps_books_pure|]. intros _.
    apply keeps_books_bind.
    + apply keeps_books_stry; [apply keeps_books_buy_back|].
      intros _ w. split; reflexivity.
    + intros _ w. split; reflexivity.
  - intros w. unfold step, stry at 1, lift, transaction.trade. cbn [any_exception].
    apply always_raises_bind_r. intros _ w1. exists TradingError. reflexivity.
Qed.

(** X22.  [TradingEngine.sell] never returns an entry, and whatever it
    raises and however far it got, it has neither credited an account
    nor recorded an entry: the accounts and the recorded entries are as
    before the call. *)
Theorem sell_never_returns (self : TradingEngine)
    (account_id portfolio_id symbol : string) (quantity price : pyvalue)
    (use_market_price : bool) (tid : string) (now : datetime) (w : world) :
  let out := sell self account_id portfolio_id symbol quantity price
               use_market_price tid now w in
  (exists e, out.1 = Raise e) /\
  accounts_store out.2 = accounts_store w /\
  transactions_store out.2 = transactions_store w.
Proof.
  assert (H : keeps_books (sell self account_id portfolio_id symbol quantity price
                             use_market_price tid now) /\
              always_raises (sell self account_id portfolio_id symbol quantity price
                               use_market_price tid now)).
  { unfold sell, sell_with. split.
    - apply keeps_books_bind; [apply keeps_books_pure|]. intros norm.
      apply keeps_books_bind; [apply keeps_books_pure|]. intros rp.
      apply keeps_books_bind; [intros w0; split; reflexivity|]. intros [p|];
        [|intros w0; split; reflexivity].
      apply keeps_books_bind; [apply keeps_books_on_portfolio|]. intros [h|];
        [|intros w0; split; reflexivity].
      apply keeps_books_bind; [apply keeps_books_on_portfolio|]. intros held.
      apply keeps_books_bind; [apply keeps_books_pure|]. intros _.
      apply keeps_books_bind; [apply keeps_books_on_portfolio|]. intros pnl.
      apply keeps_books_bind; [apply keeps_books_save|]. intros _.
      apply keeps_books_raising_bind;
        apply (sell_trade_step account_id portfolio_id norm tid quantity rp now pnl).
    - apply always_raises_bind_r. intros norm.
      apply always_raises_bind_r. intros rp.
      apply always_raises_bind_r. intros [p|]; [|intros w0; eexists; reflexivity].
      apply always_raises_bind_r. intros [h|]; [|intros w0; eexists; reflexivity].
      apply always_raises_bind_r. intros held.
      apply always_raises_bind_r. intros _.
      apply always_raises_bind_r. intros pnl.
      apply always_raises_bind_r. intros _.
      apply always_raises_bind_l.
      apply (sell_trade_step account_id portfolio_id norm tid quantity rp now pnl). }
  destruct H as [Hb Hr]. intros out. split; [apply Hr|apply Hb].
Qed.

(** X23.  [TradingEngine.buy] never gets past the construction of the
    entry: it raises and leaves accounts, portfolios, holdings and
    entries as they were; and what it raises is TradingError, unless
    the caller's own price could not be converted, in which case it is
    the error of that conversion. *)
Theorem buy_raises_before_any_change (self : TradingEngine)
    (account_id portfolio_id symbol : string) (quantity price : pyvalue)
    (use_market_price : bool) (tid : string) (now : datetime) (w : world) :
  exists e,
    buy self account_id portfolio_id symbol quantity price use_market_price tid now w
    = (Raise e, w) /\
    (e = TradingError \/ (use_market_price = false /\ price = PyBad e)).
Proof.
  unfold buy, buy_with, sbind at 1, lift at 1.
  destruct (validators.validate_symbol _ _) as [norm|e0];
    cbn [try_except any_exception]; [|eauto].
  unfold sbind at 1, lift at 1, _resolve_price.
  destruct use_market_price.
  - destruct (price_service self (Some norm)) as [v|e0];
      cbn [try_except any_exception]; [|eauto].
    unfold sbind at 1, lift at 1. cbn [transaction.trade try_except any_exception].
    eauto.
  - destruct price as [|d|e0]; cbn [is_None Decimal_ctor fmap result_fmap]; [eauto| |eauto].
    unfold sbind at 1, lift at 1. cbn [transaction.trade try_except any_exception].
    eauto.
Qed.

End TradingOutcomes.

(** ** The in-memory stores *)

Section Storage.
Import storage.

Lemma truthy_opt_some (o : option string) :
  truthy_opt o = true -> exists id, o = Some id /\ id <> "".
Proof.
  destruct o as [id|]; [|discriminate]. cbn [truthy_opt]. unfold truthy.
  intros H. exists id. split; [reflexivity|].
  apply negb_true_iff, bool_decide_eq_false in H. exact H.
Qed.

Lemma save_account_inv (account : loc) (s s' : InMemoryStorage) :
  save_account account s = (OK tt, s') ->
  exists obj id,
    objects s !! account = Some obj /\
    _extract_id obj "account_id" = Some id /\ id <> "" /\
    s' = set_accounts (<[id := account]> (_accounts s)) s.
Proof.
  unfold save_account, sbind, deref.
  destruct (objects s !! account) as [obj|]; [|discriminate].
  destruct (truthy_opt (_extract_id obj "account_id")) eqn:Hid; cbn [negb];
    [|discriminate].
  destruct (truthy_opt_some _ Hid) as (id & Hsome & Hne).
  rewrite Hsome. cbn [default]. intros [= <-]. exists obj, id. repeat split; assumption.
Qed.

(** X24.  An account that was saved is found again: [save_account]
    files the very object under the id it carries (never under an empty
    one), after which [get_account] returns that object for this id,
    [exists_account] holds, every other id is answered as before, and no
    object has changed. *)
Theorem save_then_get_account (account : loc) (s s' : InMemoryStorage) :
  save_account account s = (OK tt, s') ->
  exists obj id,
    objects s !! account = Some obj /\
    _extract_id obj "account_id" = Some id /\ id <> "" /\
    get_account id s' = (OK (Some account), s') /\
    exists_account id s' = (OK true, s') /\
    objects s' = objects s /\
    forall other, other <> id -> (get_account other s').1 = (get_account other s).1.
Proof.
  intros Hsave. destruct (save_account_inv account s s' Hsave)
    as (obj & id & Hobj & Hid & Hne & ->).
  exists obj, id. repeat split; try assumption.
  - unfold get_account. cbn [_accounts set_accounts]. rewrite lookup_insert_eq.
    reflexivity.
  - unfold exists_account. cbn [_accounts set_accounts]. rewrite lookup_insert_eq.
    rewrite bool_decide_eq_true_2 by eauto. reflexivity.
  - intros other Hother. unfold get_account. cbn [fst _accounts set_accounts].
    rewrite lookup_insert_ne by congruence. reflexivity.
Qed.

(** X25.  Deleting what was just saved undoes the save: when no
    account was filed under the id of the saved object, [delete_account]
    of that id brings the storage back to exactly what it was; and
    deleting the id once more raises KeyError. *)
Theorem save_then_delete_account (account : loc) (id : string)
    (s s' : InMemoryStorage) :
  save_account account s = (OK tt, s') ->
  _accounts s' !! id = Some account ->
  _accounts s !! id = None ->
  delete_account id s' = (OK tt, s) /\
  delete_account id s = (Raise KeyError, s).
Proof.
  intros Hsave Hnew Hold. destruct (save_account_inv account s s' Hsave)
    as (obj & id' & Hobj & Hid & Hne & ->).
  cbn [_accounts set_accounts] in Hnew.
  assert (id' = id) as ->.
  { destruct (decide (id' = id)) as [Heq|Hneq]; [exact Heq|].
    rewrite lookup_insert_ne in Hnew by exact Hneq. congruence. }
  unfold delete_account. cbn [_accounts set_accounts]. rewrite lookup_insert_eq, Hold.
  split; [|reflexivity]. f_equal. destruct s as [o a p t].
  unfold set_accounts. cbn [objects _accounts _portfolios _transactions] in *.
  f_equal. rewrite delete_insert_eq. apply delete_id. exact Hold.
Qed.

Lemma save_then_get_account_witness :
  let s := InMemoryStorage_init
             {[ 1%positive := PyDict {[ "account_id" := Some "acct-1" ]} ]} in
  let s' := set_accounts {[ "acct-1" := 1%positive ]} s in
  save_account 1%positive s = (OK tt, s') /\
  exists obj id,
    objects s !! 1%positive = Some obj /\
    _extract_id obj "account_id" = Some id /\ id <> "" /\
    get_account id s' = (OK (Some 1%positive), s') /\
    exists_account id s' = (OK true, s') /\
    objects s' = objects s /\
    forall other, other <> id -> (get_account other s').1 = (get_account other s).1.
Proof.
  intros s s'.
  assert (H : save_account 1%positive s = (OK tt, s')) by (vm_compute; reflexivity).
  split; [exact H|]. exact (save_then_get_account 1%positive s s' H).
Defined.

Lemma save_then_delete_account_witness :
  let s := InMemoryStorage_init
             {[ 1%positive := PyDict {[ "account_id" := Some "acct-1" ]} ]} in
  let s' := set_accounts {[ "acct-1" := 1%positive ]} s in
  delete_account "acct-1" s' = (OK tt, s) /\
  delete_account "acct-1" s = (Raise KeyError, s).
Proof.
  intros s s'.
  exact (save_then_delete_account 1%positive "acct-1" s s'
           ltac:(vm_compute; reflexivity) ltac:(vm_compute; reflexivity)
           ltac:(vm_compute; reflexivity)).
Defined.

Lemma extract_attached (obj : pyobject) (key_name id_value : string) :
  (forall attrs, obj <> PyInstance attrs true) ->
  _extract_id (_attach_id obj key_name id_value) key_name = Some id_value.
Proof.
  intros Hmut. destruct obj as [items|attrs [|]]; cbn [_attach_id _extract_id].
  - rewrite lookup_insert_eq. reflexivity.
  - contradiction (Hmut attrs). reflexivity.
  - rewrite lookup_insert_eq. reflexivity.
Qed.

Lemma attach_twice (obj : pyobject) (key_name id_value : string) :
  _attach_id (_attach_id obj key_name id_value) key_name id_value
  = _attach_id obj key_name id_value.
Proof.
  destruct obj as [items|attrs [|]]; cbn [_attach_id]; [|reflexivity|];
    rewrite insert_insert_eq; reflexivity.
Qed.

(** X26.  An entry keeps the id it was stored under: for a dict or an
    instance that accepts assignment, [save_transaction] returns a
    non-empty id, files the object under it and leaves that id on the
    object, so that saving the object again returns the same id,
    whatever id would be generated then, and changes nothing. *)
Theorem saved_entry_keeps_its_id (transaction : loc) (uuid4_hex tid : string)
    (obj : pyobject) (s s' : InMemoryStorage) :
  objects s !! transaction = Some obj ->
  (forall attrs, obj <> PyInstance attrs true) ->
  uuid4_hex <> "" ->
  save_transaction transaction uuid4_hex s = (OK tid, s') ->
  tid <> "" /\
  get_transaction tid s' = (OK (Some transaction), s') /\
  (exists obj', objects s' !! transaction = Some obj' /\
                _extract_id obj' "transaction_id" = Some tid) /\
  forall other_uuid, save_transaction transaction other_uuid s' = (OK tid, s').
Proof.
  intros Hobj Hmut Huuid. unfold save_transaction, sbind, deref. rewrite Hobj.
  set (tid0 := if negb (truthy_opt (_extract_id obj "transaction_id"))
               then uuid4_hex else default "" (_extract_id obj "transaction_id")).
  intros [= <- <-].
  assert (Hne : tid0 <> "").
  { unfold tid0. destruct (truthy_opt _) eqn:Ht; cbn [negb]; [|exact Huuid].
    destruct (truthy_opt_some _ Ht) as (id & -> & Hid). exact Hid. }
  assert (Htruthy : truthy_opt (Some tid0) = true).
  { cbn [truthy_opt]. unfold truthy. rewrite bool_decide_eq_false_2 by exact Hne.
    reflexivity. }
  split; [exact Hne|]. split.
  { unfold get_transaction. cbn [_transactions set_transactions].
    rewrite lookup_insert_eq. reflexivity. }
  split.
  { eexists. cbn [objects set_transactions set_objects]. rewrite lookup_insert_eq.
    split; [reflexivity|]. apply extract_attached. exact Hmut. }
  intros other_uuid. cbn [objects set_transactions set_objects].
  rewrite lookup_insert_eq, (extract_attached obj _ _ Hmut), Htruthy.
  cbn [negb default]. rewrite attach_twice. f_equal.
  unfold set_transactions, set_objects.
  cbn [objects _accounts _portfolios _transactions].
  rewrite !insert_insert_eq. reflexivity.
Qed.

Lemma saved_entry_keeps_its_id_witness :
  let s := InMemoryStorage_init {[ 1%positive := PyDict {[ "kind" := Some "buy" ]} ]} in
  let out := save_transaction 1%positive "0f8c" s in
  out.1 = OK "0f8c" /\
  forall other_uuid, save_transaction 1%positive other_uuid out.2 = (OK "0f8c", out.2).
Proof.
  intros s out. split; [vm_compute; reflexivity|].
  pose (obj := PyDict ({[ "kind" := Some "buy" ]} : gmap string (option string))).
  assert (Hobj : objects s !! 1%positive = Some obj) by (vm_compute; reflexivity).
  assert (Hmut : forall attrs, obj <> PyInstance attrs true)
    by (intros attrs; unfold obj; discriminate).
  assert (Huuid : "0f8c" <> "") by discriminate.
  assert (Hsave : save_transaction 1%positive "0f8c" s = (OK "0f8c", out.2))
    by (vm_compute; reflexivity).
  exact (proj2 (proj2 (proj2
           (saved_entry_keeps_its_id 1%positive "0f8c" "0f8c" obj s out.2
              Hobj Hmut Huuid Hsave)))).
Defined.

(** X27.  [list_transactions_for_account] returns exactly the stored
    entries that name the account as their [account_id], [from_account]
    or [to_account], and changes nothing. *)
Theorem listed_entries_name_the_account (account_id : string) (s : InMemoryStorage) :
  exists txs,
    list_transactions_for_account account_id s = (OK txs, s) /\
    forall tx,
      tx ∈ txs <->
      exists tid obj,
        _transactions s !! tid = Some tx /\ objects s !! tx = Some obj /\
        (_extract_id obj "account_id" = Some account_id \/
         _extract_id obj "from_account" = Some account_id \/
         _extract_id obj "to_account" = Some account_id).
Proof.
  eexists. split; [reflexivity|]. intros tx.
  rewrite list_elem_of_In, filter_In, <- list_elem_of_In, list_elem_of_fmap.
  unfold references. split.
  - intros [([tid tx'] & -> & Hin) Href]. cbn [snd] in *.
    apply elem_of_map_to_list in Hin.
    destruct (objects s !! tx') as [obj|]; [|discriminate].
    exists tid, obj. split; [exact Hin|]. split; [reflexivity|].
    apply orb_true_iff in Href as [Href|Href];
      [apply orb_true_iff in Href as [Href|Href]|];
      apply bool_decide_eq_true in Href; auto.
  - intros (tid & obj & Htid & Hobj & Href). split.
    + exists (tid, tx). split; [reflexivity|]. apply elem_of_map_to_list. exact Htid.
    + rewrite Hobj. rewrite !orb_true_iff, !bool_decide_eq_true. tauto.
Qed.

End Storage.

(** ** The breakdown when prices are missing *)

Section MissingPrices.
Import valuation.

Variable self : ValuationEngine.
Variable price_overrides : gmap string pyvalue.






End MissingPrices.


